(** * Risk assessment agent: a shallow embedding and its properties

    Source: [src/agents/risk_assessment_agent.py], class [RiskAssessmentAgent].

    Conventions of the embedding.
    - Python floats are modelled as exact rationals ([Q]); rounding and
      overflow are not modelled.  Equality of numbers is [Qeq] ([==]).
    - A Python exception is an explicit outcome [Raise e]; [try/except
      Exception] is [try_except].
    - numpy does not raise when it divides by zero: it goes on with
      [inf]/[nan] (the module silences the warnings).  An array element that
      is not a finite number is [NonFin]; as soon as the code computes with
      such an element the outcome is [Untracked], which no handler catches:
      the development makes no statement about those runs.
    - Dictionaries built by the code are [pyval] dictionaries with the
      source's keys, in insertion order; dictionaries read by the code with a
      fixed set of keys are records whose optional keys are [option]s. *)

From Stdlib Require Import QArith Qabs Qround Lqa ZArith Lia List String Bool.
From Stdlib Require Import DecimalString Sorted.
Import ListNotations.
Local Open Scope string_scope.
Local Open Scope Q_scope.

Set Warnings "-register-all".

(** ** Exceptions and outcomes *)

Inductive exn : Type :=
| KeyError (key : string)
| ZeroDivisionError
| ValueError (msg : string)
| TypeError
| AttributeError
| IndexError.

Inductive outcome (A : Type) : Type :=
| Ret (a : A)
| Raise (e : exn)
| Untracked.

Arguments Ret {A} a.
Arguments Raise {A} e.
Arguments Untracked {A}.

Definition bind {A B : Type} (c : outcome A) (k : A -> outcome B) : outcome B :=
  match c with
  | Ret a => k a
  | Raise e => Raise e
  | Untracked => Untracked
  end.

Notation "x <- c ;; k" := (bind c (fun x => k))
  (at level 61, c at next level, right associativity).

(** [try: body except Exception as e: handler e]. *)
Definition try_except {A : Type} (body : outcome A) (handler : exn -> outcome A)
  : outcome A :=
  match body with
  | Raise e => handler e
  | o => o
  end.

Fixpoint mapM {A B : Type} (f : A -> outcome B) (xs : list A) : outcome (list B) :=
  match xs with
  | [] => Ret []
  | x :: t => y <- f x ;; ys <- mapM f t ;; Ret (y :: ys)
  end.

(** [d[key]] on an optional key. *)
Definition subscript {A : Type} (key : string) (v : option A) : outcome A :=
  match v with
  | Some a => Ret a
  | None => Raise (KeyError key)
  end.

(** [d.get(key, default)] on an optional key. *)
Definition get_default {A : Type} (v : option A) (default : A) : A :=
  match v with
  | Some a => a
  | None => default
  end.

(** ** Python values built by the agent *)

Inductive pyval : Type :=
| PNone
| PNum (q : Q)
| PStr (s : string)
| PExc (e : exn)                        (* the string [str(e)] *)
| PList (l : list pyval)
| PDict (d : list (string * pyval)).

Definition dict := list (string * pyval).

Fixpoint dict_get {V : Type} (k : string) (d : list (string * V)) : option V :=
  match d with
  | [] => None
  | (k', v) :: t => if String.eqb k k' then Some v else dict_get k t
  end.

(** [d[k] = v]: an existing key keeps its position, a new key goes last. *)
Fixpoint dict_set {V : Type} (k : string) (v : V) (d : list (string * V))
  : list (string * V) :=
  match d with
  | [] => [(k, v)]
  | (k', v') :: t =>
      if String.eqb k k' then (k, v) :: t else (k', v') :: dict_set k v t
  end.

Definition dict_mem {V : Type} (k : string) (d : list (string * V)) : bool :=
  match dict_get k d with Some _ => true | None => false end.

(** [v.get(k, default)]: [AttributeError] when [v] is not a dictionary. *)
Definition py_get (v : pyval) (k : string) (default : pyval) : outcome pyval :=
  match v with
  | PDict d => Ret (get_default (dict_get k d) default)
  | _ => Raise AttributeError
  end.

(** A value used in arithmetic or in a comparison with a number. *)
Definition as_num (v : pyval) : outcome Q :=
  match v with
  | PNum q => Ret q
  | _ => Raise TypeError
  end.

(** ** Numbers *)

(** Python's [min(a, b)] and [max(a, b)]: the first argument unless the
    second is strictly better. *)
Definition py_min (a b : Q) : Q := if Qlt_le_dec b a then b else a.
Definition py_max (a b : Q) : Q := if Qlt_le_dec a b then b else a.

Fixpoint Qsum (xs : list Q) : Q :=
  match xs with
  | [] => 0
  | x :: t => x + Qsum t
  end.

Definition Qlen {A : Type} (xs : list A) : Q := inject_Z (Z.of_nat (List.length xs)).

(** An element of a numpy float array. *)
Inductive npfloat : Type :=
| Fin (q : Q)
| NonFin.                               (* inf, -inf or nan *)

(** Element-wise [a / b] of numpy arrays. *)
Definition np_divide (a b : Q) : npfloat :=
  if Qeq_bool b 0 then NonFin else Fin (a / b).

Fixpoint zip_with {A B C : Type} (f : A -> B -> C) (xs : list A) (ys : list B)
  : list C :=
  match xs, ys with
  | x :: xt, y :: yt => f x y :: zip_with f xt yt
  | _, _ => []
  end.

Fixpoint all_finite (xs : list npfloat) : outcome (list Q) :=
  match xs with
  | [] => Ret []
  | Fin q :: t => qs <- all_finite t ;; Ret (q :: qs)
  | NonFin :: _ => Untracked
  end.

(** [np.diff]. *)
Fixpoint np_diff (xs : list Q) : list Q :=
  match xs with
  | x :: ((y :: _) as t) => (y - x) :: np_diff t
  | _ => []
  end.

(** [np.cumprod]. *)
Fixpoint cumprod_from (acc : Q) (xs : list Q) : list Q :=
  match xs with
  | [] => []
  | x :: t => (acc * x) :: cumprod_from (acc * x) t
  end.

Definition np_cumprod (xs : list Q) : list Q :=
  match xs with
  | [] => []
  | x :: t => x :: cumprod_from x t
  end.

(** [np.maximum] and [np.maximum.accumulate]. *)
Definition np_maximum (a b : Q) : Q := if Qlt_le_dec a b then b else a.

Fixpoint maximum_accumulate_from (m : Q) (xs : list Q) : list Q :=
  match xs with
  | [] => []
  | x :: t => np_maximum m x :: maximum_accumulate_from (np_maximum m x) t
  end.

Definition np_maximum_accumulate (xs : list Q) : list Q :=
  match xs with
  | [] => []
  | x :: t => x :: maximum_accumulate_from x t
  end.

(** [np.min] and [np.max]: [ValueError] on an empty array. *)
Definition np_min (xs : list Q) : outcome Q :=
  match xs with
  | [] => Raise (ValueError "zero-size array to reduction operation minimum which has no identity")
  | x :: t => Ret (fold_left (fun m y => if Qlt_le_dec y m then y else m) t x)
  end.

Definition np_max (xs : list Q) : outcome Q :=
  match xs with
  | [] => Raise (ValueError "zero-size array to reduction operation maximum which has no identity")
  | x :: t => Ret (fold_left (fun m y => if Qlt_le_dec m y then y else m) t x)
  end.

(** [np.mean] of a non-empty array (of an empty one numpy gives [nan]). *)
Definition np_mean (xs : list Q) : outcome Q :=
  match xs with
  | [] => Untracked
  | _ => Ret (Qsum xs / Qlen xs)
  end.

(** ** Inputs *)

(** One price record; [p['price']] raises [KeyError] when the key is absent. *)
Record PriceRecord : Type := { price : option Q }.

(** [price_data[symbol]]: the keys the agent reads. *)
Record SymbolData : Type := {
  current_price : option Q;
  prices : option (list PriceRecord)
}.

(** The empty dictionary [{}] of [price_data.get(symbol, {})]. *)
Definition no_data : SymbolData := {| current_price := None; prices := None |}.

Definition PriceData := list (string * SymbolData).

Definition price_data_get (price_data : PriceData) (symbol : string) : SymbolData :=
  get_default (dict_get symbol price_data) no_data.

Definition price_of (p : PriceRecord) : outcome Q := subscript "price" (price p).

(** ** Return series (lines 502-510) *)

Definition _calculate_returns (price_data : SymbolData) : outcome (list npfloat) :=
  let prices := get_default (prices price_data) [] in
  if (List.length prices <? 2)%nat then Ret []
  else
    prices_array <- mapM price_of prices ;;
    Ret (zip_with np_divide (np_diff prices_array) (removelast prices_array)).

(** ** Maximum drawdown (lines 520-531) *)

Definition _calculate_max_drawdown (price_data : SymbolData) : outcome Q :=
  let prices := get_default (prices price_data) [] in
  if (List.length prices <? 2)%nat then Ret 0
  else
    prices_array <- mapM price_of prices ;;
    returns <- all_finite
      (zip_with np_divide (np_diff prices_array) (removelast prices_array)) ;;
    let cumulative := np_cumprod (map (fun r => 1 + r) returns) in
    let running_max := np_maximum_accumulate cumulative in
    drawdown <- all_finite
      (zip_with np_divide (zip_with Qminus cumulative running_max) running_max) ;;
    m <- np_min drawdown ;;
    Ret (Qabs m).

(** ** Portfolios *)

(** One entry of [portfolio['holdings']]. *)
Record Holding : Type := {
  h_symbol : option string;
  h_quantity : option Q
}.

(** One entry of [portfolio_data['assets']], built by [_prepare_portfolio_data]. *)
Record Asset : Type := {
  a_symbol : string;
  a_quantity : Q;
  a_current_price : Q;
  a_value : Q;
  a_weight : Q
}.

(** The portfolio dictionary as the agent's functions read it: a caller's
    portfolio carries [id], [holdings] and possibly [total_value];
    [_prepare_portfolio_data] builds one with [assets], [total_value] and
    [asset_count]. *)
Record Portfolio : Type := {
  id : option string;
  holdings : option (list Holding);
  total_value : option Q;
  assets : option (list Asset);
  asset_count : option nat
}.

(** ** Portfolio preparation (lines 259-288) *)

(** One round of the loop over the holdings (lines 264-278). *)
Definition holding_asset (price_data : PriceData) (holding : Holding) : outcome Asset :=
  symbol <- subscript "symbol" (h_symbol holding) ;;
  quantity <- subscript "quantity" (h_quantity holding) ;;
  let current_price := get_default (current_price (price_data_get price_data symbol)) 0 in
  let asset_value := quantity * current_price in
  Ret {| a_symbol := symbol; a_quantity := quantity;
         a_current_price := current_price; a_value := asset_value;
         a_weight := 0 |}.

Definition sum_values (assets : list Asset) : Q :=
  fold_left (fun total asset => total + a_value asset) assets 0.

(** Line 282. *)
Definition with_weight (total_value : Q) (asset : Asset) : Asset :=
  {| a_symbol := a_symbol asset; a_quantity := a_quantity asset;
     a_current_price := a_current_price asset; a_value := a_value asset;
     a_weight := if Qlt_le_dec 0 total_value
                 then a_value asset / total_value else 0 |}.

Definition _prepare_portfolio_data (portfolio : Portfolio) (price_data : PriceData)
  : outcome Portfolio :=
  assets <- mapM (holding_asset price_data) (get_default (holdings portfolio) []) ;;
  let total_value := sum_values assets in
  let assets := map (with_weight total_value) assets in
  Ret {| id := None; holdings := None;
         total_value := Some total_value;
         assets := Some assets;
         asset_count := Some (List.length assets) |}.

(** ** Stress scenarios (lines 650-714) *)

Record Scenario : Type := {
  name : string;
  description : option string;
  shocks : list (string * Q)
}.

Definition _get_default_stress_scenarios : list Scenario :=
  [ {| name := "market_crash";
       description := Some "Severe market crash scenario";
       shocks := [("all", -(1#2))] |};
    {| name := "crypto_winter";
       description := Some "Extended bear market";
       shocks := [("all", -(4#5))] |};
    {| name := "bitcoin_crash";
       description := Some "Bitcoin-specific crash";
       shocks := [("BTC", -(3#5)); ("others", -(3#10))] |};
    {| name := "defi_collapse";
       description := Some "DeFi sector collapse";
       shocks := [("DeFi", -(7#10)); ("others", -(1#5))] |};
    {| name := "regulatory_crackdown";
       description := Some "Major regulatory restrictions";
       shocks := [("all", -(2#5))] |} ].

(** The shock applied to one holding: the [if]/[elif] chain of lines 691-697. *)
Definition shock_for (shocks : list (string * Q)) (symbol : string) : Q :=
  if dict_mem "all" shocks then get_default (dict_get "all" shocks) 0
  else if dict_mem symbol shocks then get_default (dict_get symbol shocks) 0
  else if dict_mem "others" shocks then get_default (dict_get "others" shocks) 0
  else 0.

Record ScenarioResult : Type := {
  new_value : Q;
  asset_impacts : dict
}.

(** One round of the loop over the holdings (lines 685-709). *)
Definition apply_to_holding (shocks : list (string * Q)) (price_data : PriceData)
  (acc : ScenarioResult) (holding : Holding) : outcome ScenarioResult :=
  symbol <- subscript "symbol" (h_symbol holding) ;;
  quantity <- subscript "quantity" (h_quantity holding) ;;
  let current_price := get_default (current_price (price_data_get price_data symbol)) 0 in
  let shock := shock_for shocks symbol in
  let new_price := current_price * (1 + shock) in
  let new_asset_value := quantity * new_price in
  Ret {| new_value := new_value acc + new_asset_value;
         asset_impacts :=
           dict_set symbol
             (PDict [ ("original_price", PNum current_price);
                      ("new_price", PNum new_price);
                      ("shock_applied", PNum shock);
                      ("value_change",
                       PNum (new_asset_value - quantity * current_price)) ])
             (asset_impacts acc) |}.

Fixpoint foldM {A S : Type} (f : S -> A -> outcome S) (xs : list A) (s : S)
  : outcome S :=
  match xs with
  | [] => Ret s
  | x :: t => s' <- f s x ;; foldM f t s'
  end.

Definition _apply_stress_scenario (portfolio : Portfolio)
  (shocks : list (string * Q)) (price_data : PriceData) : outcome ScenarioResult :=
  foldM (apply_to_holding shocks price_data)
        (get_default (holdings portfolio) [])
        {| new_value := 0; asset_impacts := [] |}.

(** Python's [a / b] on numbers. *)
Definition py_div (a b : Q) : outcome Q :=
  if Qeq_bool b 0 then Raise ZeroDivisionError else Ret (a / b).

(** One value of [stress_results['scenarios']]. *)
Record ScenarioEntry : Type := {
  e_description : string;
  portfolio_value_before : Q;
  portfolio_value_after : Q;
  absolute_loss : Q;
  percentage_loss : Q;
  e_asset_impacts : dict
}.

Definition entry_value (e : ScenarioEntry) : pyval :=
  PDict [ ("description", PStr (e_description e));
          ("portfolio_value_before", PNum (portfolio_value_before e));
          ("portfolio_value_after", PNum (portfolio_value_after e));
          ("absolute_loss", PNum (absolute_loss e));
          ("percentage_loss", PNum (percentage_loss e));
          ("asset_impacts", PDict (e_asset_impacts e)) ].

(** [min(items, key=...)]: the first item with the least key; [ValueError]
    on an empty sequence. *)
Definition py_min_by {A : Type} (key : A -> Q) (xs : list A) : outcome A :=
  match xs with
  | [] => Raise (ValueError "min() arg is an empty sequence")
  | x :: t => Ret (fold_left (fun m y => if Qlt_le_dec (key y) (key m) then y else m) t x)
  end.

(** One round of the loop over the scenarios (lines 222-236). *)
Definition run_scenario (portfolio : Portfolio) (price_data : PriceData)
  (portfolio_value : Q) (acc : list (string * ScenarioEntry)) (scenario : Scenario)
  : outcome (list (string * ScenarioEntry)) :=
  scenario_result <- _apply_stress_scenario portfolio (shocks scenario) price_data ;;
  ratio <- py_div (portfolio_value - new_value scenario_result) portfolio_value ;;
  Ret (dict_set (name scenario)
         {| e_description := get_default (description scenario) "";
            portfolio_value_before := portfolio_value;
            portfolio_value_after := new_value scenario_result;
            absolute_loss := portfolio_value - new_value scenario_result;
            percentage_loss := ratio * 100;
            e_asset_impacts := asset_impacts scenario_result |}
         acc).

Definition error_result (e : exn) : pyval := PDict [("error", PExc e)].

Section Agent.

(** [datetime.now().isoformat()] at the time of the call. *)
Variable now : string.

(** ** Stress test (lines 205-257) *)

Definition perform_stress_test (portfolio : Portfolio) (price_data : PriceData)
  (scenarios : option (list Scenario)) : outcome pyval :=
  try_except
    (let scenarios := get_default scenarios _get_default_stress_scenarios in
     let portfolio_value := get_default (total_value portfolio) 0 in
     entries <- foldM (run_scenario portfolio price_data portfolio_value) scenarios [] ;;
     worst_scenario <- py_min_by (fun x => portfolio_value_after (snd x)) entries ;;
     avg_loss <- np_mean (map (fun s => percentage_loss (snd s)) entries) ;;
     let resilience_score := py_max 0 (100 - avg_loss) in
     Ret (PDict
       [ ("timestamp", PStr now);
         ("scenarios", PDict (map (fun x => (fst x, entry_value (snd x))) entries));
         ("worst_case_scenario",
          PDict [ ("scenario_name", PStr (fst worst_scenario));
                  ("details", entry_value (snd worst_scenario)) ]);
         ("portfolio_resilience_score", PNum resilience_score) ]))
    (fun e => Ret (error_result e)).

(** ** Library functions that leave the rationals

    Square roots, higher moments, the normal quantile and pandas' correlation
    matrix are taken as given functions on the model's numbers; their values
    are assumed finite. *)

(** [numpy.sqrt]. *)
Variable np_sqrt : Q -> Q.
(** [scipy.stats.skew] and [scipy.stats.kurtosis]. *)
Variable stats_skew : list Q -> Q.
Variable stats_kurtosis : list Q -> Q.
(** [scipy.stats.norm.ppf] on the open interval (0, 1). *)
Variable norm_ppf : Q -> Q.
(** [DataFrame.corr()] on the columns of the frame, as a list of rows.  For
    a column without variance pandas gives NaN, which these numbers do not
    have: a run in which that happens is not described by this function. *)
Variable df_corr : list (list Q) -> list (list Q).

Definition mean_of (xs : list Q) : Q := Qsum xs / Qlen xs.

(** [np.std]: population standard deviation. *)
Definition np_std (xs : list Q) : outcome Q :=
  match xs with
  | [] => Untracked
  | _ => Ret (np_sqrt (mean_of (map (fun x => (x - mean_of xs) * (x - mean_of xs)) xs)))
  end.

Definition risk_free_rate : Q := 2 # 100.

(** [xs[-n:]] for [n >= 1]. *)
Definition last_n {A : Type} (n : nat) (xs : list A) : list A :=
  skipn (List.length xs - n) xs.

(** [xs[-k]]. *)
Definition index_from_end {A : Type} (k : nat) (xs : list A) : outcome A :=
  if ((1 <=? k) && (k <=? List.length xs))%nat
  then match nth_error xs (List.length xs - k) with
       | Some x => Ret x
       | None => Raise IndexError
       end
  else Raise IndexError.

(** ** Single-asset metrics (lines 512-553) *)

Definition _calculate_volatility (price_data : SymbolData) (window : nat) : outcome Q :=
  returns <- _calculate_returns price_data ;;
  if (List.length returns <? window)%nat then Ret 0
  else
    recent <- all_finite (last_n window returns) ;;
    sd <- np_std recent ;;
    Ret (sd * np_sqrt 365).

Definition _calculate_beta (price_data : SymbolData) : outcome Q :=
  returns <- _calculate_returns price_data ;;
  if (List.length returns <? 30)%nat then Ret 1
  else
    returns <- all_finite returns ;;
    volatility <- np_std returns ;;
    let market_volatility := 2 # 100 in
    Ret (volatility / market_volatility).

Definition _calculate_sharpe_ratio (price_data : SymbolData) : outcome Q :=
  returns <- _calculate_returns price_data ;;
  if (List.length returns =? 0)%nat then Ret 0
  else
    returns <- all_finite returns ;;
    let excess_returns := mean_of returns - risk_free_rate / 365 in
    sd <- np_std returns ;;
    Ret (if Qlt_le_dec 0 sd then excess_returns / sd else 0).

(** Lines 290-300; [window] has its default, 30. *)
Definition _assess_asset_risk (asset : Asset) (price_data : SymbolData) : outcome pyval :=
  volatility <- _calculate_volatility price_data 30 ;;
  max_drawdown <- _calculate_max_drawdown price_data ;;
  beta <- _calculate_beta price_data ;;
  sharpe_ratio <- _calculate_sharpe_ratio price_data ;;
  volatility' <- _calculate_volatility price_data 30 ;;
  Ret (PDict [ ("symbol", PStr (a_symbol asset));
               ("weight", PNum (a_weight asset));
               ("volatility", PNum volatility);
               ("max_drawdown", PNum max_drawdown);
               ("beta", PNum beta);
               ("sharpe_ratio", PNum sharpe_ratio);
               ("risk_contribution", PNum (a_weight asset * volatility')) ]).

(** ** Portfolio return series (lines 566-595) *)

Definition np_scale (w : Q) (x : npfloat) : npfloat :=
  match x with
  | Fin q => Fin (w * q)
  | NonFin => NonFin
  end.

Definition np_add (a b : npfloat) : npfloat :=
  match a, b with
  | Fin x, Fin y => Fin (x + y)
  | _, _ => NonFin
  end.

(** The loop that gathers the non-empty return series by symbol and the
    least length among them ([None] is [float('inf')]); the same loop is
    written in [_calculate_portfolio_returns] and in
    [_analyze_portfolio_correlations]. *)
Definition gather_returns (price_data : PriceData)
  (acc : list (string * list npfloat) * option nat) (symbol : string)
  : outcome (list (string * list npfloat) * option nat) :=
  returns <- _calculate_returns (price_data_get price_data symbol) ;;
  if (0 <? List.length returns)%nat
  then Ret (dict_set symbol returns (fst acc),
            Some (match snd acc with
                  | None => List.length returns
                  | Some m => Nat.min m (List.length returns)
                  end))
  else Ret acc.

(** The weighted return at index [i] (lines 588-593). *)
Definition portfolio_return_at (assets : list Asset)
  (asset_returns : list (string * list npfloat)) (min_length i : nat)
  : outcome npfloat :=
  foldM (fun portfolio_return asset =>
           match dict_get (a_symbol asset) asset_returns with
           | Some returns =>
               r <- index_from_end (min_length - i) returns ;;
               Ret (np_add portfolio_return (np_scale (a_weight asset) r))
           | None => Ret portfolio_return
           end)
        assets (Fin 0).

Definition _calculate_portfolio_returns (portfolio_data : Portfolio)
  (price_data : PriceData) : outcome (list npfloat) :=
  assets <- subscript "assets" (assets portfolio_data) ;;
  gathered <- foldM (gather_returns price_data) (map a_symbol assets) ([], None) ;;
  match gathered with
  | ([], _) | (_, None) | (_, Some O) => Ret []
  | (asset_returns, Some min_length) =>
      mapM (portfolio_return_at assets asset_returns min_length) (seq 0 min_length)
  end.

(** Lines 597-606. *)
Definition _calculate_portfolio_max_drawdown (returns : list Q) : outcome Q :=
  if (List.length returns =? 0)%nat then Ret 0
  else
    let cumulative := np_cumprod (map (fun r => 1 + r) returns) in
    let running_max := np_maximum_accumulate cumulative in
    drawdown <- all_finite
      (zip_with np_divide (zip_with Qminus cumulative running_max) running_max) ;;
    m <- np_min drawdown ;;
    Ret (Qabs m).

(** Lines 555-564. *)
Definition _calculate_sortino_ratio (returns : list Q) : outcome Q :=
  if (List.length returns =? 0)%nat then Ret 0
  else
    let excess_returns := mean_of returns - risk_free_rate / 365 in
    let downside_returns := filter (fun r => if Qlt_le_dec r 0 then true else false) returns in
    downside_std <- (if (0 <? List.length downside_returns)%nat
                     then np_std downside_returns else np_std returns) ;;
    Ret (if Qlt_le_dec 0 downside_std then excess_returns / downside_std else 0).

(** ** Percentiles *)

Fixpoint insert_sorted (x : Q) (xs : list Q) : list Q :=
  match xs with
  | [] => [x]
  | y :: t => if Qle_bool x y then x :: y :: t else y :: insert_sorted x t
  end.

Definition np_sort (xs : list Q) : list Q := fold_right insert_sorted [] xs.

(** [np.percentile(xs, q)] with numpy's default linear interpolation
    between the two order statistics around position [(n - 1) * q / 100];
    [ValueError] when [q] is outside [0, 100]; of an empty array numpy gives
    [nan]. *)
Definition np_percentile (xs : list Q) (q : Q) : outcome Q :=
  if Qle_bool 0 q && Qle_bool q 100 then
    match xs with
    | [] => Untracked
    | _ =>
        let sorted := np_sort xs in
        let virtual_index := (q / 100) * (Qlen xs - 1) in
        let previous := Z.to_nat (Qfloor virtual_index) in
        let next := Nat.min (previous + 1) (List.length xs - 1) in
        let gamma := virtual_index - inject_Z (Qfloor virtual_index) in
        Ret (nth previous sorted 0
             + (nth next sorted 0 - nth previous sorted 0) * gamma)
    end
  else Raise (ValueError "Percentiles must be in the range [0, 100]").

(** ** Value at Risk (lines 144-203) *)

Definition round_half_even (q : Q) : Z :=
  let f := Qfloor q in
  match Qcompare (q - inject_Z f) (1 # 2) with
  | Lt => f
  | Gt => (f + 1)%Z
  | Eq => if Z.even f then f else (f + 1)%Z
  end.

(** [f'{confidence:.0%}'] for a non-negative [confidence]. *)
Definition percent_key (confidence : Q) : string :=
  NilZero.string_of_int (Z.to_int (round_half_even (confidence * 100))) ++ "%".

(** One round of the historical loop (lines 164-183): the estimates and
    the expected shortfalls gathered so far, and one confidence level. *)
Definition historical_level (portfolio : Portfolio) (portfolio_returns : list Q)
  (acc : dict * dict) (confidence : Q) : outcome (dict * dict) :=
  let var_percentile := (1 - confidence) * 100 in
  var_value <- np_percentile portfolio_returns var_percentile ;;
  let tail_returns :=
    filter (fun r => Qle_bool r var_value) portfolio_returns in
  let expected_shortfall :=
    if (0 <? List.length tail_returns)%nat then mean_of tail_returns else var_value in
  let total := get_default (total_value portfolio) 0 in
  Ret (dict_set (percent_key confidence)
         (PDict [ ("var_absolute", PNum var_value);
                  ("var_percentage", PNum (var_value * 100));
                  ("var_dollar", PNum (var_value * total)) ])
         (fst acc),
       dict_set (percent_key confidence)
         (PDict [ ("es_absolute", PNum expected_shortfall);
                  ("es_percentage", PNum (expected_shortfall * 100));
                  ("es_dollar", PNum (expected_shortfall * total)) ])
         (snd acc)).

(** One round of the parametric loop (lines 190-197); [norm.ppf] is finite
    on the open interval (0, 1) only. *)
Definition parametric_level (returns_mean returns_std : Q) (acc : dict)
  (confidence : Q) : outcome dict :=
  let p := 1 - confidence in
  if Qlt_le_dec 0 p then
    if Qlt_le_dec p 1 then
      let z_score := norm_ppf p in
      let parametric_var := returns_mean + z_score * returns_std in
      Ret (dict_set (percent_key confidence)
             (PDict [ ("var_absolute", PNum parametric_var);
                      ("var_percentage", PNum (parametric_var * 100)) ])
             acc)
    else Untracked
  else Untracked.

Definition default_confidence_levels : list Q := [95 # 100; 99 # 100].

Definition calculate_var (portfolio : Portfolio) (price_data : PriceData)
  (confidence_levels : list Q) : outcome pyval :=
  try_except
    (portfolio_returns <- _calculate_portfolio_returns portfolio price_data ;;
     if (List.length portfolio_returns <? 30)%nat
     then Ret (PDict [("error", PStr "Insufficient data for VaR calculation")])
     else
       portfolio_returns <- all_finite portfolio_returns ;;
       historical <- foldM (historical_level portfolio portfolio_returns)
                           confidence_levels ([], []) ;;
       let returns_mean := mean_of portfolio_returns in
       returns_std <- np_std portfolio_returns ;;
       parametric <- foldM (parametric_level returns_mean returns_std)
                           confidence_levels [] ;;
       Ret (PDict
         [ ("timestamp", PStr now);
           ("confidence_levels", PList (map PNum confidence_levels));
           ("var_estimates", PDict (fst historical));
           ("expected_shortfall", PDict (snd historical));
           ("methodology", PStr "historical_simulation");
           ("parametric_var", PDict parametric) ]))
    (fun e => Ret (error_result e)).

(** ** Portfolio risk metrics (lines 302-341) *)

Definition _calculate_portfolio_risk_metrics (portfolio_data : Portfolio)
  (price_data : PriceData) : outcome pyval :=
  try_except
    (portfolio_returns <- _calculate_portfolio_returns portfolio_data price_data ;;
     if (List.length portfolio_returns =? 0)%nat
     then Ret (PDict [("error", PStr "No return data available")])
     else
       portfolio_returns <- all_finite portfolio_returns ;;
       let returns_mean := mean_of portfolio_returns in
       returns_std <- np_std portfolio_returns ;;
       let returns_skew := stats_skew portfolio_returns in
       let returns_kurtosis := stats_kurtosis portfolio_returns in
       let sharpe_ratio :=
         if Qlt_le_dec 0 returns_std
         then (returns_mean - risk_free_rate / 365) / returns_std else 0 in
       sortino_ratio <- _calculate_sortino_ratio portfolio_returns ;;
       max_drawdown <- _calculate_portfolio_max_drawdown portfolio_returns ;;
       let daily_volatility := returns_std in
       let annual_volatility := returns_std * np_sqrt 365 in
       var_95 <- np_percentile portfolio_returns 5 ;;
       var_99 <- np_percentile portfolio_returns 1 ;;
       Ret (PDict
         [ ("daily_return_mean", PNum returns_mean);
           ("daily_volatility", PNum daily_volatility);
           ("annual_volatility", PNum annual_volatility);
           ("sharpe_ratio", PNum sharpe_ratio);
           ("sortino_ratio", PNum sortino_ratio);
           ("max_drawdown", PNum max_drawdown);
           ("skewness", PNum returns_skew);
           ("kurtosis", PNum returns_kurtosis);
           ("var_95", PNum var_95);
           ("var_99", PNum var_99) ]))
    (fun e => Ret (error_result e)).

(** ** Correlation analysis (lines 343-396, 608-648) *)

(** [DataFrame.cov()]: sample covariance of the columns. *)
Definition sample_cov (xs ys : list Q) : Q :=
  Qsum (zip_with (fun x y => (x - mean_of xs) * (y - mean_of ys)) xs ys)
  / (Qlen xs - 1).

Definition df_cov (columns : list (list Q)) : list (list Q) :=
  map (fun ci => map (fun cj => sample_cov ci cj) columns) columns.

(** [Series.std()]: sample standard deviation. *)
Definition series_std (xs : list Q) : Q := np_sqrt (sample_cov xs xs).

(** [np.dot] of two vectors, and of a matrix and a vector. *)
Definition dot (u v : list Q) : outcome Q :=
  if (List.length u =? List.length v)%nat
  then Ret (Qsum (zip_with Qmult u v))
  else Raise (ValueError "shapes not aligned").

Definition mat_vec (m : list (list Q)) (v : list Q) : outcome (list Q) :=
  mapM (fun row => dot row v) m.

Definition _calculate_portfolio_volatility (weights : list Q)
  (correlation_matrix : list (list Q)) (returns_df : list (list Q)) : outcome Q :=
  try_except
    (let cov_matrix := df_cov returns_df in
     inner <- mat_vec cov_matrix weights ;;
     portfolio_variance <- dot weights inner ;;
     Ret (np_sqrt portfolio_variance))
    (fun _ => Ret 0).

Definition _categorize_diversification (avg_correlation : Q) : string :=
  if Qlt_le_dec avg_correlation (2 # 10) then "excellent"
  else if Qlt_le_dec avg_correlation (4 # 10) then "good"
  else if Qlt_le_dec avg_correlation (6 # 10) then "moderate"
  else if Qlt_le_dec avg_correlation (8 # 10) then "poor"
  else "very_poor".

Definition matrix_at (m : list (list Q)) (i j : nat) : Q := nth j (nth i m []) 0.

(** The entries above the diagonal, row by row ([np.triu_indices_from], k=1). *)
Definition upper_triangle (m : list (list Q)) : list Q :=
  flat_map (fun i => map (fun j => matrix_at m i j)
                         (seq (S i) (List.length m - S i)))
           (seq 0 (List.length m)).

(** [sorted(pairs, key=lambda x: abs(x['correlation']), reverse=True)]: a
    stable sort, greatest first. *)
Fixpoint insert_by_abs (x : string * string * Q) (l : list (string * string * Q))
  : list (string * string * Q) :=
  match l with
  | [] => [x]
  | y :: t => if Qlt_le_dec (Qabs (snd x)) (Qabs (snd y))
              then y :: insert_by_abs x t else x :: y :: t
  end.

Definition _find_highly_correlated_pairs (columns : list string)
  (correlation_matrix : list (list Q)) (threshold : Q) : pyval :=
  let k := List.length columns in
  let pairs :=
    flat_map (fun i =>
      flat_map (fun j =>
        let correlation := matrix_at correlation_matrix i j in
        if Qle_bool threshold (Qabs correlation)
        then [(nth i columns "", nth j columns "", correlation)] else [])
        (seq (S i) (k - S i)))
      (seq 0 k) in
  PList (map (fun p => PDict [ ("asset1", PStr (fst (fst p)));
                               ("asset2", PStr (snd (fst p)));
                               ("correlation", PNum (snd p)) ])
             (fold_right insert_by_abs [] pairs)).

(** [correlation_matrix.to_dict()]: column, then row. *)
Definition matrix_to_dict (columns : list string) (m : list (list Q)) : pyval :=
  PDict (map (fun cj =>
           (snd cj,
            PDict (map (fun ri => (snd ri, PNum (matrix_at m (fst ri) (fst cj))))
                       (combine (seq 0 (List.length columns)) columns))))
         (combine (seq 0 (List.length columns)) columns)).

Definition _analyze_portfolio_correlations (portfolio_data : Portfolio)
  (price_data : PriceData) : outcome pyval :=
  try_except
    (assets <- subscript "assets" (assets portfolio_data) ;;
     let symbols := map a_symbol assets in
     if (List.length symbols <? 2)%nat
     then Ret (PDict [("message", PStr "Need at least 2 assets for correlation analysis")])
     else
       gathered <- foldM (gather_returns price_data) symbols ([], None) ;;
       let returns_data := fst gathered in
       match snd gathered with
       | None => Ret (PDict [("error", PStr "Insufficient data for correlation analysis")])
       | Some min_length =>
         if ((List.length returns_data <? 2) || (min_length <? 10))%nat
         then Ret (PDict [("error", PStr "Insufficient data for correlation analysis")])
         else
           returns_df <- mapM (fun sr => all_finite (last_n min_length (snd sr)))
                              returns_data ;;
           let columns := map fst returns_data in
           let correlation_matrix := df_corr returns_df in
           avg_correlation <- np_mean (upper_triangle correlation_matrix) ;;
           max_correlation <- np_max (upper_triangle correlation_matrix) ;;
           min_correlation <- np_min (upper_triangle correlation_matrix) ;;
           let weights := map a_weight assets in
           portfolio_volatility <-
             _calculate_portfolio_volatility weights correlation_matrix returns_df ;;
           terms <- mapM (fun iw =>
                            match nth_error returns_df (fst iw) with
                            | Some column => Ret (snd iw * series_std column)
                            | None => Raise IndexError
                            end)
                         (combine (seq 0 (List.length weights)) weights) ;;
           let weighted_avg_volatility := fold_left Qplus terms 0 in
           let diversification_ratio :=
             if Qlt_le_dec 0 portfolio_volatility
             then weighted_avg_volatility / portfolio_volatility else 1 in
           Ret (PDict
             [ ("correlation_matrix", matrix_to_dict columns correlation_matrix);
               ("average_correlation", PNum avg_correlation);
               ("max_correlation", PNum max_correlation);
               ("min_correlation", PNum min_correlation);
               ("diversification_ratio", PNum diversification_ratio);
               ("diversification_level", PStr (_categorize_diversification avg_correlation));
               ("highly_correlated_pairs",
                _find_highly_correlated_pairs columns correlation_matrix (8 # 10)) ])
       end)
    (fun e => Ret (error_result e)).

(** Lines 398-404. *)
Definition _calculate_var (portfolio_data : Portfolio) (price_data : PriceData)
  : outcome pyval :=
  calculate_var portfolio_data price_data default_confidence_levels.

Definition _perform_stress_tests (portfolio_data : Portfolio) (price_data : PriceData)
  : outcome pyval :=
  perform_stress_test portfolio_data price_data None.

(** ** Overall risk score (lines 406-458) *)

(** [np.average(scores, weights=weights)]. *)
Definition np_average (scores weights : list Q) : outcome Q :=
  if (List.length scores =? List.length weights)%nat then
    if Qeq_bool (Qsum weights) 0 then Raise ZeroDivisionError
    else Ret (Qsum (zip_with Qmult scores weights) / Qsum weights)
  else Raise TypeError.

(** [d.get(k1, {}).get(k2, default)] and the like, read as a number. *)
Definition get_in (v : pyval) (k : string) : outcome pyval := py_get v k (PDict []).

Definition _calculate_overall_risk_score (risk_assessment : pyval) : outcome Q :=
  try_except
    (risk_metrics <- get_in risk_assessment "risk_metrics" ;;
     volatility <- py_get risk_metrics "annual_volatility" (PNum 0) ;;
     volatility <- as_num volatility ;;
     let volatility_score := py_min 100 (volatility * 100) in
     var_analysis <- get_in risk_assessment "var_analysis" ;;
     var_estimates <- get_in var_analysis "var_estimates" ;;
     estimate_95 <- get_in var_estimates "95%" ;;
     var_percentage <- py_get estimate_95 "var_percentage" (PNum 0) ;;
     var_percentage <- as_num var_percentage ;;
     let var_95 := Qabs var_percentage in
     let var_score := py_min 100 var_95 in
     correlation_analysis <- get_in risk_assessment "correlation_analysis" ;;
     avg_correlation <- py_get correlation_analysis "average_correlation" (PNum 0) ;;
     avg_correlation <- as_num avg_correlation ;;
     let correlation_score := Qabs avg_correlation * 100 in
     stress_test_results <- get_in risk_assessment "stress_test_results" ;;
     resilience_score <- py_get stress_test_results "portfolio_resilience_score" (PNum 50) ;;
     resilience_score <- as_num resilience_score ;;
     let stress_score := 100 - resilience_score in
     let scores := [volatility_score; var_score; correlation_score; stress_score] in
     let weights := [3 # 10; 25 # 100; 2 # 10; 25 # 100] in
     match scores, weights with
     | _ :: _, _ :: _ =>
         overall_score <- np_average scores weights ;;
         Ret (py_min 100 (py_max 0 overall_score))
     | _, _ => Ret 50
     end)
    (fun _ => Ret 50).

Definition _categorize_risk_level (risk_score : Q) : string :=
  if Qlt_le_dec risk_score 20 then "very_low"
  else if Qlt_le_dec risk_score 40 then "low"
  else if Qlt_le_dec risk_score 60 then "medium"
  else if Qlt_le_dec risk_score 80 then "high"
  else "very_high".

(** ** Recommendations (lines 460-500) *)

(** [v in ['high', 'very_high']]. *)
Definition is_high (v : pyval) : bool :=
  match v with
  | PStr s => String.eqb s "high" || String.eqb s "very_high"
  | _ => false
  end.

Definition items (v : pyval) : outcome dict :=
  match v with
  | PDict d => Ret d
  | _ => Raise AttributeError
  end.

Definition _generate_risk_recommendations (risk_assessment : pyval)
  : outcome (list string) :=
  risk_level <- py_get risk_assessment "risk_level" (PStr "medium") ;;
  risk_score <- py_get risk_assessment "risk_score" (PNum 50) ;;
  let r1 := if is_high risk_level
            then [ "Consider reducing position sizes to lower overall portfolio risk";
                   "Implement stop-loss orders to limit downside exposure" ]
            else [] in
  risk_metrics <- get_in risk_assessment "risk_metrics" ;;
  volatility <- py_get risk_metrics "annual_volatility" (PNum 0) ;;
  volatility <- as_num volatility ;;
  let r2 := if Qlt_le_dec 1 volatility
            then ["Portfolio exhibits very high volatility - consider diversification"]
            else [] in
  correlation_analysis <- get_in risk_assessment "correlation_analysis" ;;
  avg_correlation <- py_get correlation_analysis "average_correlation" (PNum 0) ;;
  avg_correlation <- as_num avg_correlation ;;
  let r3 := if Qlt_le_dec (7 # 10) avg_correlation
            then ["High correlation between assets - consider adding uncorrelated assets"]
            else [] in
  var_analysis <- get_in risk_assessment "var_analysis" ;;
  var_estimates <- get_in var_analysis "var_estimates" ;;
  estimate_95 <- get_in var_estimates "95%" ;;
  var_percentage <- py_get estimate_95 "var_percentage" (PNum 0) ;;
  var_percentage <- as_num var_percentage ;;
  let r4 := if Qlt_le_dec 10 (Qabs var_percentage)
            then ["High Value at Risk detected - consider hedging strategies"]
            else [] in
  stress_test_results <- get_in risk_assessment "stress_test_results" ;;
  resilience_score <- py_get stress_test_results "portfolio_resilience_score" (PNum 50) ;;
  resilience_score <- as_num resilience_score ;;
  let r5 := if Qlt_le_dec resilience_score 30
            then ["Portfolio shows low resilience to stress scenarios"]
            else [] in
  asset_risks <- get_in risk_assessment "asset_risks" ;;
  asset_risks <- items asset_risks ;;
  flags <- mapM (fun sr => level <- py_get (snd sr) "risk_level" PNone ;;
                           Ret (fst sr, is_high level))
                asset_risks ;;
  let high_risk_assets := map fst (filter snd flags) in
  let r6 := match high_risk_assets with
            | [] => []
            | _ => ["High-risk assets detected: " ++ String.concat ", " high_risk_assets]
            end in
  let recommendations := (r1 ++ r2 ++ r3 ++ r4 ++ r5 ++ r6)%list in
  Ret (match recommendations with
       | [] => ["Portfolio risk appears to be within acceptable levels"]
       | _ => recommendations
       end).

(** ** The orchestrator (lines 46-98) *)

(** One round of the loop over the assets (lines 70-72). *)
Definition assess_asset (price_data : PriceData) (asset_risks : dict) (asset : Asset)
  : outcome dict :=
  asset_risk <- _assess_asset_risk asset (price_data_get price_data (a_symbol asset)) ;;
  Ret (dict_set (a_symbol asset) asset_risk asset_risks).

Definition assess_portfolio_risk (portfolio : Portfolio) (price_data : PriceData)
  : outcome pyval :=
  try_except
    (let risk_assessment :=
       [ ("portfolio_id", PStr (get_default (id portfolio) "unknown"));
         ("timestamp", PStr now);
         ("total_value_usd", PNum 0);
         ("risk_metrics", PDict []);
         ("asset_risks", PDict []);
         ("correlation_analysis", PDict []);
         ("var_analysis", PDict []);
         ("stress_test_results", PDict []);
         ("risk_score", PNum 0);
         ("risk_level", PStr "unknown");
         ("recommendations", PList []) ] in
     portfolio_data <- _prepare_portfolio_data portfolio price_data ;;
     total <- subscript "total_value" (total_value portfolio_data) ;;
     let risk_assessment := dict_set "total_value_usd" (PNum total) risk_assessment in
     assets <- subscript "assets" (assets portfolio_data) ;;
     asset_risks <- foldM (assess_asset price_data) assets [] ;;
     let risk_assessment := dict_set "asset_risks" (PDict asset_risks) risk_assessment in
     risk_metrics <- _calculate_portfolio_risk_metrics portfolio_data price_data ;;
     let risk_assessment := dict_set "risk_metrics" risk_metrics risk_assessment in
     correlation_analysis <- _analyze_portfolio_correlations portfolio_data price_data ;;
     let risk_assessment :=
       dict_set "correlation_analysis" correlation_analysis risk_assessment in
     var_analysis <- _calculate_var portfolio_data price_data ;;
     let risk_assessment := dict_set "var_analysis" var_analysis risk_assessment in
     stress_test_results <- _perform_stress_tests portfolio_data price_data ;;
     let risk_assessment :=
       dict_set "stress_test_results" stress_test_results risk_assessment in
     risk_score <- _calculate_overall_risk_score (PDict risk_assessment) ;;
     let risk_assessment := dict_set "risk_score" (PNum risk_score) risk_assessment in
     let risk_assessment :=
       dict_set "risk_level" (PStr (_categorize_risk_level risk_score)) risk_assessment in
     recommendations <- _generate_risk_recommendations (PDict risk_assessment) ;;
     let risk_assessment :=
       dict_set "recommendations" (PList (map PStr recommendations)) risk_assessment in
     Ret (PDict risk_assessment))
    (fun e => Ret (error_result e)).

End Agent.

(** ** Vocabulary of the statements, and sample inputs *)

(** Price records that all carry a price, in chronological order. *)
Definition records_of (ps : list Q) : list PriceRecord :=
  map (fun p => {| price := Some p |}) ps.

(** The array [np.diff(prices) / prices[:-1]] of lines 509 and 527. *)
Definition simple_returns (ps : list Q) : list npfloat :=
  zip_with np_divide (np_diff ps) (removelast ps).

(** The data of a symbol that has this price history and nothing else. *)
Definition series (ps : list Q) : SymbolData :=
  {| current_price := None; prices := Some (records_of ps) |}.

(** Each price is less than the next. *)
Fixpoint strictly_increasing (ps : list Q) : Prop :=
  match ps with
  | p :: ((p' :: _) as t) => p < p' /\ strictly_increasing t
  | _ => True
  end.

(** The array [(cumulative - running_max) / running_max] of line 529. *)
Definition drawdown_of (cumulative running_max : list Q) : list npfloat :=
  zip_with np_divide (zip_with Qminus cumulative running_max) running_max.

(** What [_prepare_portfolio_data] records for one holding. *)
Definition asset_of_holding (price_data : PriceData) (h : Holding) (a : Asset) : Prop :=
  h_symbol h = Some (a_symbol a)
  /\ h_quantity h = Some (a_quantity a)
  /\ a_current_price a
     = get_default (current_price (price_data_get price_data (a_symbol a))) 0
  /\ a_value a = a_quantity a * a_current_price a.

(** One BTC at 30000 and ten ETH at 2000, without price history. *)
Definition two_coin_portfolio : Portfolio :=
  {| id := Some "demo";
     holdings := Some [ {| h_symbol := Some "BTC"; h_quantity := Some 1 |};
                        {| h_symbol := Some "ETH"; h_quantity := Some 10 |} ];
     total_value := None; assets := None; asset_count := None |}.

Definition two_coin_prices : PriceData :=
  [ ("BTC", {| current_price := Some 30000; prices := None |});
    ("ETH", {| current_price := Some 2000; prices := None |}) ].

(** What [_prepare_portfolio_data] makes of it. *)
Definition two_coin_data : Portfolio :=
  {| id := None; holdings := None;
     total_value := Some (0 + 1 * 30000 + 10 * 2000);
     assets := Some
       [ {| a_symbol := "BTC"; a_quantity := 1; a_current_price := 30000;
            a_value := 1 * 30000;
            a_weight := 1 * 30000 / (0 + 1 * 30000 + 10 * 2000) |};
         {| a_symbol := "ETH"; a_quantity := 10; a_current_price := 2000;
            a_value := 10 * 2000;
            a_weight := 10 * 2000 / (0 + 1 * 30000 + 10 * 2000) |} ];
     asset_count := Some 2%nat |}.

(** [result['asset_impacts'][symbol]['shock_applied']]. *)
Definition applied_shock (r : ScenarioResult) (symbol : string) : option pyval :=
  match dict_get symbol (asset_impacts r) with
  | Some (PDict impact) => dict_get "shock_applied" impact
  | _ => None
  end.

Definition btc_holding : Holding :=
  {| h_symbol := Some "BTC"; h_quantity := Some 1 |}.

(** One BTC at 50000. *)
Definition btc_holder : Portfolio :=
  {| id := None; holdings := Some [btc_holding];
     total_value := Some 50000; assets := None; asset_count := None |}.

Definition btc_prices : PriceData :=
  [ ("BTC", {| current_price := Some 50000; prices := None |}) ].

(** No holdings, hence worth nothing. *)
Definition empty_portfolio : Portfolio :=
  {| id := None; holdings := Some []; total_value := Some 0;
     assets := None; asset_count := None |}.

(** The shocks of the default scenario [bitcoin_crash]. *)
Definition btc_crash_shocks : list (string * Q) :=
  [("BTC", -(3#5)); ("others", -(3#10))].

(** What [_apply_stress_scenario] returns for [btc_holder] under
    [btc_crash_shocks]. *)
Definition btc_crash_result : ScenarioResult :=
  {| new_value := 0 + 1 * (50000 * (1 + -(3#5)));
     asset_impacts :=
       [ ("BTC",
          PDict [ ("original_price", PNum 50000);
                  ("new_price", PNum (50000 * (1 + -(3#5))));
                  ("shock_applied", PNum (-(3#5)));
                  ("value_change",
                   PNum (1 * (50000 * (1 + -(3#5))) - 1 * 50000)) ]) ] |}.

(** Shocks that name both the symbol and the wildcard [all]. *)
Definition btc_and_all_shocks : list (string * Q) :=
  [("BTC", -(3#5)); ("all", -(1#2))].

(** [v.get(k1, {}). ... .get(key, default)] read as a number: the input of
    one sub-score. *)
Fixpoint read_number (v : pyval) (path : list string) (key : string) (default : Q)
  : outcome Q :=
  match path with
  | [] => x <- py_get v key (PNum default) ;; as_num x
  | k :: rest => d <- get_in v k ;; read_number d rest key default
  end.

(** The four inputs of the score, as lines 413, 419, 425 and 431 read them. *)
Definition volatility_input (ra : pyval) : outcome Q :=
  read_number ra ["risk_metrics"] "annual_volatility" 0.
Definition var_input (ra : pyval) : outcome Q :=
  read_number ra ["var_analysis"; "var_estimates"; "95%"] "var_percentage" 0.
Definition correlation_input (ra : pyval) : outcome Q :=
  read_number ra ["correlation_analysis"] "average_correlation" 0.
Definition resilience_input (ra : pyval) : outcome Q :=
  read_number ra ["stress_test_results"] "portfolio_resilience_score" 50.

(** The weighted sum of the four sub-scores. *)
Definition weighted_score (volatility var_percentage avg_correlation resilience : Q) : Q :=
  (3 # 10) * py_min 100 (volatility * 100)
  + (25 # 100) * py_min 100 (Qabs var_percentage)
  + (2 # 10) * (Qabs avg_correlation * 100)
  + (25 # 100) * (100 - resilience).

(** A computation that stays within the rationals. *)
Definition tracked {A : Type} (c : outcome A) : Prop := c <> Untracked.

(** The assessment in which only the volatility is known, 100% a year. *)
Definition only_volatility : pyval :=
  PDict [("risk_metrics", PDict [("annual_volatility", PNum 1)])].

(** The position of a percentile in the sorted sample. *)
Definition virtual_index (n : nat) (q : Q) : Q :=
  (q / 100) * (inject_Z (Z.of_nat n) - 1).

(** Linear interpolation in a sorted sample of size [n] at position [v]. *)
Definition interpolate (s : list Q) (n : nat) (v : Q) : Q :=
  nth (Z.to_nat (Qfloor v)) s 0
  + (nth (Nat.min (Z.to_nat (Qfloor v) + 1) (n - 1)) s 0
     - nth (Z.to_nat (Qfloor v)) s 0)
    * (v - inject_Z (Qfloor v)).

(** [result['var_estimates'][key]['var_absolute']]. *)
Definition var_absolute_at (result : pyval) (key : string) : option pyval :=
  match result with
  | PDict d =>
      match dict_get "var_estimates" d with
      | Some (PDict estimates) =>
          match dict_get key estimates with
          | Some (PDict estimate) => dict_get "var_absolute" estimate
          | _ => None
          end
      | _ => None
      end
  | _ => None
  end.

(** One asset holding the whole portfolio, with 31 daily prices 100, 101,
    ..., 130. *)
Definition month_of_prices : list Q :=
  map (fun i => inject_Z (Z.of_nat (100 + i))) (seq 0 31).

Definition one_asset_data : Portfolio :=
  {| id := None; holdings := None; total_value := Some 130;
     assets := Some [ {| a_symbol := "BTC"; a_quantity := 1; a_current_price := 130;
                         a_value := 130; a_weight := 1 |} ];
     asset_count := Some 1%nat |}.

Definition one_asset_prices : PriceData :=
  [ ("BTC", {| current_price := Some 130; prices := Some (records_of month_of_prices) |}) ].

(** The list a computation returns, if it returns one. *)
Definition returned {A : Type} (c : outcome (list A)) : list A :=
  match c with
  | Ret xs => xs
  | _ => []
  end.

(** The 30 portfolio returns of that month. *)
Definition one_asset_returns : list npfloat :=
  returned (_calculate_portfolio_returns one_asset_data one_asset_prices).

Definition one_asset_finite_returns : list Q :=
  returned (all_finite one_asset_returns).

(** The result of the guard of lines 348-349. *)
Definition one_asset_message : pyval :=
  PDict [("message", PStr "Need at least 2 assets for correlation analysis")].

(** A stage result from which sub-score input [key] can be read. *)
Definition readable (v : pyval) (path : list string) (key : string) (default : Q) : Prop :=
  exists q, read_number v path key default = Ret q.

(** One value of [var_estimates]. *)
Definition estimate_shape (v : pyval) : Prop :=
  exists a b c,
    v = PDict [ ("var_absolute", PNum a); ("var_percentage", PNum b);
                ("var_dollar", PNum c) ].

(** One value of [asset_risks]: a dictionary without the key [risk_level]. *)
Definition asset_risk_shape (kv : string * pyval) : Prop :=
  exists d, snd kv = PDict d /\ dict_get "risk_level" d = None.

(** What [_prepare_portfolio_data] makes of the empty portfolio. *)
Definition empty_data : Portfolio :=
  {| id := None; holdings := None; total_value := Some 0; assets := Some [];
     asset_count := Some 0%nat |}.

(** Two holdings; the second record of the ETH history has no [price]. *)
Definition broken_history_prices : PriceData :=
  [ ("BTC", {| current_price := Some 30000; prices := None |});
    ("ETH", {| current_price := Some 2000;
               prices := Some [ {| price := Some 2000 |}; {| price := None |} ] |}) ].

(** The first asset of [two_coin_portfolio] as prepared. *)
Definition btc_asset : Asset :=
  {| a_symbol := "BTC"; a_quantity := 1; a_current_price := 30000;
     a_value := 1 * 30000; a_weight := 1 * 30000 / (0 + 1 * 30000 + 10 * 2000) |}.

(** The five risk levels, least risky first. *)
Definition level_rank (level : string) : nat :=
  if String.eqb level "very_low" then 0
  else if String.eqb level "low" then 1
  else if String.eqb level "medium" then 2
  else if String.eqb level "high" then 3
  else 4.

(** The assessment of the empty portfolio; no library function is called
    on the way. *)
Definition empty_assessment (now : string) : dict :=
  match assess_portfolio_risk now (fun q => q) (fun _ => 0) (fun _ => 0) (fun q => q)
          (fun m => m) empty_portfolio []
  with
  | Ret (PDict d) => d
  | _ => []
  end.

(** The key whose absence stops a loop over the holdings: [symbol] is read
    before [quantity], and the holdings in order. *)
Fixpoint first_missing_key (hs : list Holding) : option string :=
  match hs with
  | [] => None
  | h :: t =>
      match h_symbol h, h_quantity h with
      | None, _ => Some "symbol"
      | Some _, None => Some "quantity"
      | Some _, Some _ => first_missing_key t
      end
  end.

(** The current price the agent uses for a holding: 0 for a symbol, or a
    [current_price], that [price_data] does not have. *)
Definition holding_price (price_data : PriceData) (h : Holding) : Q :=
  get_default (current_price (price_data_get price_data (get_default (h_symbol h) ""))) 0.

(** The value of the holdings at current prices. *)
Definition holdings_value (price_data : PriceData) (hs : list Holding) : Q :=
  Qsum (map (fun h => get_default (h_quantity h) 0 * holding_price price_data h) hs).

(** The value of the holdings after the shocks of a scenario. *)
Definition stressed_value (shocks : list (string * Q)) (price_data : PriceData)
  (hs : list Holding) : Q :=
  Qsum (map (fun h => get_default (h_quantity h) 0
                      * (holding_price price_data h
                         * (1 + shock_for shocks (get_default (h_symbol h) ""))))
            hs).

(** A holding of a symbol the price data does not know. *)
Definition doge_holder : Portfolio :=
  {| id := None;
     holdings := Some [ {| h_symbol := Some "BTC"; h_quantity := Some 1 |};
                        {| h_symbol := Some "DOGE"; h_quantity := Some 1000 |} ];
     total_value := None; assets := None; asset_count := None |}.

(** The DOGE asset as prepared from [doge_holder] with [two_coin_prices]. *)
Definition doge_asset : Asset :=
  {| a_symbol := "DOGE"; a_quantity := 1000; a_current_price := 0;
     a_value := 1000 * 0;
     a_weight := 1000 * 0 / (0 + 1 * 30000 + 1000 * 0) |}.

Definition doge_assets : list Asset :=
  [ {| a_symbol := "BTC"; a_quantity := 1; a_current_price := 30000;
       a_value := 1 * 30000;
       a_weight := 1 * 30000 / (0 + 1 * 30000 + 1000 * 0) |};
    doge_asset ].

Definition doge_data : Portfolio :=
  {| id := None; holdings := None;
     total_value := Some (0 + 1 * 30000 + 1000 * 0);
     assets := Some doge_assets;
     asset_count := Some 2%nat |}.

(** [result['scenarios'][name][field]]. *)
Definition scenario_field (result : pyval) (name field : string) : option pyval :=
  match result with
  | PDict d =>
      match dict_get "scenarios" d with
      | Some (PDict scenarios) =>
          match dict_get name scenarios with
          | Some (PDict entry) => dict_get field entry
          | _ => None
          end
      | _ => None
      end
  | _ => None
  end.

(** [result['worst_case_scenario']['scenario_name']]. *)
Definition worst_case_name (result : pyval) : option pyval :=
  match result with
  | PDict d =>
      match dict_get "worst_case_scenario" d with
      | Some (PDict worst) => dict_get "scenario_name" worst
      | _ => None
      end
  | _ => None
  end.

(** [two_coin_portfolio] as a caller of [perform_stress_test] passes it,
    with its total value. *)
Definition two_coin_valued : Portfolio :=
  {| id := Some "demo";
     holdings := holdings two_coin_portfolio;
     total_value := Some 50000; assets := None; asset_count := None |}.

(** Its stress test under the default scenarios. *)
Definition two_coin_stress (now : string) : dict :=
  match perform_stress_test now two_coin_valued two_coin_prices None with
  | Ret (PDict d) => d
  | _ => []
  end.

(** The first default scenario. *)
Definition market_crash : Scenario :=
  {| name := "market_crash";
     description := Some "Severe market crash scenario";
     shocks := [("all", -(1#2))] |}.

(** The records of a price history, [price_data.get('prices', [])]. *)
Definition history (pd : SymbolData) : list PriceRecord :=
  get_default (prices pd) [].

(** Some record of the history has no [price]. *)
Definition lacks_a_price (ps : list PriceRecord) : bool :=
  existsb (fun p => match price p with None => true | Some _ => false end) ps.

(** [result[key]] of a dictionary the agent returns. *)
Definition field_of (r : pyval) (key : string) : option pyval :=
  match r with
  | PDict d => dict_get key d
  | _ => None
  end.

(** A month of prices that go up and down. *)
Definition wavering_prices : list Q :=
  map (fun i => if Nat.even i then 100 else 90) (seq 0 25).

(** The number of returns the history of a symbol gives: one less than its
    records. *)
Definition return_count (price_data : PriceData) (symbol : string) : nat :=
  (List.length (history (price_data_get price_data symbol)) - 1)%nat.

(** No price record of the symbol lacks its [price]. *)
Definition priced (price_data : PriceData) (symbol : string) : Prop :=
  lacks_a_price (history (price_data_get price_data symbol)) = false.

(** What the gathering loop holds: every gathered series is at least as long
    as the least length, and a least length is known as soon as a series is
    gathered. *)
Definition gathered_ok (acc : list (string * list npfloat) * option nat) : Prop :=
  match snd acc with
  | Some m => fst acc <> [] /\ Forall (fun kv => (m <= List.length (snd kv))%nat) (fst acc)
  | None => fst acc = []
  end.

(** Two assets, one with a long history and one with a short one. *)
Definition long_and_short_data : Portfolio :=
  {| id := None; holdings := None; total_value := Some 260;
     assets := Some [ {| a_symbol := "BTC"; a_quantity := 1; a_current_price := 130;
                         a_value := 130; a_weight := 1 # 2 |};
                      {| a_symbol := "ETH"; a_quantity := 1; a_current_price := 130;
                         a_value := 130; a_weight := 1 # 2 |} ];
     asset_count := Some 2%nat |}.

Definition long_and_short_prices : PriceData :=
  [ ("BTC", {| current_price := Some 130; prices := Some (records_of month_of_prices) |});
    ("ETH", {| current_price := Some 130; prices := Some (records_of [100; 110; 130]) |}) ].

(** [result['expected_shortfall'][key]['es_absolute']]. *)
Definition es_absolute_at (result : pyval) (key : string) : option pyval :=
  match result with
  | PDict d =>
      match dict_get "expected_shortfall" d with
      | Some (PDict shortfalls) =>
          match dict_get key shortfalls with
          | Some (PDict shortfall) => dict_get "es_absolute" shortfall
          | _ => None
          end
      | _ => None
      end
  | _ => None
  end.

(** The estimates and the shortfalls gathered by the historical loop agree:
    under one key, the shortfall is at most the estimate. *)
Definition shortfall_below_var (acc : dict * dict) : Prop :=
  forall key a b v es,
    dict_get key (fst acc) = Some (PDict a) ->
    dict_get key (snd acc) = Some (PDict b) ->
    dict_get "var_absolute" a = Some (PNum v) ->
    dict_get "es_absolute" b = Some (PNum es) ->
    es <= v.

(** A confidence level that is not a probability. *)
Definition out_of_range (confidence : Q) : Prop := confidence < 0 \/ 1 < confidence.

(** The result of [calculate_var] for a month of rising prices; the
    library functions are not looked at. *)
Definition one_asset_var : pyval :=
  match calculate_var "2024-01-01T00:00:00" (fun q => q) (fun q => q)
          one_asset_data one_asset_prices default_confidence_levels with
  | Ret v => v
  | _ => PNone
  end.

(** Four prices of the one asset, and the risk metrics they give. *)
Definition four_prices : PriceData := [ ("BTC", series [100; 110; 99; 120]) ].

Definition four_price_metrics : pyval :=
  match _calculate_portfolio_risk_metrics (fun q => q) (fun _ => 0) (fun _ => 0)
          one_asset_data four_prices with
  | Ret v => v
  | _ => PNone
  end.

(** The pairs a list of [{'asset1', 'asset2', 'correlation'}] dictionaries
    reports, in its order. *)
Definition pairs_of (v : pyval) : list (string * string * Q) :=
  match v with
  | PList l =>
      flat_map (fun p =>
                  match field_of p "asset1", field_of p "asset2",
                        field_of p "correlation" with
                  | Some (PStr a), Some (PStr b), Some (PNum c) => [(a, b, c)]
                  | _, _, _ => []
                  end) l
  | _ => []
  end.

(** Greatest absolute correlation first. *)
Definition by_abs_descending (x y : string * string * Q) : Prop :=
  Qabs (snd y) <= Qabs (snd x).

(** The five diversification levels, best first. *)
Definition diversification_rank (level : string) : nat :=
  if String.eqb level "excellent" then 0
  else if String.eqb level "good" then 1
  else if String.eqb level "moderate" then 2
  else if String.eqb level "poor" then 3
  else 4.

(** Two assets with twelve prices each, and one the price data has no
    history for. *)
Definition year_of_prices : list Q :=
  map (fun i => inject_Z (Z.of_nat (100 + i * i))) (seq 0 12).

Definition other_year_of_prices : list Q :=
  map (fun i => inject_Z (Z.of_nat (300 - i * i))) (seq 0 12).

Definition three_asset_data : Portfolio :=
  {| id := None; holdings := None; total_value := Some 300;
     assets := Some [ {| a_symbol := "BTC"; a_quantity := 1; a_current_price := 100;
                         a_value := 100; a_weight := 1 # 3 |};
                      {| a_symbol := "ETH"; a_quantity := 1; a_current_price := 100;
                         a_value := 100; a_weight := 1 # 3 |};
                      {| a_symbol := "NEW"; a_quantity := 1; a_current_price := 100;
                         a_value := 100; a_weight := 1 # 3 |} ];
     asset_count := Some 3%nat |}.

Definition three_asset_prices : PriceData :=
  [ ("BTC", {| current_price := Some 100; prices := Some (records_of year_of_prices) |});
    ("ETH", {| current_price := Some 100;
               prices := Some (records_of other_year_of_prices) |});
    ("NEW", {| current_price := Some 100; prices := None |}) ].

(** The assessment of one bitcoin at 50000 without price history; no
    library function is called on the way. *)
Definition btc_assessment (now : string) : dict :=
  match assess_portfolio_risk now (fun q => Qabs q) (fun _ => 0) (fun _ => 0) (fun q => q)
          (fun m => m) btc_holder btc_prices
  with
  | Ret (PDict d) => d
  | _ => []
  end.

(** The returns below 0, [returns[returns < 0]]. *)
Definition losses (returns : list Q) : list Q :=
  filter (fun r => if Qlt_le_dec r 0 then true else false) returns.

(** Nine older prices, to be put before [month_of_prices]. *)
Definition older_prices : list Q := [250; 240; 10; 500; 90; 95; 70; 85; 400].

(** The messages of lines 469-490 and 500, which name no asset. *)
Definition general_recommendations : list string :=
  [ "Consider reducing position sizes to lower overall portfolio risk";
    "Implement stop-loss orders to limit downside exposure";
    "Portfolio exhibits very high volatility - consider diversification";
    "High correlation between assets - consider adding uncorrelated assets";
    "High Value at Risk detected - consider hedging strategies";
    "Portfolio shows low resilience to stress scenarios";
    "Portfolio risk appears to be within acceptable levels" ].

(** * Properties *)

(** ** Outcomes *)

Lemma bind_ret_inv {A B : Type} (c : outcome A) (k : A -> outcome B) (b : B) :
  bind c k = Ret b -> exists a, c = Ret a /\ k a = Ret b.
Proof.
  destruct c as [a | e | ]; simpl; intros H; try discriminate.
  exists a; split; [reflexivity | exact H].
Qed.

Ltac inv_bind H :=
  let a := fresh "a" in
  let Ha := fresh "Ha" in
  apply bind_ret_inv in H; destruct H as (a & Ha & H).

(** ** Return series *)

Lemma mapM_price_of_records (ps : list Q) :
  mapM price_of (records_of ps) = Ret ps.
Proof.
  induction ps as [| p t IH]; [reflexivity |].
  change (mapM price_of (records_of (p :: t)))
    with (y <- Ret p ;; ys <- mapM price_of (records_of t) ;; Ret (y :: ys)).
  rewrite IH. reflexivity.
Qed.

Lemma simple_returns_cons2 (p p' : Q) (t : list Q) :
  simple_returns (p :: p' :: t) = np_divide (p' - p) p :: simple_returns (p' :: t).
Proof. reflexivity. Qed.

Lemma simple_returns_length (ps : list Q) :
  List.length (simple_returns ps) = (List.length ps - 1)%nat.
Proof.
  induction ps as [| p [| p' t] IH]; try reflexivity.
  rewrite simple_returns_cons2. simpl List.length at 1. rewrite IH.
  simpl. lia.
Qed.

Lemma simple_returns_nth (ps : list Q) (i : nat) :
  (i < List.length (simple_returns ps))%nat ->
  nth i (simple_returns ps) NonFin
  = np_divide (nth (S i) ps 0 - nth i ps 0) (nth i ps 0).
Proof.
  revert i. induction ps as [| p [| p' t] IH]; intros i Hi.
  - simpl in Hi. lia.
  - simpl in Hi. lia.
  - rewrite simple_returns_cons2 in *. destruct i as [| i].
    + reflexivity.
    + simpl in Hi. apply Nat.succ_lt_mono in Hi.
      change (nth (S i) (np_divide (p' - p) p :: simple_returns (p' :: t)) NonFin)
        with (nth i (simple_returns (p' :: t)) NonFin).
      rewrite (IH i Hi). reflexivity.
Qed.

Lemma calculate_returns_records (pd : SymbolData) (ps : list Q) :
  prices pd = Some (records_of ps) -> (2 <= List.length ps)%nat ->
  _calculate_returns pd = Ret (simple_returns ps).
Proof.
  intros Hp Hlen. unfold _calculate_returns. rewrite Hp. simpl get_default.
  unfold records_of at 1. rewrite length_map.
  destruct (Nat.ltb_spec (List.length ps) 2) as [Hlt | _]; [lia |].
  rewrite mapM_price_of_records. reflexivity.
Qed.

Lemma np_divide_zero (a b : Q) : b == 0 -> np_divide a b = NonFin.
Proof.
  intros Hb. unfold np_divide.
  destruct (Qeq_bool b 0) eqn:E; [reflexivity |].
  apply Qeq_bool_neq in E. contradiction.
Qed.

Lemma np_divide_nonzero (a b : Q) : ~ b == 0 -> np_divide a b = Fin (a / b).
Proof.
  intros Hb. unfold np_divide.
  destruct (Qeq_bool b 0) eqn:E; [| reflexivity].
  apply Qeq_bool_iff in E. contradiction.
Qed.

Lemma simple_returns_finite (ps : list Q) :
  Forall (fun p => ~ p == 0) ps ->
  exists qs, all_finite (simple_returns ps) = Ret qs
             /\ List.length qs = (List.length ps - 1)%nat.
Proof.
  induction ps as [| p [| p' t] IH]; intros Hall.
  - exists []. split; reflexivity.
  - exists []. split; reflexivity.
  - rewrite simple_returns_cons2.
    inversion Hall as [| ? ? Hp Hrest]; subst.
    destruct (IH Hrest) as (qs & Hqs & Hlen).
    rewrite (np_divide_nonzero _ _ Hp). simpl all_finite. rewrite Hqs. simpl.
    exists ((p' - p) / p :: qs). split; [reflexivity |].
    simpl. simpl in Hlen. lia.
Qed.

(** C5 (as amended): [_calculate_returns] rejects nothing.  [n >= 2] price
    records give exactly [n - 1] returns; return [i] is the non-finite value
    when price [i] is zero and the number [(p_(i+1) - p_i) / p_i] otherwise,
    whatever the signs; so every return is finite when no price is zero, in
    particular when all prices are positive. *)
Theorem calculate_returns_keeps_every_observation :
  forall (pd : SymbolData) (ps : list Q),
    prices pd = Some (records_of ps) ->
    (2 <= List.length ps)%nat ->
    exists rs,
      _calculate_returns pd = Ret rs
      /\ List.length rs = (List.length ps - 1)%nat
      /\ (forall i, (i < List.length rs)%nat ->
            (nth i ps 0 == 0 -> nth i rs NonFin = NonFin)
            /\ (~ nth i ps 0 == 0 ->
                nth i rs NonFin = Fin ((nth (S i) ps 0 - nth i ps 0) / nth i ps 0)))
      /\ (Forall (fun p => 0 < p) ps -> exists qs, all_finite rs = Ret qs).
Proof.
  intros pd ps Hp Hlen. exists (simple_returns ps).
  split; [apply calculate_returns_records; assumption |].
  split; [apply simple_returns_length |].
  split.
  - intros i Hi. rewrite (simple_returns_nth _ _ Hi). split; intros Hz.
    + apply np_divide_zero; exact Hz.
    + apply np_divide_nonzero; exact Hz.
  - intros Hpos.
    destruct (simple_returns_finite ps) as (qs & Hqs & _).
    + eapply Forall_impl; [| exact Hpos]. intros p Hlt Heq. simpl in Hlt.
      rewrite Heq in Hlt. apply (Qlt_irrefl 0). exact Hlt.
    + exists qs. exact Hqs.
Qed.

Lemma calculate_returns_keeps_every_observation_witness :
  exists rs,
    _calculate_returns (series [100; 110; 99]) = Ret rs
    /\ List.length rs = 2%nat
    /\ (forall i, (i < List.length rs)%nat ->
          (nth i [100; 110; 99] 0 == 0 -> nth i rs NonFin = NonFin)
          /\ (~ nth i [100; 110; 99] 0 == 0 ->
              nth i rs NonFin
              = Fin ((nth (S i) [100; 110; 99] 0 - nth i [100; 110; 99] 0)
                     / nth i [100; 110; 99] 0)))
    /\ (Forall (fun p => 0 < p) [100; 110; 99] -> exists qs, all_finite rs = Ret qs).
Proof.
  apply (calculate_returns_keeps_every_observation (series [100; 110; 99]) [100; 110; 99]).
  - reflexivity.
  - simpl; lia.
Defined.

(** C5 (as stated) fails: a zero price is not excluded before differencing.
    Three records give two returns, and the one whose previous price is zero
    is not a finite number. *)
Lemma calculate_returns_divides_by_zero_price :
  _calculate_returns (series [100; 0; 50]) = Ret [Fin ((0 - 100) / 100); NonFin].
Proof. reflexivity. Qed.

(** ** Maximum drawdown *)

Lemma rising_returns_nonnegative (ps : list Q) :
  0 < hd 0 ps -> strictly_increasing ps ->
  exists rs, all_finite (simple_returns ps) = Ret rs
             /\ Forall (fun r => 0 <= r) rs
             /\ List.length rs = (List.length ps - 1)%nat.
Proof.
  induction ps as [| p [| p' t] IH]; intros Hpos Hinc.
  - exists []. repeat split; constructor.
  - exists []. repeat split; constructor.
  - rewrite simple_returns_cons2. simpl in Hpos. destruct Hinc as [Hlt Hinc].
    destruct IH as (rs & Hrs & Hall & Hlen).
    + simpl. lra.
    + exact Hinc.
    + assert (Hp : ~ p == 0) by lra.
      rewrite (np_divide_nonzero _ _ Hp). simpl all_finite. rewrite Hrs. simpl.
      exists ((p' - p) / p :: rs). split; [reflexivity |]. split.
      * constructor; [| exact Hall].
        apply Qle_shift_div_l; [exact Hpos | lra].
      * simpl. simpl in Hlen. lia.
Qed.

Lemma np_maximum_of_smaller (m x : Q) : m <= x -> np_maximum m x == x.
Proof.
  intros Hle. unfold np_maximum. destruct (Qlt_le_dec m x); lra.
Qed.

Lemma drawdown_of_rising (fs : list Q) :
  forall acc m, 0 < acc -> m == acc -> Forall (fun f => 1 <= f) fs ->
    exists ds,
      all_finite (drawdown_of (cumprod_from acc fs)
                              (maximum_accumulate_from m (cumprod_from acc fs)))
      = Ret ds
      /\ Forall (fun d => d == 0) ds
      /\ List.length ds = List.length fs.
Proof.
  induction fs as [| f t IH]; intros acc m Hacc Hm Hall.
  - exists []. repeat split; constructor.
  - inversion Hall as [| ? ? Hf Ht]; subst.
    assert (Hle : acc <= acc * f) by nra.
    assert (Hmax : np_maximum m (acc * f) == acc * f)
      by (apply np_maximum_of_smaller; lra).
    assert (Hpos : 0 < acc * f) by nra.
    destruct (IH (acc * f) (np_maximum m (acc * f)) Hpos Hmax Ht)
      as (ds & Hds & Hzero & Hlen).
    simpl cumprod_from. simpl maximum_accumulate_from. unfold drawdown_of in *.
    simpl zip_with.
    assert (Hnz : ~ np_maximum m (acc * f) == 0) by lra.
    rewrite (np_divide_nonzero _ _ Hnz). simpl all_finite. rewrite Hds. simpl.
    eexists. split; [reflexivity |]. split.
    + constructor; [| exact Hzero].
      rewrite Hmax. field. lra.
    + simpl. rewrite Hlen. reflexivity.
Qed.

Lemma fold_min_zero (ds : list Q) (m : Q) :
  m == 0 -> Forall (fun d => d == 0) ds ->
  fold_left (fun m y => if Qlt_le_dec y m then y else m) ds m == 0.
Proof.
  revert m. induction ds as [| d t IH]; intros m Hm Hall; simpl; [exact Hm |].
  inversion Hall as [| ? ? Hd Ht]; subst.
  apply IH; [| exact Ht]. destruct (Qlt_le_dec d m); assumption.
Qed.

Lemma max_drawdown_of_rising_factors (fs : list Q) :
  fs <> [] -> Forall (fun f => 1 <= f) fs ->
  exists ds m,
    all_finite (drawdown_of (np_cumprod fs) (np_maximum_accumulate (np_cumprod fs)))
    = Ret ds
    /\ np_min ds = Ret m /\ m == 0.
Proof.
  destruct fs as [| f t]; intros Hne Hall; [congruence |].
  inversion Hall as [| ? ? Hf Ht]; subst.
  destruct (drawdown_of_rising t f f) as (ds & Hds & Hzero & _);
    [lra | reflexivity | exact Ht |].
  simpl np_cumprod. simpl np_maximum_accumulate. unfold drawdown_of in *.
  simpl zip_with.
  assert (Hnz : ~ f == 0) by lra.
  rewrite (np_divide_nonzero _ _ Hnz). simpl all_finite. rewrite Hds. simpl bind.
  eexists. eexists. split; [reflexivity |]. split; [reflexivity |].
  apply fold_min_zero; [| exact Hzero]. field. exact Hnz.
Qed.

(** C8: for a price series (positive prices) with at least two points whose
    prices are strictly increasing, [_calculate_max_drawdown] returns exactly
    0: every return is positive, so the cumulative product is its own running
    maximum. *)
Theorem max_drawdown_zero_on_rising_positive_prices :
  forall (pd : SymbolData) (ps : list Q),
    prices pd = Some (records_of ps) ->
    Forall (fun p => 0 < p) ps ->
    (2 <= List.length ps)%nat ->
    strictly_increasing ps ->
    exists q, _calculate_max_drawdown pd = Ret q /\ q == 0.
Proof.
  intros pd ps Hp Hdom Hlen Hinc.
  assert (Hpos : 0 < hd 0 ps).
  { destruct Hdom as [| p t Hp0 _]; [simpl in Hlen; lia | exact Hp0]. }
  unfold _calculate_max_drawdown. rewrite Hp. simpl get_default.
  unfold records_of at 1. rewrite length_map.
  destruct (Nat.ltb_spec (List.length ps) 2) as [Hlt | _]; [lia |].
  rewrite mapM_price_of_records. simpl bind.
  destruct (rising_returns_nonnegative ps Hpos Hinc) as (rs & Hrs & Hall & Hrlen).
  fold (simple_returns ps). rewrite Hrs. simpl bind.
  destruct (max_drawdown_of_rising_factors (map (fun r => 1 + r) rs))
    as (ds & m & Hds & Hmin & Hm).
  - destruct rs; [simpl in Hrlen; lia | discriminate].
  - apply Forall_map. eapply Forall_impl; [| exact Hall]. intros r Hr. simpl in *. lra.
  - unfold drawdown_of in Hds. rewrite Hds. simpl bind. rewrite Hmin. simpl bind.
    exists (Qabs m). split; [reflexivity |]. rewrite Hm. reflexivity.
Qed.

Lemma max_drawdown_zero_on_rising_positive_prices_witness :
  exists q, _calculate_max_drawdown (series [100; 110; 125]) = Ret q /\ q == 0.
Proof.
  apply (max_drawdown_zero_on_rising_positive_prices (series [100; 110; 125]) [100; 110; 125]).
  - reflexivity.
  - repeat constructor.
  - simpl; lia.
  - simpl. repeat split; reflexivity.
Defined.

(** ** Portfolio weights *)

Lemma holding_asset_spec (price_data : PriceData) (h : Holding) (a : Asset) :
  holding_asset price_data h = Ret a ->
  asset_of_holding price_data h a /\ a_weight a = 0.
Proof.
  unfold holding_asset, asset_of_holding. intros H.
  destruct (h_symbol h) as [s |]; simpl in H; [| discriminate].
  destruct (h_quantity h) as [q |]; simpl in H; [| discriminate].
  injection H as <-. simpl. repeat split; reflexivity.
Qed.

Lemma mapM_holding_asset (price_data : PriceData) (hs : list Holding) :
  forall assets, mapM (holding_asset price_data) hs = Ret assets ->
                 Forall2 (asset_of_holding price_data) hs assets.
Proof.
  induction hs as [| h t IH]; intros assets H; simpl in H.
  - injection H as <-. constructor.
  - inv_bind H. inv_bind H. injection H as <-.
    constructor; [| apply IH; assumption].
    apply holding_asset_spec; assumption.
Qed.

Lemma fold_values_from (assets : list Asset) (start : Q) :
  fold_left (fun total asset => total + a_value asset) assets start
  == start + Qsum (map a_value assets).
Proof.
  revert start. induction assets as [| a t IH]; intros start; simpl.
  - lra.
  - rewrite IH. lra.
Qed.

Lemma sum_values_Qsum (assets : list Asset) :
  sum_values assets == Qsum (map a_value assets).
Proof. unfold sum_values. rewrite fold_values_from. lra. Qed.

Lemma map_value_with_weight (total : Q) (assets : list Asset) :
  map a_value (map (with_weight total) assets) = map a_value assets.
Proof. rewrite map_map. reflexivity. Qed.

Lemma Qsum_nonneg (xs : list Q) : Forall (fun x => 0 <= x) xs -> 0 <= Qsum xs.
Proof.
  induction 1 as [| x t Hx _ IH]; simpl; lra.
Qed.

Lemma Qsum_bounds_member (xs : list Q) (x : Q) :
  Forall (fun y => 0 <= y) xs -> In x xs -> x <= Qsum xs.
Proof.
  induction 1 as [| y t Hy Ht IH]; intros Hin; simpl in *; [contradiction |].
  pose proof (Qsum_nonneg t Ht). destruct Hin as [-> | Hin].
  - lra.
  - specialize (IH Hin). lra.
Qed.

Lemma Qsum_weights (total : Q) (assets : list Asset) :
  0 < total ->
  Qsum (map a_weight (map (with_weight total) assets))
  == Qsum (map a_value assets) / total.
Proof.
  intros Hpos. induction assets as [| a t IH]; simpl.
  - field. lra.
  - rewrite IH. destruct (Qlt_le_dec 0 total); [| lra]. field. lra.
Qed.

Lemma with_weight_keeps_holding (price_data : PriceData) (total : Q)
  (hs : list Holding) (ys : list Asset) :
  Forall2 (asset_of_holding price_data) hs ys ->
  Forall2 (asset_of_holding price_data) hs (map (with_weight total) ys).
Proof.
  induction 1 as [| h y hs ys Hhy _ IH]; simpl; constructor; assumption.
Qed.

Lemma asset_value_is_product (price_data : PriceData)
  (hs : list Holding) (ys : list Asset) :
  Forall2 (asset_of_holding price_data) hs ys ->
  forall y, In y ys -> a_value y = a_quantity y * a_current_price y.
Proof.
  induction 1 as [| h y' hs ys Hhy _ IH]; intros y Hin; simpl in Hin.
  - contradiction.
  - destruct Hin as [<- | Hin]; [apply Hhy | apply IH; exact Hin].
Qed.

(** C10: every asset gets the weight [value / total_value] when the total is
    positive and 0 when it is zero, where [value = quantity * current_price]
    and the total is the sum of the values; hence with a positive total and
    non-negative quantities and prices every weight lies in [0, 1] and the
    weights sum to 1. *)
Theorem prepare_portfolio_data_weights :
  forall (portfolio : Portfolio) (price_data : PriceData) (pd : Portfolio),
    _prepare_portfolio_data portfolio price_data = Ret pd ->
    exists (total : Q) (assets' : list Asset),
      total_value pd = Some total
      /\ assets pd = Some assets'
      /\ Forall2 (asset_of_holding price_data)
                 (get_default (holdings portfolio) []) assets'
      /\ total == Qsum (map a_value assets')
      /\ (forall a, In a assets' ->
            (0 < total -> a_weight a == a_value a / total)
            /\ (total == 0 -> a_weight a == 0))
      /\ (0 < total ->
          (forall a, In a assets' -> 0 <= a_quantity a /\ 0 <= a_current_price a) ->
          (forall a, In a assets' -> 0 <= a_weight a <= 1)
          /\ Qsum (map a_weight assets') == 1).
Proof.
  intros portfolio price_data pd H. unfold _prepare_portfolio_data in H.
  inv_bind H. injection H as <-. simpl.
  pose proof (mapM_holding_asset _ _ _ Ha) as Hrel.
  set (total := sum_values a) in *.
  exists total, (map (with_weight total) a).
  assert (Htot : total == Qsum (map a_value (map (with_weight total) a))).
  { rewrite map_value_with_weight. apply sum_values_Qsum. }
  assert (Hw : forall x, In x (map (with_weight total) a) ->
                 (0 < total -> a_weight x == a_value x / total)
                 /\ (total == 0 -> a_weight x == 0)).
  { intros x Hin. apply in_map_iff in Hin. destruct Hin as (y & <- & _).
    simpl. destruct (Qlt_le_dec 0 total); split; intros; lra. }
  split; [reflexivity |]. split; [reflexivity |]. split.
  { apply with_weight_keeps_holding. exact Hrel. }
  split; [exact Htot |]. split; [exact Hw |].
  intros Hpos Hnonneg.
  assert (Hvals : Forall (fun v => 0 <= v) (map a_value (map (with_weight total) a))).
  { apply Forall_forall. intros v Hv. apply in_map_iff in Hv.
    destruct Hv as (x & <- & Hx). destruct (Hnonneg x Hx) as [Hq Hp].
    apply in_map_iff in Hx. destruct Hx as (y & <- & Hy). simpl in *.
    rewrite (asset_value_is_product _ _ _ Hrel y Hy). nra. }
  split.
  - intros x Hx. destruct (Hw x Hx) as [Hxw _]. specialize (Hxw Hpos).
    assert (0 <= a_value x).
    { rewrite Forall_forall in Hvals. apply Hvals. apply in_map. exact Hx. }
    assert (a_value x <= total).
    { rewrite Htot. apply Qsum_bounds_member; [exact Hvals | apply in_map; exact Hx]. }
    rewrite Hxw. split.
    + apply Qle_shift_div_l; lra.
    + apply Qle_shift_div_r; lra.
  - rewrite Qsum_weights by exact Hpos. rewrite map_value_with_weight in Htot.
    rewrite <- Htot. field. lra.
Qed.

Lemma prepare_portfolio_data_weights_witness :
  exists (total : Q) (assets' : list Asset),
    total_value two_coin_data = Some total
    /\ assets two_coin_data = Some assets'
    /\ Forall2 (asset_of_holding two_coin_prices)
               (get_default (holdings two_coin_portfolio) []) assets'
    /\ total == Qsum (map a_value assets')
    /\ (forall a, In a assets' ->
          (0 < total -> a_weight a == a_value a / total)
          /\ (total == 0 -> a_weight a == 0))
    /\ (0 < total ->
        (forall a, In a assets' -> 0 <= a_quantity a /\ 0 <= a_current_price a) ->
        (forall a, In a assets' -> 0 <= a_weight a <= 1)
        /\ Qsum (map a_weight assets') == 1).
Proof.
  apply (prepare_portfolio_data_weights two_coin_portfolio two_coin_prices two_coin_data).
  reflexivity.
Defined.

(** ** Dictionaries *)

Lemma dict_get_set_same {V : Type} (k : string) (v : V) (d : list (string * V)) :
  dict_get k (dict_set k v d) = Some v.
Proof.
  induction d as [| [k' v'] t IH]; simpl.
  - rewrite String.eqb_refl. reflexivity.
  - destruct (String.eqb k k') eqn:E; simpl.
    + rewrite String.eqb_refl. reflexivity.
    + rewrite E. exact IH.
Qed.

Lemma dict_get_set_other {V : Type} (k k' : string) (v : V) (d : list (string * V)) :
  k' <> k -> dict_get k' (dict_set k v d) = dict_get k' d.
Proof.
  intros Hne. induction d as [| [k0 v0] t IH]; simpl.
  - destruct (String.eqb_spec k' k); [contradiction | reflexivity].
  - destruct (String.eqb_spec k k0) as [-> | Hk]; simpl.
    + destruct (String.eqb_spec k' k0); [contradiction | reflexivity].
    + destruct (String.eqb k' k0); [reflexivity | exact IH].
Qed.

(** ** Stress scenarios *)

Lemma apply_to_holding_shock (shocks : list (string * Q)) (price_data : PriceData)
  (acc acc' : ScenarioResult) (h : Holding) :
  apply_to_holding shocks price_data acc h = Ret acc' ->
  (exists symbol, h_symbol h = Some symbol
                  /\ applied_shock acc' symbol = Some (PNum (shock_for shocks symbol)))
  /\ (forall s, applied_shock acc s = Some (PNum (shock_for shocks s)) ->
                applied_shock acc' s = Some (PNum (shock_for shocks s))).
Proof.
  unfold apply_to_holding. intros H.
  destruct (h_symbol h) as [symbol |]; simpl in H; [| discriminate].
  destruct (h_quantity h) as [quantity |]; simpl in H; [| discriminate].
  injection H as <-. split.
  - exists symbol. split; [reflexivity |].
    unfold applied_shock. simpl asset_impacts. rewrite dict_get_set_same. reflexivity.
  - intros s Hs. unfold applied_shock in *. simpl asset_impacts.
    destruct (string_dec s symbol) as [-> | Hne].
    + rewrite dict_get_set_same. reflexivity.
    + rewrite dict_get_set_other by exact Hne. exact Hs.
Qed.

Lemma foldM_apply_keeps (shocks : list (string * Q)) (price_data : PriceData)
  (hs : list Holding) :
  forall acc r,
    foldM (apply_to_holding shocks price_data) hs acc = Ret r ->
    forall s, applied_shock acc s = Some (PNum (shock_for shocks s)) ->
              applied_shock r s = Some (PNum (shock_for shocks s)).
Proof.
  induction hs as [| h t IH]; intros acc r H s Hs; simpl in H.
  - injection H as <-. exact Hs.
  - inv_bind H. apply (IH _ _ H). apply (apply_to_holding_shock _ _ _ _ _ Ha). exact Hs.
Qed.

Lemma foldM_apply_covers (shocks : list (string * Q)) (price_data : PriceData)
  (hs : list Holding) :
  forall acc r,
    foldM (apply_to_holding shocks price_data) hs acc = Ret r ->
    forall h, In h hs ->
      exists symbol, h_symbol h = Some symbol
                     /\ applied_shock r symbol = Some (PNum (shock_for shocks symbol)).
Proof.
  induction hs as [| h0 t IH]; intros acc r H h Hin; simpl in *; [contradiction |].
  inv_bind H. destruct Hin as [<- | Hin].
  - destruct (apply_to_holding_shock _ _ _ _ _ Ha) as [(symbol & Hsym & Happ) _].
    exists symbol. split; [exact Hsym |].
    apply (foldM_apply_keeps _ _ _ _ _ H). exact Happ.
  - apply (IH _ _ H). exact Hin.
Qed.

Lemma shock_for_precedence (shocks : list (string * Q)) (symbol : string) :
  match dict_get "all" shocks with
  | Some s => shock_for shocks symbol = s
  | None =>
      match dict_get symbol shocks with
      | Some s => shock_for shocks symbol = s
      | None =>
          match dict_get "others" shocks with
          | Some s => shock_for shocks symbol = s
          | None => shock_for shocks symbol = 0
          end
      end
  end.
Proof.
  unfold shock_for, dict_mem.
  destruct (dict_get "all" shocks); [reflexivity |].
  destruct (dict_get symbol shocks); [reflexivity |].
  destruct (dict_get "others" shocks); reflexivity.
Qed.

(** C1 (as amended): for every holding processed by a stress scenario the
    shock applied follows the precedence wildcard [all] > exact symbol >
    wildcard [others] > 0: the [all] shock whenever [all] is a key, even when
    the symbol is one too; otherwise the symbol's shock; otherwise the
    [others] shock; otherwise 0. *)
Theorem stress_shock_precedence :
  forall (portfolio : Portfolio) (shocks : list (string * Q))
         (price_data : PriceData) (r : ScenarioResult),
    _apply_stress_scenario portfolio shocks price_data = Ret r ->
    forall h, In h (get_default (holdings portfolio) []) ->
      exists symbol shock,
        h_symbol h = Some symbol
        /\ applied_shock r symbol = Some (PNum shock)
        /\ match dict_get "all" shocks with
           | Some s => shock = s
           | None =>
               match dict_get symbol shocks with
               | Some s => shock = s
               | None =>
                   match dict_get "others" shocks with
                   | Some s => shock = s
                   | None => shock = 0
                   end
               end
           end.
Proof.
  intros portfolio shocks price_data r H h Hin.
  destruct (foldM_apply_covers _ _ _ _ _ H h Hin) as (symbol & Hsym & Happ).
  exists symbol, (shock_for shocks symbol).
  split; [exact Hsym |]. split; [exact Happ |]. apply shock_for_precedence.
Qed.

Lemma stress_shock_precedence_witness :
  exists symbol shock,
    h_symbol btc_holding = Some symbol
    /\ applied_shock btc_crash_result symbol = Some (PNum shock)
    /\ match dict_get "all" btc_crash_shocks with
       | Some s => shock = s
       | None =>
           match dict_get symbol btc_crash_shocks with
           | Some s => shock = s
           | None =>
               match dict_get "others" btc_crash_shocks with
               | Some s => shock = s
               | None => shock = 0
               end
           end
       end.
Proof.
  apply (stress_shock_precedence btc_holder btc_crash_shocks btc_prices).
  - reflexivity.
  - left. reflexivity.
Defined.

(** C1 (as stated) fails: with both [BTC] and [all] among the shocks, the
    BTC holding gets the [all] shock -1/2, not its own -3/5. *)
Lemma stress_all_overrides_exact_symbol :
  dict_get "BTC" btc_and_all_shocks = Some (-(3#5))
  /\ dict_get "all" btc_and_all_shocks = Some (-(1#2))
  /\ exists r, _apply_stress_scenario btc_holder btc_and_all_shocks btc_prices = Ret r
               /\ applied_shock r "BTC" = Some (PNum (-(1#2)))
               /\ ~ -(1#2) == -(3#5).
Proof.
  split; [reflexivity |]. split; [reflexivity |].
  eexists. split; [reflexivity |]. split; [reflexivity | discriminate].
Qed.

(** ** Stress test on a portfolio worth nothing *)






(** C2 (the code at the failing input): on the empty portfolio, of value 0,
    and the default scenarios the stress test returns the error result of a
    [ZeroDivisionError]; no scenario entry and no [percentage_loss] is
    reported. *)
Theorem perform_stress_test_zero_value_divides_by_zero :
  forall now : string,
    perform_stress_test now empty_portfolio [] None
    = Ret (PDict [("error", PExc ZeroDivisionError)]).
Proof. intros now. reflexivity. Qed.

(** ** Overall risk score *)

Lemma tracked_bind {A B : Type} (c : outcome A) (k : A -> outcome B) :
  tracked c -> (forall a, tracked (k a)) -> tracked (bind c k).
Proof.
  unfold tracked. intros Hc Hk. destruct c; simpl; [apply Hk | discriminate | congruence].
Qed.

Lemma tracked_py_get (v : pyval) (k : string) (default : pyval) :
  tracked (py_get v k default).
Proof. unfold tracked. destruct v; discriminate. Qed.

Lemma tracked_as_num (v : pyval) : tracked (as_num v).
Proof. unfold tracked. destruct v; discriminate. Qed.

Lemma tracked_read_number (path : list string) (key : string) (default : Q) :
  forall v, tracked (read_number v path key default).
Proof.
  induction path as [| k rest IH]; intros v; simpl.
  - apply tracked_bind; [apply tracked_py_get | intros; apply tracked_as_num].
  - apply tracked_bind; [apply tracked_py_get | intros; apply IH].
Qed.

Lemma py_min_spec (a b : Q) : py_min a b <= a /\ py_min a b <= b
                              /\ (py_min a b == a \/ py_min a b == b).
Proof. unfold py_min. destruct (Qlt_le_dec b a); repeat split; try lra. Qed.

Lemma py_max_spec (a b : Q) : a <= py_max a b /\ b <= py_max a b
                              /\ (py_max a b == a \/ py_max a b == b).
Proof. unfold py_max. destruct (Qlt_le_dec a b); repeat split; try lra. Qed.

Lemma clamp_bounds (x : Q) : 0 <= py_min 100 (py_max 0 x) <= 100.
Proof.
  pose proof (py_max_spec 0 x) as (H0 & _ & _).
  pose proof (py_min_spec 100 (py_max 0 x)) as (H1 & _ & [H | H]); lra.
Qed.

Lemma clamp_wd (x y : Q) :
  x == y -> py_min 100 (py_max 0 x) == py_min 100 (py_max 0 y).
Proof.
  intros Hxy. unfold py_min, py_max.
  destruct (Qlt_le_dec 0 x), (Qlt_le_dec 0 y); try lra;
    repeat match goal with |- context [Qlt_le_dec ?a ?b] => destruct (Qlt_le_dec a b) end;
    lra.
Qed.

(** The score as a function of its four inputs. *)
Lemma overall_risk_score_unfold (ra : pyval) :
  _calculate_overall_risk_score ra
  = try_except
      (volatility <- volatility_input ra ;;
       var_percentage <- var_input ra ;;
       avg_correlation <- correlation_input ra ;;
       resilience <- resilience_input ra ;;
       overall_score <-
         np_average [ py_min 100 (volatility * 100); py_min 100 (Qabs var_percentage);
                      Qabs avg_correlation * 100; 100 - resilience ]
                    [3 # 10; 25 # 100; 2 # 10; 25 # 100] ;;
       Ret (py_min 100 (py_max 0 overall_score)))
      (fun _ => Ret 50).
Proof.
  unfold _calculate_overall_risk_score, volatility_input, var_input,
    correlation_input, resilience_input. simpl read_number.
  repeat first
    [ reflexivity
    | match goal with
      | |- context [bind (get_in ?v ?k) _] =>
          destruct (get_in v k); cbn [bind try_except]
      | |- context [bind (py_get ?v ?k ?d) _] =>
          destruct (py_get v k d); cbn [bind try_except]
      | |- context [bind (as_num ?v) _] =>
          destruct (as_num v); cbn [bind try_except]
      end ].
Qed.

Lemma overall_risk_score_total (ra : pyval) :
  exists q, _calculate_overall_risk_score ra = Ret q /\ 0 <= q <= 100.
Proof.
  rewrite overall_risk_score_unfold.
  pose proof (tracked_read_number ["risk_metrics"] "annual_volatility" 0 ra) as H1.
  pose proof (tracked_read_number ["var_analysis"; "var_estimates"; "95%"]
                "var_percentage" 0 ra) as H2.
  pose proof (tracked_read_number ["correlation_analysis"] "average_correlation" 0 ra)
    as H3.
  pose proof (tracked_read_number ["stress_test_results"]
                "portfolio_resilience_score" 50 ra) as H4.
  unfold tracked, volatility_input, var_input, correlation_input, resilience_input in *.
  assert (Hdefault : exists q : Q, Ret 50 = Ret q /\ 0 <= q <= 100).
  { exists 50. split; [reflexivity | lra]. }
  destruct (read_number ra ["risk_metrics"] "annual_volatility" 0) as [vol | |];
    cbn [bind try_except]; [| exact Hdefault | congruence].
  destruct (read_number ra ["var_analysis"; "var_estimates"; "95%"] "var_percentage" 0)
    as [var | |]; cbn [bind try_except]; [| exact Hdefault | congruence].
  destruct (read_number ra ["correlation_analysis"] "average_correlation" 0)
    as [corr | |]; cbn [bind try_except]; [| exact Hdefault | congruence].
  destruct (read_number ra ["stress_test_results"] "portfolio_resilience_score" 50)
    as [res | |]; cbn [bind try_except]; [| exact Hdefault | congruence].
  eexists. split; [reflexivity |]. apply clamp_bounds.
Qed.

(** C9: whatever the assessment passed in, [_calculate_overall_risk_score]
    returns a number between 0 and 100: the weighted mean is clamped, and
    when the computation raises the result is the default, 50. *)
Theorem overall_risk_score_in_range :
  forall ra : pyval,
    exists q, _calculate_overall_risk_score ra = Ret q /\ 0 <= q <= 100.
Proof. exact overall_risk_score_total. Qed.

Lemma np_average_fixed_weights (a b c d : Q) :
  exists m, np_average [a; b; c; d] [3 # 10; 25 # 100; 2 # 10; 25 # 100] = Ret m
            /\ m == (3 # 10) * a + (25 # 100) * b + (2 # 10) * c + (25 # 100) * d.
Proof.
  eexists. split; [reflexivity |]. simpl. field.
Qed.

(** C3 (as amended): the overall score is the weighted mean, clamped to
    [0, 100], of all four sub-scores with the fixed weights 0.30, 0.25, 0.20
    and 0.25, which sum to 1; a sub-score whose input is absent is computed
    from the default input (volatility 0, VaR 0, correlation 0, resilience
    50) and keeps its weight.  The value 50 is what the function returns when
    reading an input raises. *)
Theorem overall_risk_score_weighted_mean :
  forall ra : pyval,
    (forall volatility var_percentage avg_correlation resilience,
        volatility_input ra = Ret volatility ->
        var_input ra = Ret var_percentage ->
        correlation_input ra = Ret avg_correlation ->
        resilience_input ra = Ret resilience ->
        exists q,
          _calculate_overall_risk_score ra = Ret q
          /\ q == py_min 100 (py_max 0
                    (weighted_score volatility var_percentage avg_correlation resilience)))
    /\ (forall e,
          volatility_input ra = Raise e \/ var_input ra = Raise e
          \/ correlation_input ra = Raise e \/ resilience_input ra = Raise e ->
          _calculate_overall_risk_score ra = Ret 50).
Proof.
  intros ra. rewrite overall_risk_score_unfold. split.
  - intros vol var corr res H1 H2 H3 H4. rewrite H1, H2, H3, H4. cbn [bind].
    destruct (np_average_fixed_weights (py_min 100 (vol * 100)) (py_min 100 (Qabs var))
                (Qabs corr * 100) (100 - res)) as (m & Hm & Heq).
    rewrite Hm. cbn [bind try_except]. eexists. split; [reflexivity |].
    apply clamp_wd. exact Heq.
  - intros e H.
    pose proof (tracked_read_number ["risk_metrics"] "annual_volatility" 0 ra) as T1.
    pose proof (tracked_read_number ["var_analysis"; "var_estimates"; "95%"]
                  "var_percentage" 0 ra) as T2.
    pose proof (tracked_read_number ["correlation_analysis"] "average_correlation" 0 ra)
      as T3.
    unfold tracked, volatility_input, var_input, correlation_input,
      resilience_input in *.
    destruct (read_number ra ["risk_metrics"] "annual_volatility" 0) as [vol | |];
      cbn [bind try_except]; [| reflexivity | congruence].
    destruct (read_number ra ["var_analysis"; "var_estimates"; "95%"] "var_percentage" 0)
      as [var | |]; cbn [bind try_except]; [| reflexivity | congruence].
    destruct (read_number ra ["correlation_analysis"] "average_correlation" 0)
      as [corr | |]; cbn [bind try_except]; [| reflexivity | congruence].
    destruct H as [H | [H | [H | H]]]; try discriminate.
    rewrite H. reflexivity.
Qed.

(** C3 (as stated) fails.  With no sub-score computable the score is 12.5,
    not 50: the absent resilience counts as 50 with its weight 0.25.  With
    the volatility alone computable (sub-score 100) the score is 42.5, not
    the 100 that renormalising over the computable subset would give. *)
Lemma overall_risk_score_no_renormalisation :
  (exists q, _calculate_overall_risk_score (PDict []) = Ret q
             /\ q == 25 # 2 /\ ~ q == 50)
  /\ (exists q, _calculate_overall_risk_score only_volatility = Ret q
                /\ q == 85 # 2 /\ ~ q == 100).
Proof.
  split; eexists; (split; [reflexivity |]); split;
    [reflexivity | discriminate | reflexivity | discriminate].
Qed.

Lemma overall_risk_score_weighted_mean_witness :
  exists q,
    _calculate_overall_risk_score only_volatility = Ret q
    /\ q == py_min 100 (py_max 0 (weighted_score 1 0 0 50)).
Proof.
  apply (proj1 (overall_risk_score_weighted_mean only_volatility) 1 0 0 50);
    reflexivity.
Defined.

(** ** Percentiles *)

Lemma insert_sorted_Forall (P : Q -> Prop) (x : Q) (l : list Q) :
  P x -> Forall P l -> Forall P (insert_sorted x l).
Proof.
  intros Hx Hl. induction Hl as [| y t Hy Ht IH]; simpl.
  - constructor; [exact Hx | constructor].
  - destruct (Qle_bool x y); repeat constructor; assumption.
Qed.

Lemma insert_sorted_sorted (x : Q) (l : list Q) :
  StronglySorted Qle l -> StronglySorted Qle (insert_sorted x l).
Proof.
  induction 1 as [| y t Hs IH Hall]; simpl.
  - constructor; constructor.
  - destruct (Qle_bool x y) eqn:E.
    + apply Qle_bool_iff in E. constructor.
      * constructor; assumption.
      * constructor; [exact E |].
        eapply Forall_impl; [| exact Hall]. intros z Hz. simpl in Hz. lra.
    + assert (Hyx : y <= x).
      { destruct (Qlt_le_dec y x) as [Hlt | Hle]; [lra |].
        apply Qle_bool_iff in Hle. congruence. }
      constructor; [exact IH |]. apply insert_sorted_Forall; assumption.
Qed.

Lemma np_sort_sorted (xs : list Q) : StronglySorted Qle (np_sort xs).
Proof.
  induction xs as [| x t IH]; simpl; [constructor |].
  apply insert_sorted_sorted. exact IH.
Qed.

Lemma insert_sorted_length (x : Q) (l : list Q) :
  List.length (insert_sorted x l) = S (List.length l).
Proof.
  induction l as [| y t IH]; simpl; [reflexivity |].
  destruct (Qle_bool x y); simpl; [reflexivity | rewrite IH; reflexivity].
Qed.

Lemma np_sort_length (xs : list Q) : List.length (np_sort xs) = List.length xs.
Proof.
  induction xs as [| x t IH]; simpl; [reflexivity |].
  rewrite insert_sorted_length, IH. reflexivity.
Qed.

Lemma sorted_nth_le (s : list Q) :
  StronglySorted Qle s ->
  forall i j, (i <= j)%nat -> (j < List.length s)%nat -> nth i s 0 <= nth j s 0.
Proof.
  induction 1 as [| x t Hs IH Hall]; intros i j Hij Hj; simpl in Hj; [lia |].
  destruct j as [| j].
  - replace i with 0%nat by lia. simpl. lra.
  - destruct i as [| i]; simpl.
    + rewrite Forall_forall in Hall. apply Hall. apply nth_In. lia.
    + apply IH; lia.
Qed.

Lemma virtual_index_range (n : nat) (q : Q) :
  (1 <= n)%nat -> 0 <= q <= 100 ->
  0 <= virtual_index n q <= inject_Z (Z.of_nat n) - 1
  /\ (Z.to_nat (Qfloor (virtual_index n q)) <= n - 1)%nat
  /\ (0 <= Qfloor (virtual_index n q))%Z.
Proof.
  intros Hn Hq.
  assert (Hn1 : 1 <= inject_Z (Z.of_nat n)).
  { change 1 with (inject_Z 1). rewrite <- Zle_Qle. lia. }
  assert (Hv : 0 <= virtual_index n q <= inject_Z (Z.of_nat n) - 1).
  { assert (Ht : 0 <= q / 100 <= 1).
    { split; [apply Qle_shift_div_l | apply Qle_shift_div_r]; lra. }
    unfold virtual_index. generalize dependent (q / 100). intros t Ht. split; nra. }
  generalize dependent (virtual_index n q). intros v Hv.
  assert (Hf0 : (0 <= Qfloor v)%Z).
  { change 0%Z with (Qfloor 0). apply Qfloor_resp_le. exact (proj1 Hv). }
  split; [exact Hv |]. split; [| exact Hf0].
  assert (Hfl : inject_Z (Qfloor v) <= inject_Z (Z.of_nat n - 1)).
  { pose proof (Qfloor_le v). unfold Z.sub. rewrite inject_Z_plus, inject_Z_opp.
    change (inject_Z 1) with 1. lra. }
  rewrite <- Zle_Qle in Hfl. lia.
Qed.

Lemma virtual_index_monotone (n : nat) (q1 q2 : Q) :
  (1 <= n)%nat -> q1 <= q2 -> virtual_index n q1 <= virtual_index n q2.
Proof.
  intros Hn H12.
  assert (Hn1 : 1 <= inject_Z (Z.of_nat n)).
  { change 1 with (inject_Z 1). rewrite <- Zle_Qle. lia. }
  assert (Ht : q1 / 100 <= q2 / 100).
  { unfold Qdiv. apply Qmult_le_compat_r; [exact H12 | discriminate]. }
  unfold virtual_index. nra.
Qed.

Lemma interpolation_between (s : list Q) (lo hi : nat) (g : Q) :
  StronglySorted Qle s -> (lo <= hi)%nat -> (hi < List.length s)%nat ->
  0 <= g <= 1 ->
  nth lo s 0 <= nth lo s 0 + (nth hi s 0 - nth lo s 0) * g <= nth hi s 0.
Proof.
  intros Hs Hlh Hhi Hg. pose proof (sorted_nth_le s Hs lo hi Hlh Hhi). split; nra.
Qed.

Lemma np_percentile_value (xs : list Q) (q : Q) :
  xs <> [] -> 0 <= q <= 100 ->
  np_percentile xs q
  = Ret (interpolate (np_sort xs) (List.length xs) (virtual_index (List.length xs) q)).
Proof.
  intros Hne [Hq0 Hq1]. unfold np_percentile.
  apply Qle_bool_iff in Hq0. apply Qle_bool_iff in Hq1. rewrite Hq0, Hq1. simpl andb.
  destruct xs; [congruence | reflexivity].
Qed.

Lemma np_percentile_defined (xs : list Q) (q : Q) :
  xs <> [] -> 0 <= q <= 100 -> exists p, np_percentile xs q = Ret p.
Proof.
  intros Hne Hq. rewrite np_percentile_value by assumption. eexists; reflexivity.
Qed.

Lemma interpolate_monotone (s : list Q) (n : nat) (v1 v2 : Q) :
  StronglySorted Qle s -> List.length s = n -> (1 <= n)%nat ->
  0 <= v1 -> v1 <= v2 ->
  (Z.to_nat (Qfloor v2) <= n - 1)%nat ->
  interpolate s n v1 <= interpolate s n v2.
Proof.
  intros Hs Hlen Hn H0 H12 Hlo2. unfold interpolate.
  pose proof (Qfloor_resp_le _ _ H12) as Hf12.
  assert (Hf1 : (0 <= Qfloor v1)%Z).
  { change 0%Z with (Qfloor 0). apply Qfloor_resp_le. exact H0. }
  pose proof (Qfloor_le v1) as Hfl1. pose proof (Qlt_floor v1) as Hfu1.
  pose proof (Qfloor_le v2) as Hfl2. pose proof (Qlt_floor v2) as Hfu2.
  rewrite inject_Z_plus in Hfu1, Hfu2. change (inject_Z 1) with 1 in Hfu1, Hfu2.
  assert (Hg1 : 0 <= v1 - inject_Z (Qfloor v1) <= 1) by lra.
  assert (Hg2 : 0 <= v2 - inject_Z (Qfloor v2) <= 1) by lra.
  assert (Hlo12 : (Z.to_nat (Qfloor v1) <= Z.to_nat (Qfloor v2))%nat) by lia.
  pose proof (interpolation_between s (Z.to_nat (Qfloor v1))
                (Nat.min (Z.to_nat (Qfloor v1) + 1) (n - 1)) _ Hs
                ltac:(lia) ltac:(lia) Hg1) as [_ Hup1].
  pose proof (interpolation_between s (Z.to_nat (Qfloor v2))
                (Nat.min (Z.to_nat (Qfloor v2) + 1) (n - 1)) _ Hs
                ltac:(lia) ltac:(lia) Hg2) as [Hdn2 _].
  destruct (Z.eq_dec (Qfloor v1) (Qfloor v2)) as [Heq | Hne].
  - assert (Hg : v1 - inject_Z (Qfloor v1) <= v2 - inject_Z (Qfloor v2))
      by (rewrite Heq; lra).
    pose proof (sorted_nth_le s Hs (Z.to_nat (Qfloor v2))
                  (Nat.min (Z.to_nat (Qfloor v2) + 1) (n - 1)) ltac:(lia) ltac:(lia))
      as Hab.
    rewrite Heq in *. clear - Hg Hg1 Hg2 Hab.
    generalize dependent (nth (Nat.min (Z.to_nat (Qfloor v2) + 1) (n - 1)) s 0).
    generalize dependent (nth (Z.to_nat (Qfloor v2)) s 0).
    generalize dependent (v1 - inject_Z (Qfloor v2)).
    generalize dependent (v2 - inject_Z (Qfloor v2)).
    intros g2 Hg2 g1 Hg1 Hg a b Hab. nra.
  - pose proof (sorted_nth_le s Hs (Nat.min (Z.to_nat (Qfloor v1) + 1) (n - 1))
                  (Z.to_nat (Qfloor v2)) ltac:(lia) ltac:(lia)) as Hmid.
    eapply Qle_trans; [exact Hup1 |]. eapply Qle_trans; [exact Hmid | exact Hdn2].
Qed.

(** Historical VaR does not increase with the confidence: a lower percentile
    of the same sample is not greater. *)
Lemma np_percentile_monotone (xs : list Q) (q1 q2 p1 p2 : Q) :
  0 <= q1 -> q1 <= q2 -> q2 <= 100 ->
  np_percentile xs q1 = Ret p1 -> np_percentile xs q2 = Ret p2 -> p1 <= p2.
Proof.
  intros H0 H12 H100 Hp1 Hp2.
  assert (Hne : xs <> []).
  { intros ->. unfold np_percentile in Hp1.
    destruct (Qle_bool 0 q1 && Qle_bool q1 100); discriminate. }
  rewrite np_percentile_value in Hp1 by (try exact Hne; lra).
  rewrite np_percentile_value in Hp2 by (try exact Hne; lra).
  injection Hp1 as <-. injection Hp2 as <-.
  assert (Hn : (1 <= List.length xs)%nat).
  { destruct xs; [congruence | simpl; lia]. }
  destruct (virtual_index_range (List.length xs) q1 Hn) as (Hv1 & _ & _); [lra |].
  destruct (virtual_index_range (List.length xs) q2 Hn) as (_ & Hlo2 & _); [lra |].
  apply interpolate_monotone.
  - apply np_sort_sorted.
  - apply np_sort_length.
  - exact Hn.
  - apply Hv1.
  - apply virtual_index_monotone; assumption.
  - exact Hlo2.
Qed.

(** ** Value at Risk *)

Lemma all_finite_length (rs : list npfloat) :
  forall xs, all_finite rs = Ret xs -> List.length xs = List.length rs.
Proof.
  induction rs as [| [q |] t IH]; intros xs H; simpl in H.
  - injection H as <-. reflexivity.
  - inv_bind H. injection H as <-. simpl. rewrite (IH _ Ha). reflexivity.
  - discriminate.
Qed.

Lemma np_std_defined (np_sqrt : Q -> Q) (xs : list Q) :
  xs <> [] -> exists sd, np_std np_sqrt xs = Ret sd.
Proof.
  intros Hne. destruct xs; [congruence |]. eexists; reflexivity.
Qed.

Lemma percent_key_95 : percent_key (95 # 100) = "95%".
Proof. reflexivity. Qed.

Lemma percent_key_99 : percent_key (99 # 100) = "99%".
Proof. reflexivity. Qed.

(** C4: for a portfolio return series of at least 30 finite observations,
    [calculate_var] at the confidence levels 0.95 and 0.99 reports the 5th
    and the 1st percentile of the returns, and the value for 0.99 is less than
    or equal to the value for 0.95. *)
Theorem historical_var_monotone_in_confidence :
  forall (now : string) (np_sqrt norm_ppf : Q -> Q)
         (portfolio : Portfolio) (price_data : PriceData)
         (rs : list npfloat) (xs : list Q),
    _calculate_portfolio_returns portfolio price_data = Ret rs ->
    all_finite rs = Ret xs ->
    (30 <= List.length rs)%nat ->
    exists result v99 v95,
      calculate_var now np_sqrt norm_ppf portfolio price_data default_confidence_levels
      = Ret result
      /\ var_absolute_at result "99%" = Some (PNum v99)
      /\ var_absolute_at result "95%" = Some (PNum v95)
      /\ np_percentile xs ((1 - (99 # 100)) * 100) = Ret v99
      /\ np_percentile xs ((1 - (95 # 100)) * 100) = Ret v95
      /\ v99 <= v95.
Proof.
  intros now np_sqrt norm_ppf portfolio price_data rs xs Hrs Hxs Hlen.
  pose proof (all_finite_length rs xs Hxs) as Hxlen.
  assert (Hne : xs <> []) by (intros ->; simpl in Hxlen; lia).
  destruct (np_percentile_defined xs ((1 - (95 # 100)) * 100) Hne) as (v95 & H95).
  { split; lra. }
  destruct (np_percentile_defined xs ((1 - (99 # 100)) * 100) Hne) as (v99 & H99).
  { split; lra. }
  destruct (np_std_defined np_sqrt xs Hne) as (sd & Hsd).
  assert (Hle : v99 <= v95).
  { apply (np_percentile_monotone xs ((1 - (99 # 100)) * 100) ((1 - (95 # 100)) * 100));
      [lra | lra | lra | exact H99 | exact H95]. }
  unfold calculate_var. rewrite Hrs. cbn [bind].
  destruct (Nat.ltb_spec (List.length rs) 30) as [Hlt | _]; [lia |].
  rewrite Hxs. unfold default_confidence_levels. cbn [bind foldM].
  unfold historical_level.
  rewrite H95. cbn [bind]. rewrite H99. cbn [bind fst snd].
  rewrite Hsd. cbn [bind]. unfold parametric_level.
  rewrite percent_key_95, percent_key_99.
  simpl (Qlt_le_dec 0 _). simpl (Qlt_le_dec _ 1). cbn [bind try_except].
  eexists. exists v99, v95.
  split; [reflexivity |].
  split; [reflexivity |]. split; [reflexivity |].
  split; [reflexivity |]. split; [reflexivity | exact Hle].
Qed.

Lemma historical_var_monotone_in_confidence_witness :
  _calculate_portfolio_returns one_asset_data one_asset_prices = Ret one_asset_returns
  /\ all_finite one_asset_returns = Ret one_asset_finite_returns
  /\ (30 <= List.length one_asset_returns)%nat
  /\ forall (now : string) (np_sqrt norm_ppf : Q -> Q),
       exists result v99 v95,
         calculate_var now np_sqrt norm_ppf one_asset_data one_asset_prices
                       default_confidence_levels
         = Ret result
         /\ var_absolute_at result "99%" = Some (PNum v99)
         /\ var_absolute_at result "95%" = Some (PNum v95)
         /\ np_percentile one_asset_finite_returns ((1 - (99 # 100)) * 100) = Ret v99
         /\ np_percentile one_asset_finite_returns ((1 - (95 # 100)) * 100) = Ret v95
         /\ v99 <= v95.
Proof.
  assert (H1 : _calculate_portfolio_returns one_asset_data one_asset_prices
               = Ret one_asset_returns) by (vm_compute; reflexivity).
  assert (H2 : all_finite one_asset_returns = Ret one_asset_finite_returns)
    by (vm_compute; reflexivity).
  assert (H3 : (30 <= List.length one_asset_returns)%nat) by (vm_compute; lia).
  split; [exact H1 |]. split; [exact H2 |]. split; [exact H3 |].
  intros now np_sqrt norm_ppf.
  exact (historical_var_monotone_in_confidence now np_sqrt norm_ppf
           one_asset_data one_asset_prices one_asset_returns one_asset_finite_returns
           H1 H2 H3).
Defined.

(** ** Correlation analysis of a single asset *)

(** C7 (as amended): the correlation analysis of a portfolio of exactly one
    asset returns only the message that at least two assets are needed: no
    correlation matrix and no [diversification_ratio]. *)
Theorem single_asset_correlation_is_a_message :
  forall (np_sqrt : Q -> Q) (df_corr : list (list Q) -> list (list Q))
         (portfolio_data : Portfolio) (price_data : PriceData) (asset : Asset),
    assets portfolio_data = Some [asset] ->
    _analyze_portfolio_correlations np_sqrt df_corr portfolio_data price_data
    = Ret one_asset_message
    /\ dict_get "correlation_matrix"
         [("message", PStr "Need at least 2 assets for correlation analysis")] = None
    /\ dict_get "diversification_ratio"
         [("message", PStr "Need at least 2 assets for correlation analysis")] = None.
Proof.
  intros np_sqrt df_corr portfolio_data price_data asset Hassets.
  unfold _analyze_portfolio_correlations. rewrite Hassets.
  repeat split; reflexivity.
Qed.

Lemma single_asset_correlation_is_a_message_witness :
  assets one_asset_data
  = Some [ {| a_symbol := "BTC"; a_quantity := 1; a_current_price := 130;
              a_value := 130; a_weight := 1 |} ]
  /\ forall (np_sqrt : Q -> Q) (df_corr : list (list Q) -> list (list Q)),
       _analyze_portfolio_correlations np_sqrt df_corr one_asset_data one_asset_prices
       = Ret one_asset_message
       /\ dict_get "correlation_matrix"
            [("message", PStr "Need at least 2 assets for correlation analysis")] = None
       /\ dict_get "diversification_ratio"
            [("message", PStr "Need at least 2 assets for correlation analysis")] = None.
Proof.
  split; [reflexivity |]. intros np_sqrt df_corr.
  exact (single_asset_correlation_is_a_message np_sqrt df_corr one_asset_data
           one_asset_prices _ eq_refl).
Defined.

(** C7 (as stated) fails: for the one-asset portfolio the result has the
    single key [message]; it reports no [diversification_ratio], so not the
    value 1.0 either. *)
Lemma single_asset_correlation_has_no_ratio :
  List.length (get_default (assets one_asset_data) []) = 1%nat
  /\ forall (np_sqrt : Q -> Q) (df_corr : list (list Q) -> list (list Q)),
       exists d,
         _analyze_portfolio_correlations np_sqrt df_corr one_asset_data one_asset_prices
         = Ret (PDict d)
         /\ map fst d = ["message"]
         /\ dict_get "diversification_ratio" d = None.
Proof.
  split; [reflexivity |]. intros np_sqrt df_corr.
  eexists. split; [reflexivity |]. split; reflexivity.
Qed.

(** ** Failures inside the orchestrator *)

Lemma try_except_ret_inv {A : Type} (body : outcome A) (handler : exn -> outcome A)
  (v : A) :
  try_except body handler = Ret v ->
  body = Ret v \/ exists e, body = Raise e /\ handler e = Ret v.
Proof.
  destruct body as [a | e | ]; simpl; intros H; try discriminate.
  - left. exact H.
  - right. exists e. split; [reflexivity | exact H].
Qed.

Lemma try_except_error_result_handled (body : outcome pyval) (e : exn) :
  try_except body (fun e => Ret (error_result e)) <> Raise e.
Proof. destruct body; simpl; discriminate. Qed.

Lemma readable_error_result (e : exn) (path : list string) (key : string) (default : Q) :
  key <> "error" -> ~ In "error" path ->
  readable (error_result e) path key default.
Proof.
  intros Hk Hp. unfold readable, error_result.
  destruct path as [| k rest].
  - simpl. destruct (String.eqb_spec key "error"); [contradiction |].
    eexists; reflexivity.
  - simpl. destruct (String.eqb_spec k "error") as [-> | _].
    + exfalso. apply Hp. left. reflexivity.
    + simpl. clear Hp. induction rest as [| k' rest IH]; simpl.
      * eexists; reflexivity.
      * exact IH.
Qed.

Lemma risk_metrics_readable (np_sqrt : Q -> Q) (stats_skew stats_kurtosis : list Q -> Q)
  (portfolio_data : Portfolio) (price_data : PriceData) (rm : pyval) :
  _calculate_portfolio_risk_metrics np_sqrt stats_skew stats_kurtosis
    portfolio_data price_data = Ret rm ->
  readable rm [] "annual_volatility" 0.
Proof.
  unfold _calculate_portfolio_risk_metrics. intros H.
  apply try_except_ret_inv in H. destruct H as [H | (e & _ & H)].
  - inv_bind H. destruct (List.length a =? 0)%nat.
    + injection H as <-. eexists; reflexivity.
    + repeat inv_bind H. injection H as <-. eexists; reflexivity.
  - injection H as <-. apply readable_error_result; [discriminate | simpl; tauto].
Qed.

Lemma correlations_readable (np_sqrt : Q -> Q) (df_corr : list (list Q) -> list (list Q))
  (portfolio_data : Portfolio) (price_data : PriceData) (ca : pyval) :
  _analyze_portfolio_correlations np_sqrt df_corr portfolio_data price_data = Ret ca ->
  readable ca [] "average_correlation" 0.
Proof.
  unfold _analyze_portfolio_correlations. intros H.
  apply try_except_ret_inv in H. destruct H as [H | (e & _ & H)].
  - inv_bind H. destruct (List.length (map a_symbol a) <? 2)%nat.
    + injection H as <-. eexists; reflexivity.
    + inv_bind H. destruct (snd a0) as [min_length |].
      * destruct ((List.length (fst a0) <? 2) || (min_length <? 10))%nat.
        -- injection H as <-. eexists; reflexivity.
        -- repeat inv_bind H. injection H as <-. eexists; reflexivity.
      * injection H as <-. eexists; reflexivity.
  - injection H as <-. apply readable_error_result; [discriminate | simpl; tauto].
Qed.

Lemma stress_test_readable (now : string) (portfolio : Portfolio)
  (price_data : PriceData) (scenarios : option (list Scenario)) (st : pyval) :
  perform_stress_test now portfolio price_data scenarios = Ret st ->
  readable st [] "portfolio_resilience_score" 50.
Proof.
  unfold perform_stress_test. intros H.
  apply try_except_ret_inv in H. destruct H as [H | (e & _ & H)].
  - repeat inv_bind H. injection H as <-. eexists; reflexivity.
  - injection H as <-. apply readable_error_result; [discriminate | simpl; tauto].
Qed.

Lemma historical_level_shape (portfolio : Portfolio) (xs : list Q) (levels : list Q) :
  forall acc r,
    foldM (historical_level portfolio xs) levels acc = Ret r ->
    (forall k v, dict_get k (fst acc) = Some v -> estimate_shape v) ->
    forall k v, dict_get k (fst r) = Some v -> estimate_shape v.
Proof.
  induction levels as [| c t IH]; intros acc r H Hacc; simpl in H.
  - injection H as <-. exact Hacc.
  - inv_bind H. apply (IH _ _ H).
    unfold historical_level in Ha. inv_bind Ha. injection Ha as <-.
    intros k v. simpl fst.
    destruct (string_dec k (percent_key c)) as [-> | Hne].
    + rewrite dict_get_set_same. intros Hv. injection Hv as <-.
      eexists. eexists. eexists. reflexivity.
    + rewrite dict_get_set_other by exact Hne. apply Hacc.
Qed.

Lemma var_readable (now : string) (np_sqrt norm_ppf : Q -> Q)
  (portfolio : Portfolio) (price_data : PriceData) (levels : list Q) (va : pyval) :
  calculate_var now np_sqrt norm_ppf portfolio price_data levels = Ret va ->
  readable va ["var_estimates"; "95%"] "var_percentage" 0.
Proof.
  unfold calculate_var. intros H.
  apply try_except_ret_inv in H. destruct H as [H | (e & _ & H)].
  - inv_bind H. destruct (List.length a <? 30)%nat.
    + injection H as <-. eexists; reflexivity.
    + inv_bind H. inv_bind H.
      pose proof (historical_level_shape _ _ _ _ _ Ha1
                    ltac:(simpl; intros; discriminate)) as Hshape.
      repeat inv_bind H. injection H as <-.
      unfold readable. simpl.
      destruct (dict_get "95%" (fst a1)) as [v |] eqn:E; simpl.
      * destruct (Hshape _ _ E) as (x & y & z & ->). eexists; reflexivity.
      * eexists; reflexivity.
  - injection H as <-. apply readable_error_result; [discriminate | simpl].
    intros [H | [H | []]]; discriminate.
Qed.

Lemma dict_set_Forall {V : Type} (P : string * V -> Prop) (k : string) (v : V)
  (d : list (string * V)) :
  P (k, v) -> Forall P d -> Forall P (dict_set k v d).
Proof.
  intros Hv Hd. induction Hd as [| [k' v'] t Hh Ht IH]; simpl.
  - constructor; [exact Hv | constructor].
  - destruct (String.eqb k k'); constructor; assumption.
Qed.

Lemma asset_risks_shape (np_sqrt : Q -> Q) (price_data : PriceData)
  (assets : list Asset) :
  forall acc ar,
    foldM (assess_asset np_sqrt price_data) assets acc = Ret ar ->
    Forall asset_risk_shape acc -> Forall asset_risk_shape ar.
Proof.
  induction assets as [| a t IH]; intros acc ar H Hacc; simpl in H.
  - injection H as <-. exact Hacc.
  - inv_bind H. apply (IH _ _ H).
    unfold assess_asset in Ha. inv_bind Ha. injection Ha as <-.
    apply dict_set_Forall; [| exact Hacc].
    unfold _assess_asset_risk in Ha0. repeat inv_bind Ha0. injection Ha0 as <-.
    eexists. split; reflexivity.
Qed.

Lemma no_high_risk_assets (ar : dict) :
  Forall asset_risk_shape ar ->
  mapM (fun sr => level <- py_get (snd sr) "risk_level" PNone ;;
                  Ret (fst sr, is_high level)) ar
  = Ret (map (fun sr => (fst sr, false)) ar).
Proof.
  induction 1 as [| [k v] t (d & Hd & Hnone) _ IH]; simpl; [reflexivity |].
  simpl in Hd. subst v. simpl. rewrite Hnone. simpl. rewrite IH. reflexivity.
Qed.

Ltac step_bind_everywhere :=
  match goal with
  | |- context [bind (py_get ?v ?k ?d) _] =>
      destruct (py_get v k d) eqn:?; cbn [bind] in *; try congruence
  | |- context [bind (as_num ?v) _] =>
      destruct (as_num v) eqn:?; cbn [bind] in *; try congruence
  end.

Lemma recommendations_defined (ra : dict) (ar : dict) :
  readable (PDict ra) ["risk_metrics"] "annual_volatility" 0 ->
  readable (PDict ra) ["correlation_analysis"] "average_correlation" 0 ->
  readable (PDict ra) ["var_analysis"; "var_estimates"; "95%"] "var_percentage" 0 ->
  readable (PDict ra) ["stress_test_results"] "portfolio_resilience_score" 50 ->
  dict_get "asset_risks" ra = Some (PDict ar) ->
  Forall asset_risk_shape ar ->
  exists recommendations,
    _generate_risk_recommendations (PDict ra) = Ret recommendations.
Proof.
  intros (vol & Hvol) (corr & Hcorr) (var & Hvar) (res & Hres) Har Hshape.
  unfold _generate_risk_recommendations.
  simpl read_number in Hvol, Hcorr, Hvar, Hres.
  unfold get_in in *. cbn [py_get bind] in *.
  repeat step_bind_everywhere.
  rewrite Har. cbn [get_default bind items].
  rewrite (no_high_risk_assets ar Hshape). cbn [bind].
  eexists; reflexivity.
Qed.

Lemma prepare_portfolio_data_fields (portfolio : Portfolio) (price_data : PriceData)
  (pd : Portfolio) :
  _prepare_portfolio_data portfolio price_data = Ret pd ->
  exists total assets', total_value pd = Some total /\ assets pd = Some assets'.
Proof.
  unfold _prepare_portfolio_data. intros H. inv_bind H. injection H as <-.
  eexists. eexists. split; reflexivity.
Qed.

(** C6 (as amended).  Each of the four portfolio-level stages (risk metrics,
    correlation analysis, VaR, stress test) catches its own exceptions: it
    never raises, and what it returns, an error marker included, is stored
    in its own field while the other stages still run.  An exception raised
    outside them, in the portfolio preparation or in the per-asset analysis,
    is caught by the orchestrator, whose result is then the error field
    alone: nothing computed before it is returned. *)
Theorem assess_portfolio_risk_failure_handling :
  forall (now : string) (np_sqrt : Q -> Q) (stats_skew stats_kurtosis : list Q -> Q)
         (norm_ppf : Q -> Q) (df_corr : list (list Q) -> list (list Q))
         (portfolio : Portfolio) (price_data : PriceData),
    (forall pd e,
        _calculate_portfolio_risk_metrics np_sqrt stats_skew stats_kurtosis pd price_data
        <> Raise e
        /\ _analyze_portfolio_correlations np_sqrt df_corr pd price_data <> Raise e
        /\ _calculate_var now np_sqrt norm_ppf pd price_data <> Raise e
        /\ _perform_stress_tests now pd price_data <> Raise e)
    /\ (forall e,
          _prepare_portfolio_data portfolio price_data = Raise e ->
          assess_portfolio_risk now np_sqrt stats_skew stats_kurtosis norm_ppf df_corr
            portfolio price_data
          = Ret (PDict [("error", PExc e)]))
    /\ (forall pd assets' e,
          _prepare_portfolio_data portfolio price_data = Ret pd ->
          assets pd = Some assets' ->
          foldM (assess_asset np_sqrt price_data) assets' [] = Raise e ->
          assess_portfolio_risk now np_sqrt stats_skew stats_kurtosis norm_ppf df_corr
            portfolio price_data
          = Ret (PDict [("error", PExc e)]))
    /\ (forall pd assets' ar rm ca va st,
          _prepare_portfolio_data portfolio price_data = Ret pd ->
          assets pd = Some assets' ->
          foldM (assess_asset np_sqrt price_data) assets' [] = Ret ar ->
          _calculate_portfolio_risk_metrics np_sqrt stats_skew stats_kurtosis pd price_data
          = Ret rm ->
          _analyze_portfolio_correlations np_sqrt df_corr pd price_data = Ret ca ->
          _calculate_var now np_sqrt norm_ppf pd price_data = Ret va ->
          _perform_stress_tests now pd price_data = Ret st ->
          exists d,
            assess_portfolio_risk now np_sqrt stats_skew stats_kurtosis norm_ppf df_corr
              portfolio price_data
            = Ret (PDict d)
            /\ dict_get "total_value_usd" d = option_map PNum (total_value pd)
            /\ dict_get "asset_risks" d = Some (PDict ar)
            /\ dict_get "risk_metrics" d = Some rm
            /\ dict_get "correlation_analysis" d = Some ca
            /\ dict_get "var_analysis" d = Some va
            /\ dict_get "stress_test_results" d = Some st
            /\ dict_get "error" d = None).
Proof.
  intros now np_sqrt stats_skew stats_kurtosis norm_ppf df_corr portfolio price_data.
  split; [| split; [| split]].
  - intros pd e. repeat split; apply try_except_error_result_handled.
  - intros e H. unfold assess_portfolio_risk. rewrite H. reflexivity.
  - intros pd assets' e Hprep Hassets Hfold.
    destruct (prepare_portfolio_data_fields _ _ _ Hprep) as (total & assets0 & Htotal & _).
    unfold assess_portfolio_risk. rewrite Hprep. cbn [bind].
    rewrite Htotal, Hassets. cbn [subscript bind]. rewrite Hfold. reflexivity.
  - intros pd assets' ar rm ca va st Hprep Hassets Hfold Hrm Hca Hva Hst.
    destruct (prepare_portfolio_data_fields _ _ _ Hprep) as (total & assets0 & Htotal & _).
    pose proof (risk_metrics_readable _ _ _ _ _ _ Hrm) as Rrm.
    pose proof (correlations_readable _ _ _ _ _ Hca) as Rca.
    pose proof (var_readable _ _ _ _ _ _ _ Hva) as Rva.
    pose proof (stress_test_readable _ _ _ _ _ Hst) as Rst.
    pose proof (asset_risks_shape _ _ _ _ _ Hfold (Forall_nil _)) as Rar.
    unfold assess_portfolio_risk. rewrite Hprep. cbn [bind].
    rewrite Htotal, Hassets. cbn [subscript bind]. rewrite Hfold. cbn [bind].
    rewrite Hrm. cbn [bind]. rewrite Hca. cbn [bind]. rewrite Hva. cbn [bind].
    rewrite Hst. cbn [bind]. simpl dict_set.
    match goal with
    | |- context [_calculate_overall_risk_score ?ra] =>
        destruct (overall_risk_score_total ra) as (score & Hscore & _); rewrite Hscore
    end.
    cbn [bind].
    match goal with
    | |- context [_generate_risk_recommendations (PDict ?ra)] =>
        destruct (recommendations_defined ra ar) as (recs & Hrecs);
          [exact Rrm | exact Rca | exact Rva | exact Rst | reflexivity | exact Rar |];
          rewrite Hrecs
    end.
    cbn [bind try_except]. eexists. split; [reflexivity |].
    repeat split; reflexivity.
Qed.

Lemma assess_portfolio_risk_failure_handling_witness :
  _prepare_portfolio_data empty_portfolio [] = Ret empty_data
  /\ forall (now : string) (np_sqrt : Q -> Q) (stats_skew stats_kurtosis : list Q -> Q)
            (norm_ppf : Q -> Q) (df_corr : list (list Q) -> list (list Q)),
       exists d,
         assess_portfolio_risk now np_sqrt stats_skew stats_kurtosis norm_ppf df_corr
           empty_portfolio []
         = Ret (PDict d)
         /\ dict_get "total_value_usd" d = option_map PNum (total_value empty_data)
         /\ dict_get "asset_risks" d = Some (PDict [])
         /\ dict_get "risk_metrics" d
            = Some (PDict [("error", PStr "No return data available")])
         /\ dict_get "correlation_analysis" d = Some one_asset_message
         /\ dict_get "var_analysis" d
            = Some (PDict [("error", PStr "Insufficient data for VaR calculation")])
         /\ dict_get "stress_test_results" d
            = Some (PDict [("error", PExc ZeroDivisionError)])
         /\ dict_get "error" d = None.
Proof.
  split; [reflexivity |].
  intros now np_sqrt stats_skew stats_kurtosis norm_ppf df_corr.
  exact (proj2 (proj2 (proj2
           (assess_portfolio_risk_failure_handling now np_sqrt stats_skew
              stats_kurtosis norm_ppf df_corr empty_portfolio [])))
           empty_data [] [] _ _ _ _
           eq_refl eq_refl eq_refl eq_refl eq_refl eq_refl eq_refl).
Defined.

(** C6 (as stated) fails.  The portfolio is prepared (total value 50000) and
    the BTC holding is assessed; the ETH history then raises [KeyError].  The
    result holds the key [error] alone: the total value and the BTC result
    computed before the failure are not returned. *)
Lemma assess_portfolio_risk_drops_completed_results :
  (exists pd, _prepare_portfolio_data two_coin_portfolio broken_history_prices = Ret pd
              /\ total_value pd = Some (0 + 1 * 30000 + 10 * 2000))
  /\ (forall np_sqrt : Q -> Q,
         exists r, _assess_asset_risk np_sqrt btc_asset
                     (price_data_get broken_history_prices "BTC") = Ret r)
  /\ forall (now : string) (np_sqrt : Q -> Q) (stats_skew stats_kurtosis : list Q -> Q)
            (norm_ppf : Q -> Q) (df_corr : list (list Q) -> list (list Q)),
       exists d,
         assess_portfolio_risk now np_sqrt stats_skew stats_kurtosis norm_ppf df_corr
           two_coin_portfolio broken_history_prices
         = Ret (PDict d)
         /\ map fst d = ["error"]
         /\ dict_get "error" d = Some (PExc (KeyError "price"))
         /\ dict_get "total_value_usd" d = None
         /\ dict_get "asset_risks" d = None.
Proof.
  split; [eexists; split; reflexivity |].
  split; [intros; eexists; reflexivity |].
  intros. eexists. split; [reflexivity |]. repeat split; reflexivity.
Qed.

(** ** Recommendations and risk level *)

Lemma recommendations_nonempty (ra : pyval) (recs : list string) :
  _generate_risk_recommendations ra = Ret recs -> recs <> [].
Proof.
  unfold _generate_risk_recommendations. intros H.
  repeat inv_bind H. injection H as <-.
  match goal with
  | |- match ?l with [] => _ | _ => _ end <> [] => destruct l; discriminate
  end.
Qed.

(** X1: whenever [_generate_risk_recommendations] returns, the list it
    returns is not empty: when no rule fires it holds the single message
    that the risk is within acceptable levels. *)
Theorem risk_recommendations_never_empty :
  forall (ra : pyval) (recs : list string),
    _generate_risk_recommendations ra = Ret recs -> recs <> [].
Proof. exact recommendations_nonempty. Qed.

Lemma risk_recommendations_never_empty_witness :
  _generate_risk_recommendations (PDict [])
  = Ret ["Portfolio risk appears to be within acceptable levels"]
  /\ ["Portfolio risk appears to be within acceptable levels"] <> [].
Proof.
  split; [reflexivity |].
  apply (risk_recommendations_never_empty (PDict [])). reflexivity.
Defined.

(** X2: a higher score never gets a lower risk level. *)
Theorem categorize_risk_level_monotone :
  forall s1 s2 : Q,
    s1 <= s2 ->
    (level_rank (_categorize_risk_level s1) <= level_rank (_categorize_risk_level s2))%nat.
Proof.
  intros s1 s2 Hle. unfold _categorize_risk_level.
  repeat match goal with
         | |- context [Qlt_le_dec ?a ?b] => destruct (Qlt_le_dec a b)
         end; try lra; vm_compute; lia.
Qed.

Lemma categorize_risk_level_monotone_witness :
  (level_rank (_categorize_risk_level 35) <= level_rank (_categorize_risk_level 80))%nat.
Proof.
  apply categorize_risk_level_monotone. lra.
Defined.

(** X3: a result of [assess_portfolio_risk] without the key [error] holds a
    [risk_score] between 0 and 100, the [risk_level] that
    [_categorize_risk_level] gives this score, and a non-empty list of
    recommendations. *)
Theorem assessment_score_level_recommendations :
  forall (now : string) (np_sqrt : Q -> Q) (stats_skew stats_kurtosis : list Q -> Q)
         (norm_ppf : Q -> Q) (df_corr : list (list Q) -> list (list Q))
         (portfolio : Portfolio) (price_data : PriceData) (d : dict),
    assess_portfolio_risk now np_sqrt stats_skew stats_kurtosis norm_ppf df_corr
      portfolio price_data = Ret (PDict d) ->
    dict_get "error" d = None ->
    exists score recs,
      dict_get "risk_score" d = Some (PNum score)
      /\ 0 <= score <= 100
      /\ dict_get "risk_level" d = Some (PStr (_categorize_risk_level score))
      /\ dict_get "recommendations" d = Some (PList (map PStr recs))
      /\ recs <> [].
Proof.
  intros now np_sqrt stats_skew stats_kurtosis norm_ppf df_corr portfolio price_data d
    H Herr.
  unfold assess_portfolio_risk in H. apply try_except_ret_inv in H.
  destruct H as [H | (e & _ & H)].
  - repeat inv_bind H. injection H as <-.
    match goal with
    | Hs : _calculate_overall_risk_score ?ra = Ret ?s |- _ =>
        destruct (overall_risk_score_total ra) as (s' & Hs' & Hb);
          rewrite Hs in Hs'; injection Hs' as <-;
          exists s
    end.
    match goal with
    | Hr : _generate_risk_recommendations _ = Ret ?r |- _ =>
        exists r; pose proof (recommendations_nonempty _ _ Hr) as Hne
    end.
    split; [reflexivity |]. split; [exact Hb |]. split; [reflexivity |].
    split; [reflexivity | exact Hne].
  - injection H as <-. simpl in Herr. discriminate.
Qed.

Lemma assessment_score_level_recommendations_witness :
  dict_get "error" (empty_assessment "2024-01-01T00:00:00") = None
  /\ forall (now : string) (np_sqrt : Q -> Q) (stats_skew stats_kurtosis : list Q -> Q)
            (norm_ppf : Q -> Q) (df_corr : list (list Q) -> list (list Q)),
       exists score recs,
         dict_get "risk_score" (empty_assessment now) = Some (PNum score)
         /\ 0 <= score <= 100
         /\ dict_get "risk_level" (empty_assessment now)
            = Some (PStr (_categorize_risk_level score))
         /\ dict_get "recommendations" (empty_assessment now)
            = Some (PList (map PStr recs))
         /\ recs <> [].
Proof.
  split; [reflexivity |].
  intros now np_sqrt stats_skew stats_kurtosis norm_ppf df_corr.
  apply (assessment_score_level_recommendations now np_sqrt stats_skew stats_kurtosis
           norm_ppf df_corr empty_portfolio [] (empty_assessment now));
    reflexivity.
Defined.

(** ** The loops over the holdings *)

Lemma holding_asset_cases (price_data : PriceData) (h : Holding) :
  match h_symbol h, h_quantity h with
  | None, _ => holding_asset price_data h = Raise (KeyError "symbol")
  | Some _, None => holding_asset price_data h = Raise (KeyError "quantity")
  | Some _, Some _ => exists a, holding_asset price_data h = Ret a
  end.
Proof.
  unfold holding_asset.
  destruct (h_symbol h); [| reflexivity].
  destruct (h_quantity h); [| reflexivity].
  eexists; reflexivity.
Qed.

Lemma apply_to_holding_cases (shocks : list (string * Q)) (price_data : PriceData)
  (acc : ScenarioResult) (h : Holding) :
  match h_symbol h, h_quantity h with
  | None, _ => apply_to_holding shocks price_data acc h = Raise (KeyError "symbol")
  | Some _, None => apply_to_holding shocks price_data acc h = Raise (KeyError "quantity")
  | Some symbol, Some quantity =>
      exists acc',
        apply_to_holding shocks price_data acc h = Ret acc'
        /\ new_value acc'
           = new_value acc
             + quantity
               * (get_default (current_price (price_data_get price_data symbol)) 0
                  * (1 + shock_for shocks symbol))
  end.
Proof.
  unfold apply_to_holding.
  destruct (h_symbol h); [| reflexivity].
  destruct (h_quantity h); [| reflexivity].
  eexists; split; reflexivity.
Qed.

Lemma mapM_holding_asset_outcome (price_data : PriceData) (hs : list Holding) :
  match first_missing_key hs with
  | Some k => mapM (holding_asset price_data) hs = Raise (KeyError k)
  | None => exists assets', mapM (holding_asset price_data) hs = Ret assets'
                            /\ List.length assets' = List.length hs
  end.
Proof.
  induction hs as [| h t IH]; cbn [first_missing_key mapM].
  - exists []. split; reflexivity.
  - pose proof (holding_asset_cases price_data h) as Hh.
    destruct (h_symbol h) as [s |]; [| rewrite Hh; reflexivity].
    destruct (h_quantity h) as [q |]; [| rewrite Hh; reflexivity].
    destruct Hh as (a & ->). cbn [bind].
    destruct (first_missing_key t) as [k |].
    + rewrite IH. reflexivity.
    + destruct IH as (assets' & -> & Hlen). cbn [bind]. eexists.
      split; [reflexivity |]. simpl. rewrite Hlen. reflexivity.
Qed.

Lemma foldM_apply_outcome (shocks : list (string * Q)) (price_data : PriceData)
  (hs : list Holding) :
  forall acc,
    match first_missing_key hs with
    | Some k => foldM (apply_to_holding shocks price_data) hs acc = Raise (KeyError k)
    | None =>
        exists r, foldM (apply_to_holding shocks price_data) hs acc = Ret r
                  /\ new_value r == new_value acc + stressed_value shocks price_data hs
    end.
Proof.
  induction hs as [| h t IH]; intros acc; cbn [first_missing_key foldM].
  - exists acc. split; [reflexivity |]. unfold stressed_value. simpl. lra.
  - pose proof (apply_to_holding_cases shocks price_data acc h) as Hh.
    unfold stressed_value, holding_price. cbn [map Qsum].
    destruct (h_symbol h) as [s |]; [| rewrite Hh; reflexivity].
    destruct (h_quantity h) as [q |]; [| rewrite Hh; reflexivity].
    destruct Hh as (acc' & -> & Hacc'). cbn [bind get_default].
    specialize (IH acc').
    destruct (first_missing_key t) as [k |]; [exact IH |].
    destruct IH as (r & Hr & Hval). exists r. split; [exact Hr |].
    rewrite Hval, Hacc'. unfold stressed_value, holding_price. lra.
Qed.

(** X4: the two loops over the holdings, in [_prepare_portfolio_data] and
    in [_apply_stress_scenario], stop at the first holding that lacks
    [symbol] or [quantity] with the [KeyError] of that key, [symbol] first;
    when no holding lacks one, both return, and the prepared data counts as
    many assets as there are holdings. *)
Theorem holdings_loops_need_symbol_and_quantity :
  forall (portfolio : Portfolio) (shocks : list (string * Q)) (price_data : PriceData),
    match first_missing_key (get_default (holdings portfolio) []) with
    | Some k =>
        _prepare_portfolio_data portfolio price_data = Raise (KeyError k)
        /\ _apply_stress_scenario portfolio shocks price_data = Raise (KeyError k)
    | None =>
        (exists pd, _prepare_portfolio_data portfolio price_data = Ret pd
                    /\ asset_count pd
                       = Some (List.length (get_default (holdings portfolio) [])))
        /\ exists r, _apply_stress_scenario portfolio shocks price_data = Ret r
    end.
Proof.
  intros portfolio shocks price_data.
  unfold _prepare_portfolio_data, _apply_stress_scenario.
  pose proof (mapM_holding_asset_outcome price_data (get_default (holdings portfolio) []))
    as Hm.
  pose proof (foldM_apply_outcome shocks price_data (get_default (holdings portfolio) [])
                {| new_value := 0; asset_impacts := [] |}) as Hf.
  destruct (first_missing_key (get_default (holdings portfolio) [])) as [k |].
  - rewrite Hm, Hf. split; reflexivity.
  - destruct Hm as (assets' & -> & Hlen). destruct Hf as (r & -> & _). split.
    + eexists. split; [reflexivity |]. simpl. rewrite length_map, Hlen. reflexivity.
    + exists r. reflexivity.
Qed.

Lemma holdings_of_assets (price_data : PriceData) (hs : list Holding)
  (ys : list Asset) :
  Forall2 (asset_of_holding price_data) hs ys ->
  Qsum (map a_value ys) == holdings_value price_data hs
  /\ first_missing_key hs = None.
Proof.
  unfold holdings_value, holding_price.
  induction 1 as [| h y hs ys (Hs & Hq & Hp & Hv) _ [IHsum IHkey]]; simpl.
  - split; reflexivity.
  - rewrite Hs, Hq. simpl. rewrite IHsum, Hv, Hp. split; [reflexivity | exact IHkey].
Qed.

Lemma prepared_total_is_holdings_value (portfolio : Portfolio) (price_data : PriceData)
  (pd : Portfolio) :
  _prepare_portfolio_data portfolio price_data = Ret pd ->
  exists t, total_value pd = Some t
            /\ t == holdings_value price_data (get_default (holdings portfolio) [])
            /\ first_missing_key (get_default (holdings portfolio) []) = None.
Proof.
  unfold _prepare_portfolio_data. intros H. inv_bind H. injection H as <-.
  eexists. split; [reflexivity |].
  rewrite sum_values_Qsum. apply holdings_of_assets.
  apply mapM_holding_asset. exact Ha.
Qed.

Lemma stressed_value_uniform (shocks : list (string * Q)) (price_data : PriceData)
  (hs : list Holding) (s : Q) :
  (forall symbol, shock_for shocks symbol == s) ->
  stressed_value shocks price_data hs == holdings_value price_data hs * (1 + s).
Proof.
  intros Hs. unfold stressed_value, holdings_value.
  induction hs as [| h t IH]; simpl; [lra |].
  rewrite IH. rewrite (Hs (get_default (h_symbol h) "")). lra.
Qed.

Lemma shock_for_all (shocks : list (string * Q)) (s : Q) :
  dict_get "all" shocks = Some s -> forall symbol, shock_for shocks symbol == s.
Proof.
  intros H symbol. unfold shock_for, dict_mem. rewrite H. simpl. reflexivity.
Qed.

Lemma dict_get_Forall {V : Type} (P : V -> Prop) (d : list (string * V)) (k : string)
  (v : V) :
  Forall (fun kv => P (snd kv)) d -> dict_get k d = Some v -> P v.
Proof.
  induction 1 as [| [k' v'] t Hh _ IH]; simpl; [discriminate |].
  destruct (String.eqb k k'); [| exact IH].
  intros Hv. injection Hv as <-. exact Hh.
Qed.

Lemma shock_for_zero (shocks : list (string * Q)) :
  Forall (fun kv => snd kv == 0) shocks -> forall symbol, shock_for shocks symbol == 0.
Proof.
  intros Hall symbol. unfold shock_for, dict_mem.
  destruct (dict_get "all" shocks) as [s |] eqn:E1.
  { simpl. apply (dict_get_Forall (fun v => v == 0) _ _ _ Hall E1). }
  destruct (dict_get symbol shocks) as [s |] eqn:E2.
  { simpl. apply (dict_get_Forall (fun v => v == 0) _ _ _ Hall E2). }
  destruct (dict_get "others" shocks) as [s |] eqn:E3.
  { simpl. apply (dict_get_Forall (fun v => v == 0) _ _ _ Hall E3). }
  reflexivity.
Qed.

Lemma stress_after_prepare (portfolio : Portfolio) (shocks : list (string * Q))
  (price_data : PriceData) (pd : Portfolio) (t s : Q) :
  _prepare_portfolio_data portfolio price_data = Ret pd ->
  total_value pd = Some t ->
  (forall symbol, shock_for shocks symbol == s) ->
  exists r, _apply_stress_scenario portfolio shocks price_data = Ret r
            /\ new_value r == t * (1 + s).
Proof.
  intros Hprep Ht Hs.
  destruct (prepared_total_is_holdings_value _ _ _ Hprep) as (t' & Ht' & Hval & Hkey).
  rewrite Ht in Ht'. injection Ht' as <-.
  unfold _apply_stress_scenario.
  pose proof (foldM_apply_outcome shocks price_data (get_default (holdings portfolio) [])
                {| new_value := 0; asset_impacts := [] |}) as Hf.
  rewrite Hkey in Hf. destruct Hf as (r & Hr & Hnew). exists r. split; [exact Hr |].
  rewrite Hnew. simpl. rewrite (stressed_value_uniform _ _ _ s Hs), Hval. lra.
Qed.

(** X5: a scenario whose shocks are all 0 leaves the portfolio value
    unchanged: the value [_apply_stress_scenario] computes for the holdings
    is the total value [_prepare_portfolio_data] computes for them. *)
Theorem stress_with_zero_shocks_keeps_value :
  forall (portfolio : Portfolio) (shocks : list (string * Q)) (price_data : PriceData)
         (pd : Portfolio) (t : Q),
    _prepare_portfolio_data portfolio price_data = Ret pd ->
    total_value pd = Some t ->
    Forall (fun kv => snd kv == 0) shocks ->
    exists r, _apply_stress_scenario portfolio shocks price_data = Ret r
              /\ new_value r == t.
Proof.
  intros portfolio shocks price_data pd t Hprep Ht Hzero.
  destruct (stress_after_prepare portfolio shocks price_data pd t 0 Hprep Ht
              (shock_for_zero shocks Hzero)) as (r & Hr & Hnew).
  exists r. split; [exact Hr |]. rewrite Hnew. lra.
Qed.

Lemma stress_with_zero_shocks_keeps_value_witness :
  exists r, _apply_stress_scenario two_coin_portfolio [("BTC", 0); ("others", 0)]
              two_coin_prices = Ret r
            /\ new_value r == 0 + 1 * 30000 + 10 * 2000.
Proof.
  apply (stress_with_zero_shocks_keeps_value two_coin_portfolio
           [("BTC", 0); ("others", 0)] two_coin_prices two_coin_data).
  - reflexivity.
  - reflexivity.
  - repeat constructor.
Defined.

(** X6: a scenario with the wildcard [all] scales the whole portfolio: with
    [all] shocked by [s], the value after the scenario is [(1 + s)] times the
    total value [_prepare_portfolio_data] computes, whatever other keys the
    shocks have. *)
Theorem stress_with_all_scales_value :
  forall (portfolio : Portfolio) (shocks : list (string * Q)) (price_data : PriceData)
         (pd : Portfolio) (t s : Q),
    _prepare_portfolio_data portfolio price_data = Ret pd ->
    total_value pd = Some t ->
    dict_get "all" shocks = Some s ->
    exists r, _apply_stress_scenario portfolio shocks price_data = Ret r
              /\ new_value r == t * (1 + s).
Proof.
  intros portfolio shocks price_data pd t s Hprep Ht Hall.
  exact (stress_after_prepare portfolio shocks price_data pd t s Hprep Ht
           (shock_for_all shocks s Hall)).
Qed.

Lemma stress_with_all_scales_value_witness :
  exists r, _apply_stress_scenario two_coin_portfolio [("all", -(1#2))]
              two_coin_prices = Ret r
            /\ new_value r == (0 + 1 * 30000 + 10 * 2000) * (1 + -(1#2)).
Proof.
  apply (stress_with_all_scales_value two_coin_portfolio [("all", -(1#2))]
           two_coin_prices two_coin_data).
  - reflexivity.
  - reflexivity.
  - reflexivity.
Defined.

Lemma asset_price_is_looked_up (price_data : PriceData)
  (hs : list Holding) (ys : list Asset) :
  Forall2 (asset_of_holding price_data) hs ys ->
  forall y, In y ys ->
    a_current_price y
    = get_default (current_price (price_data_get price_data (a_symbol y))) 0.
Proof.
  induction 1 as [| h y' hs ys Hhy _ IH]; intros y Hin; simpl in Hin.
  - contradiction.
  - destruct Hin as [<- | Hin]; [apply Hhy | apply IH; exact Hin].
Qed.

(** X7: a holding whose symbol the price data does not know, or knows
    without a [current_price], is kept as an asset priced 0: its value is 0
    and so is its weight. *)
Theorem unknown_symbol_weighs_nothing :
  forall (portfolio : Portfolio) (price_data : PriceData) (pd : Portfolio)
         (assets' : list Asset) (a : Asset),
    _prepare_portfolio_data portfolio price_data = Ret pd ->
    assets pd = Some assets' ->
    In a assets' ->
    current_price (price_data_get price_data (a_symbol a)) = None ->
    a_current_price a = 0 /\ a_value a == 0 /\ a_weight a == 0.
Proof.
  intros portfolio price_data pd assets' a Hprep Hassets Hin Hprice.
  unfold _prepare_portfolio_data in Hprep. inv_bind Hprep. injection Hprep as <-.
  simpl in Hassets. injection Hassets as <-.
  pose proof (mapM_holding_asset _ _ _ Ha) as Hrel.
  apply in_map_iff in Hin. destruct Hin as (y & <- & Hy).
  pose proof (asset_value_is_product _ _ _ Hrel y Hy) as Hval.
  pose proof (asset_price_is_looked_up _ _ _ Hrel y Hy) as Hp.
  simpl in Hprice. rewrite Hprice in Hp. simpl in Hp.
  simpl. split; [exact Hp |].
  assert (Hv : a_value y == 0) by (rewrite Hval, Hp; lra).
  split; [exact Hv |].
  destruct (Qlt_le_dec 0 (sum_values a0)); [| reflexivity].
  rewrite Hv. field. lra.
Qed.

Lemma unknown_symbol_weighs_nothing_witness :
  a_current_price doge_asset = 0 /\ a_value doge_asset == 0 /\ a_weight doge_asset == 0.
Proof.
  apply (unknown_symbol_weighs_nothing doge_holder two_coin_prices doge_data
           doge_assets doge_asset).
  - reflexivity.
  - reflexivity.
  - right. left. reflexivity.
  - reflexivity.
Defined.

(** ** Stress test results *)

Lemma py_min_by_least {A : Type} (key : A -> Q) (xs : list A) (w : A) :
  py_min_by key xs = Ret w ->
  In w xs /\ forall y, In y xs -> key w <= key y.
Proof.
  destruct xs as [| x t]; simpl; [discriminate |].
  intros H. injection H as <-.
  assert (Hgen : forall l m,
             let r := fold_left (fun m y => if Qlt_le_dec (key y) (key m) then y else m) l m in
             (r = m \/ In r l) /\ key r <= key m /\ forall y, In y l -> key r <= key y).
  { induction l as [| y l IH]; intros m; simpl.
    - split; [left; reflexivity |]. split; [lra | contradiction].
    - destruct (Qlt_le_dec (key y) (key m)) as [Hlt | Hge].
      + destruct (IH y) as ([Hr | Hr] & Hle & Hall).
        * split; [right; left; symmetry; exact Hr |]. split; [lra |].
          intros z [<- | Hz]; [exact Hle | apply Hall; exact Hz].
        * split; [right; right; exact Hr |]. split; [lra |].
          intros z [<- | Hz]; [exact Hle | apply Hall; exact Hz].
      + destruct (IH m) as ([Hr | Hr] & Hle & Hall).
        * split; [left; exact Hr |]. split; [exact Hle |].
          intros z [<- | Hz]; [lra | apply Hall; exact Hz].
        * split; [right; right; exact Hr |]. split; [exact Hle |].
          intros z [<- | Hz]; [lra | apply Hall; exact Hz]. }
  destruct (Hgen t x) as ([Hr | Hr] & Hle & Hall).
  - split; [left; symmetry; exact Hr |].
    intros y [<- | Hy]; [exact Hle | apply Hall; exact Hy].
  - split; [right; exact Hr |].
    intros y [<- | Hy]; [exact Hle | apply Hall; exact Hy].
Qed.

Lemma dict_get_In {V : Type} (k : string) (v : V) (d : list (string * V)) :
  dict_get k d = Some v -> In (k, v) d.
Proof.
  induction d as [| [k' v'] t IH]; simpl; [discriminate |].
  destruct (String.eqb_spec k k') as [<- | _].
  - intros H. injection H as <-. left. reflexivity.
  - intros H. right. apply IH. exact H.
Qed.

Lemma In_dict_get {V : Type} (k : string) (v : V) (d : list (string * V)) :
  NoDup (map fst d) -> In (k, v) d -> dict_get k d = Some v.
Proof.
  induction d as [| [k' v'] t IH]; simpl; intros Hnd Hin; [contradiction |].
  inversion Hnd as [| ? ? Hnotin Hnd']; subst.
  destruct Hin as [Heq | Hin].
  - injection Heq as -> ->. rewrite String.eqb_refl. reflexivity.
  - destruct (String.eqb_spec k k') as [-> | _].
    + exfalso. apply Hnotin. apply (in_map fst) in Hin. exact Hin.
    + apply IH; assumption.
Qed.

Lemma dict_set_keys {V : Type} (k : string) (v : V) (d : list (string * V)) :
  forall k', In k' (map fst (dict_set k v d)) <-> k' = k \/ In k' (map fst d).
Proof.
  induction d as [| [k0 v0] t IH]; intros k'; simpl.
  - split; [intros [H | []]; left; symmetry; exact H | intros [H | []]; left; symmetry; exact H].
  - destruct (String.eqb_spec k k0) as [-> | Hne]; simpl.
    + intuition congruence.
    + rewrite IH. intuition congruence.
Qed.

Lemma dict_set_NoDup {V : Type} (k : string) (v : V) (d : list (string * V)) :
  NoDup (map fst d) -> NoDup (map fst (dict_set k v d)).
Proof.
  induction d as [| [k0 v0] t IH]; simpl; intros Hnd.
  - constructor; [intros [] | constructor].
  - inversion Hnd as [| ? ? Hnotin Hnd']; subst.
    destruct (String.eqb_spec k k0) as [-> | Hne]; simpl.
    + constructor; assumption.
    + constructor; [| apply IH; exact Hnd'].
      rewrite dict_set_keys. intros [H | H]; [congruence | contradiction].
Qed.

Lemma dict_get_map_values {V W : Type} (f : V -> W) (k : string) (d : list (string * V)) :
  dict_get k (map (fun x => (fst x, f (snd x))) d) = option_map f (dict_get k d).
Proof.
  induction d as [| [k' v'] t IH]; simpl; [reflexivity |].
  destruct (String.eqb k k'); [reflexivity | exact IH].
Qed.

Lemma run_scenario_inv (portfolio : Portfolio) (price_data : PriceData) (t : Q)
  (acc acc' : list (string * ScenarioEntry)) (sc : Scenario) :
  run_scenario portfolio price_data t acc sc = Ret acc' ->
  exists r e,
    _apply_stress_scenario portfolio (shocks sc) price_data = Ret r
    /\ ~ t == 0
    /\ acc' = dict_set (name sc) e acc
    /\ portfolio_value_before e = t
    /\ portfolio_value_after e = new_value r
    /\ percentage_loss e = (t - new_value r) / t * 100.
Proof.
  unfold run_scenario. intros H. inv_bind H. inv_bind H. injection H as <-.
  unfold py_div in Ha0. destruct (Qeq_bool t 0) eqn:E; [discriminate |].
  injection Ha0 as <-. apply Qeq_bool_neq in E.
  eexists. eexists. split; [exact Ha |]. split; [exact E |].
  split; [reflexivity |]. repeat split; reflexivity.
Qed.

Lemma foldM_run_scenario_NoDup (portfolio : Portfolio) (price_data : PriceData) (t : Q)
  (scs : list Scenario) :
  forall acc entries,
    foldM (run_scenario portfolio price_data t) scs acc = Ret entries ->
    NoDup (map fst acc) -> NoDup (map fst entries).
Proof.
  induction scs as [| sc rest IH]; intros acc entries H Hnd; simpl in H.
  - injection H as <-. exact Hnd.
  - inv_bind H. apply (IH _ _ H).
    destruct (run_scenario_inv _ _ _ _ _ _ Ha) as (r & e & _ & _ & -> & _).
    apply dict_set_NoDup. exact Hnd.
Qed.

Lemma scenario_field_of_entries (ts worst res : pyval)
  (entries : list (string * ScenarioEntry)) (name field : string) :
  scenario_field
    (PDict [ ("timestamp", ts);
             ("scenarios", PDict (map (fun x => (fst x, entry_value (snd x))) entries));
             ("worst_case_scenario", worst);
             ("portfolio_resilience_score", res) ])
    name field
  = match dict_get name entries with
    | Some e => match entry_value e with
                | PDict fields => dict_get field fields
                | _ => None
                end
    | None => None
    end.
Proof.
  unfold scenario_field.
  change (dict_get "scenarios" _)
    with (Some (PDict (map (fun x => (fst x, entry_value (snd x))) entries))).
  cbv beta iota. rewrite (dict_get_map_values entry_value).
  destruct (dict_get name entries); reflexivity.
Qed.

(** X8: in a result of [perform_stress_test] without the key [error], the
    worst-case scenario is one of the scenarios reported and none of them
    has a lower portfolio value after the shock; the resilience score is not
    negative. *)
Theorem stress_test_worst_case_is_least :
  forall (now : string) (portfolio : Portfolio) (price_data : PriceData)
         (scenarios : option (list Scenario)) (d : dict),
    perform_stress_test now portfolio price_data scenarios = Ret (PDict d) ->
    dict_get "error" d = None ->
    exists worst after resilience,
      worst_case_name (PDict d) = Some (PStr worst)
      /\ scenario_field (PDict d) worst "portfolio_value_after" = Some (PNum after)
      /\ (forall name v,
             scenario_field (PDict d) name "portfolio_value_after" = Some (PNum v) ->
             after <= v)
      /\ dict_get "portfolio_resilience_score" d = Some (PNum resilience)
      /\ 0 <= resilience.
Proof.
  intros now portfolio price_data scenarios d H Herr.
  unfold perform_stress_test in H. apply try_except_ret_inv in H.
  destruct H as [H | (e & _ & H)].
  2: { injection H as <-. simpl in Herr. discriminate. }
  inv_bind H. inv_bind H. inv_bind H. injection H as <-.
  rename a into entries. rename a0 into w.
  pose proof (foldM_run_scenario_NoDup _ _ _ _ _ _ Ha (NoDup_nil _)) as Hnd.
  destruct (py_min_by_least _ _ _ Ha0) as [Hin Hleast].
  exists (fst w), (portfolio_value_after (snd w)). eexists.
  split; [reflexivity |]. split.
  { rewrite scenario_field_of_entries.
    rewrite (In_dict_get (fst w) (snd w) entries Hnd)
      by (destruct w; exact Hin).
    reflexivity. }
  split.
  { intros name v Hv. rewrite scenario_field_of_entries in Hv.
    destruct (dict_get name entries) as [e |] eqn:E; [| discriminate].
    simpl in Hv. injection Hv as <-. apply dict_get_In in E.
    apply (Hleast (name, e) E). }
  split; [reflexivity |].
  apply py_max_spec.
Qed.

Lemma stress_test_worst_case_is_least_witness :
  dict_get "error" (two_coin_stress "2024-01-01T00:00:00") = None
  /\ forall now : string,
       exists worst after resilience,
         worst_case_name (PDict (two_coin_stress now)) = Some (PStr worst)
         /\ scenario_field (PDict (two_coin_stress now)) worst "portfolio_value_after"
            = Some (PNum after)
         /\ (forall name v,
                scenario_field (PDict (two_coin_stress now)) name "portfolio_value_after"
                = Some (PNum v) ->
                after <= v)
         /\ dict_get "portfolio_resilience_score" (two_coin_stress now)
            = Some (PNum resilience)
         /\ 0 <= resilience.
Proof.
  split; [reflexivity |]. intros now.
  apply (stress_test_worst_case_is_least now two_coin_valued two_coin_prices None
           (two_coin_stress now)); reflexivity.
Defined.

(** ** Stress test of the holdings, and inside the assessment *)

Lemma Qlen_cons {A : Type} (x : A) (t : list A) : Qlen (x :: t) == Qlen t + 1.
Proof.
  unfold Qlen. simpl List.length. rewrite Nat2Z.inj_succ. unfold Z.succ.
  rewrite inject_Z_plus. reflexivity.
Qed.

Lemma Qlen_nonneg {A : Type} (xs : list A) : 0 <= Qlen xs.
Proof.
  unfold Qlen. change 0 with (inject_Z 0). rewrite <- Zle_Qle. lia.
Qed.


Lemma py_min_by_defined {A : Type} (key : A -> Q) (xs : list A) :
  xs <> [] -> exists w, py_min_by key xs = Ret w.
Proof. destruct xs; [congruence | eexists; reflexivity]. Qed.

Lemma np_mean_defined (xs : list Q) :
  xs <> [] -> exists m, np_mean xs = Ret m /\ m = Qsum xs / Qlen xs.
Proof. destruct xs; [congruence | eexists; split; reflexivity]. Qed.

Lemma run_scenario_complete (portfolio : Portfolio) (price_data : PriceData) (t : Q)
  (acc : list (string * ScenarioEntry)) (sc : Scenario) :
  first_missing_key (get_default (holdings portfolio) []) = None ->
  ~ t == 0 ->
  exists e,
    run_scenario portfolio price_data t acc sc = Ret (dict_set (name sc) e acc)
    /\ portfolio_value_after e
       == stressed_value (shocks sc) price_data (get_default (holdings portfolio) [])
    /\ percentage_loss e
       == (t - stressed_value (shocks sc) price_data (get_default (holdings portfolio) []))
          / t * 100.
Proof.
  intros Hkey Ht. unfold run_scenario, _apply_stress_scenario.
  pose proof (foldM_apply_outcome (shocks sc) price_data
                (get_default (holdings portfolio) [])
                {| new_value := 0; asset_impacts := [] |}) as Hf.
  rewrite Hkey in Hf. destruct Hf as (r & -> & Hnew). cbn [bind].
  unfold py_div. destruct (Qeq_bool t 0) eqn:E.
  { apply Qeq_bool_iff in E. contradiction. }
  cbn [bind]. eexists. split; [reflexivity |].
  simpl in Hnew. cbn [portfolio_value_after percentage_loss].
  split; rewrite Hnew; [lra | field; exact Ht].
Qed.

Lemma foldM_run_scenario_keeps (portfolio : Portfolio) (price_data : PriceData) (t : Q)
  (scs : list Scenario) :
  forall acc entries,
    foldM (run_scenario portfolio price_data t) scs acc = Ret entries ->
    forall k, ~ In k (map name scs) -> dict_get k entries = dict_get k acc.
Proof.
  induction scs as [| sc rest IH]; intros acc entries H k Hk; simpl in H.
  - injection H as <-. reflexivity.
  - inv_bind H. simpl in Hk.
    destruct (run_scenario_inv _ _ _ _ _ _ Ha) as (r & e & _ & _ & -> & _).
    rewrite (IH _ _ H k) by tauto.
    apply dict_get_set_other. intros ->. apply Hk. left. reflexivity.
Qed.

Lemma foldM_run_scenario_lookup (portfolio : Portfolio) (price_data : PriceData) (t : Q)
  (scs : list Scenario) :
  first_missing_key (get_default (holdings portfolio) []) = None ->
  ~ t == 0 ->
  NoDup (map name scs) ->
  forall acc,
    exists entries,
      foldM (run_scenario portfolio price_data t) scs acc = Ret entries
      /\ forall sc, In sc scs ->
           exists e,
             dict_get (name sc) entries = Some e
             /\ portfolio_value_after e
                == stressed_value (shocks sc) price_data
                     (get_default (holdings portfolio) [])
             /\ percentage_loss e
                == (t - stressed_value (shocks sc) price_data
                          (get_default (holdings portfolio) []))
                   / t * 100.
Proof.
  intros Hkey Ht. induction scs as [| sc0 rest IH]; intros Hnd acc.
  - exists acc. split; [reflexivity | intros sc []].
  - inversion Hnd as [| ? ? Hnotin Hnd']; subst.
    destruct (run_scenario_complete portfolio price_data t acc sc0 Hkey Ht)
      as (e0 & Hrun & Hafter & Hloss).
    destruct (IH Hnd' (dict_set (name sc0) e0 acc)) as (entries & Hfold & Hlook).
    exists entries. split.
    + cbn [foldM]. rewrite Hrun. cbn [bind]. exact Hfold.
    + intros sc [<- | Hin].
      * exists e0. split; [| split; assumption].
        rewrite (foldM_run_scenario_keeps _ _ _ _ _ _ Hfold _ Hnotin).
        apply dict_get_set_same.
      * apply Hlook. exact Hin.
Qed.

(** X9: when the caller's [total_value] is the value of the holdings and
    is not 0, a scenario with the wildcard [all] shocked by [s] is reported
    with the value [(1 + s)] times the total after the shock and with the
    percentage loss [-100 s]: 50 for the default [market_crash]. *)
Theorem stress_test_loss_under_all :
  forall (now : string) (portfolio : Portfolio) (price_data : PriceData)
         (scs : list Scenario) (sc : Scenario) (t s : Q),
    first_missing_key (get_default (holdings portfolio) []) = None ->
    total_value portfolio = Some t ->
    t == holdings_value price_data (get_default (holdings portfolio) []) ->
    ~ t == 0 ->
    NoDup (map name scs) ->
    In sc scs ->
    dict_get "all" (shocks sc) = Some s ->
    exists d after loss,
      perform_stress_test now portfolio price_data (Some scs) = Ret (PDict d)
      /\ scenario_field (PDict d) (name sc) "portfolio_value_after" = Some (PNum after)
      /\ after == t * (1 + s)
      /\ scenario_field (PDict d) (name sc) "percentage_loss" = Some (PNum loss)
      /\ loss == - (s * 100).
Proof.
  intros now portfolio price_data scs sc t s Hkey Htotal Hval Ht Hnd Hin Hall.
  destruct (foldM_run_scenario_lookup portfolio price_data t scs Hkey Ht Hnd [])
    as (entries & Hfold & Hlook).
  destruct (Hlook sc Hin) as (e & He & Hafter & Hloss).
  assert (Hne : entries <> []) by (intros ->; discriminate).
  destruct (py_min_by_defined (fun x => portfolio_value_after (snd x)) entries Hne)
    as (w & Hw).
  destruct (np_mean_defined (map (fun x => percentage_loss (snd x)) entries))
    as (avg & Havg & _).
  { destruct entries; [congruence | discriminate]. }
  unfold perform_stress_test. rewrite Htotal. cbn [get_default].
  rewrite Hfold. cbn [bind]. rewrite Hw. cbn [bind]. rewrite Havg.
  cbn [bind try_except].
  eexists. exists (portfolio_value_after e), (percentage_loss e).
  split; [reflexivity |].
  rewrite !scenario_field_of_entries, He.
  pose proof (stressed_value_uniform (shocks sc) price_data
                (get_default (holdings portfolio) []) s (shock_for_all _ _ Hall)) as Hu.
  split; [reflexivity |]. split; [rewrite Hafter, Hu, Hval; reflexivity |].
  split; [reflexivity |].
  rewrite Hloss, Hu, <- Hval. field. exact Ht.
Qed.

Lemma stress_test_loss_under_all_witness :
  In market_crash _get_default_stress_scenarios
  /\ forall now : string,
       exists d after loss,
         perform_stress_test now two_coin_valued two_coin_prices
           (Some _get_default_stress_scenarios) = Ret (PDict d)
         /\ scenario_field (PDict d) "market_crash" "portfolio_value_after"
            = Some (PNum after)
         /\ after == 50000 * (1 + -(1#2))
         /\ scenario_field (PDict d) "market_crash" "percentage_loss" = Some (PNum loss)
         /\ loss == - (-(1#2) * 100).
Proof.
  assert (Hin : In market_crash _get_default_stress_scenarios) by (left; reflexivity).
  split; [exact Hin |]. intros now.
  apply (stress_test_loss_under_all now two_coin_valued two_coin_prices
           _get_default_stress_scenarios market_crash 50000 (-(1#2))).
  - reflexivity.
  - reflexivity.
  - vm_compute. reflexivity.
  - vm_compute. discriminate.
  - repeat constructor; simpl; intuition discriminate.
  - exact Hin.
  - reflexivity.
Defined.


Lemma dict_set_nonempty {V : Type} (k : string) (v : V) (d : list (string * V)) :
  dict_set k v d <> [].
Proof.
  destruct d as [| [k' v'] t]; simpl; [discriminate |].
  destruct (String.eqb k k'); discriminate.
Qed.






(** ** Bounds of the maximum drawdown *)

Lemma positive_prices_returns (ps : list Q) :
  Forall (fun p => 0 < p) ps ->
  exists rs, all_finite (simple_returns ps) = Ret rs
             /\ Forall (fun r => -(1) < r) rs
             /\ List.length rs = (List.length ps - 1)%nat.
Proof.
  induction ps as [| p [| p' t] IH]; intros Hall.
  - exists []. repeat split; constructor.
  - exists []. repeat split; constructor.
  - rewrite simple_returns_cons2.
    inversion Hall as [| ? ? Hp Hrest]; subst.
    inversion Hrest as [| ? ? Hp' _]; subst.
    destruct (IH Hrest) as (rs & Hrs & Hgt & Hlen).
    assert (Hnz : ~ p == 0) by lra.
    rewrite (np_divide_nonzero _ _ Hnz). simpl all_finite. rewrite Hrs. simpl.
    exists ((p' - p) / p :: rs). split; [reflexivity |]. split.
    + constructor; [| exact Hgt].
      apply Qlt_shift_div_l; [exact Hp | lra].
    + simpl. simpl in Hlen. lia.
Qed.

Lemma np_maximum_bounds (m x : Q) : m <= np_maximum m x /\ x <= np_maximum m x.
Proof. unfold np_maximum. destruct (Qlt_le_dec m x); split; lra. Qed.

Lemma drawdown_bounded (fs : list Q) :
  forall acc m, 0 < acc -> acc <= m -> Forall (fun f => 0 < f) fs ->
    exists ds,
      all_finite (drawdown_of (cumprod_from acc fs)
                              (maximum_accumulate_from m (cumprod_from acc fs)))
      = Ret ds
      /\ Forall (fun d => -(1) < d /\ d <= 0) ds
      /\ List.length ds = List.length fs.
Proof.
  induction fs as [| f t IH]; intros acc m Hacc Hm Hall.
  - exists []. repeat split; constructor.
  - inversion Hall as [| ? ? Hf Ht]; subst.
    assert (Hpos : 0 < acc * f) by nra.
    destruct (np_maximum_bounds m (acc * f)) as [Hm1 Hm2].
    destruct (IH (acc * f) (np_maximum m (acc * f)) Hpos Hm2 Ht)
      as (ds & Hds & Hbound & Hlen).
    simpl cumprod_from. simpl maximum_accumulate_from. unfold drawdown_of in *.
    simpl zip_with.
    assert (Hmpos : 0 < np_maximum m (acc * f)) by lra.
    assert (Hnz : ~ np_maximum m (acc * f) == 0) by lra.
    rewrite (np_divide_nonzero _ _ Hnz). simpl all_finite. rewrite Hds. simpl.
    eexists. split; [reflexivity |]. split.
    + constructor; [| exact Hbound].
      split.
      * apply Qlt_shift_div_l; [exact Hmpos | lra].
      * apply Qle_shift_div_r; [exact Hmpos | lra].
    + simpl. rewrite Hlen. reflexivity.
Qed.

Lemma fold_min_bounded (lo : Q) (ds : list Q) (m : Q) :
  lo < m /\ m <= 0 -> Forall (fun d => lo < d /\ d <= 0) ds ->
  lo < fold_left (fun m y => if Qlt_le_dec y m then y else m) ds m
  /\ fold_left (fun m y => if Qlt_le_dec y m then y else m) ds m <= 0.
Proof.
  revert m. induction ds as [| d t IH]; intros m Hm Hall; simpl; [exact Hm |].
  inversion Hall as [| ? ? Hd Ht]; subst.
  apply IH; [| exact Ht]. destruct (Qlt_le_dec d m); assumption.
Qed.

Lemma max_drawdown_of_positive_factors (fs : list Q) :
  fs <> [] -> Forall (fun f => 0 < f) fs ->
  exists ds m,
    all_finite (drawdown_of (np_cumprod fs) (np_maximum_accumulate (np_cumprod fs)))
    = Ret ds
    /\ np_min ds = Ret m /\ -(1) < m /\ m <= 0.
Proof.
  destruct fs as [| f t]; intros Hne Hall; [congruence |].
  inversion Hall as [| ? ? Hf Ht]; subst.
  destruct (drawdown_bounded t f f) as (ds & Hds & Hbound & _);
    [lra | lra | exact Ht |].
  simpl np_cumprod. simpl np_maximum_accumulate. unfold drawdown_of in *.
  simpl zip_with.
  assert (Hnz : ~ f == 0) by lra.
  rewrite (np_divide_nonzero _ _ Hnz). simpl all_finite. rewrite Hds. simpl bind.
  eexists. eexists. split; [reflexivity |]. split; [reflexivity |].
  apply fold_min_bounded; [| exact Hbound].
  assert (E : (f - f) / f == 0) by (field; exact Hnz).
  rewrite E. split; lra.
Qed.

Lemma Qabs_of_drawdown (m : Q) : -(1) < m -> m <= 0 -> 0 <= Qabs m /\ Qabs m < 1.
Proof.
  intros Hlo Hhi. rewrite (Qabs_neg m Hhi). split; lra.
Qed.

Lemma portfolio_max_drawdown_bounds (returns : list Q) :
  Forall (fun r => -(1) < r) returns ->
  exists q, _calculate_portfolio_max_drawdown returns = Ret q /\ 0 <= q /\ q < 1.
Proof.
  intros Hall. unfold _calculate_portfolio_max_drawdown.
  destruct returns as [| r t].
  - exists 0. split; [reflexivity |]. split; lra.
  - cbn [List.length Nat.eqb].
    destruct (max_drawdown_of_positive_factors (map (fun r => 1 + r) (r :: t)))
      as (ds & m & Hds & Hmin & Hlo & Hhi).
    + discriminate.
    + apply Forall_map. eapply Forall_impl; [| exact Hall]. intros x Hx. simpl in *. lra.
    + unfold drawdown_of in Hds. rewrite Hds. simpl bind. rewrite Hmin. simpl bind.
      exists (Qabs m). split; [reflexivity |]. apply Qabs_of_drawdown; assumption.
Qed.

(** X11: for a return series in which no return is a total loss (every
    return is above -1), [_calculate_portfolio_max_drawdown] returns a
    fraction: at least 0 and below 1. *)
Theorem portfolio_max_drawdown_is_a_fraction :
  forall returns : list Q,
    Forall (fun r => -(1) < r) returns ->
    exists q, _calculate_portfolio_max_drawdown returns = Ret q /\ 0 <= q /\ q < 1.
Proof. exact portfolio_max_drawdown_bounds. Qed.

Lemma portfolio_max_drawdown_is_a_fraction_witness :
  exists q, _calculate_portfolio_max_drawdown [1 # 10; -(1 # 2); 1 # 4] = Ret q
            /\ 0 <= q /\ q < 1.
Proof.
  apply (portfolio_max_drawdown_is_a_fraction [1 # 10; -(1 # 2); 1 # 4]).
  repeat constructor.
Defined.

(** X12: for a history of positive prices, whatever their order,
    [_calculate_max_drawdown] returns a fraction: at least 0 and below 1. *)
Theorem max_drawdown_is_a_fraction :
  forall (pd : SymbolData) (ps : list Q),
    prices pd = Some (records_of ps) ->
    Forall (fun p => 0 < p) ps ->
    exists q, _calculate_max_drawdown pd = Ret q /\ 0 <= q /\ q < 1.
Proof.
  intros pd ps Hp Hpos.
  unfold _calculate_max_drawdown. rewrite Hp. simpl get_default.
  unfold records_of at 1. rewrite length_map.
  destruct (Nat.ltb_spec (List.length ps) 2) as [Hlt | Hge].
  - exists 0. split; [reflexivity |]. split; lra.
  - rewrite mapM_price_of_records. simpl bind.
    destruct (positive_prices_returns ps Hpos) as (rs & Hrs & Hall & Hrlen).
    fold (simple_returns ps). rewrite Hrs. simpl bind.
    destruct (max_drawdown_of_positive_factors (map (fun r => 1 + r) rs))
      as (ds & m & Hds & Hmin & Hlo & Hhi).
    + destruct rs; [simpl in Hrlen; lia | discriminate].
    + apply Forall_map. eapply Forall_impl; [| exact Hall]. intros r Hr. simpl in *. lra.
    + unfold drawdown_of in Hds. rewrite Hds. simpl bind. rewrite Hmin. simpl bind.
      exists (Qabs m). split; [reflexivity |]. apply Qabs_of_drawdown; assumption.
Qed.

Lemma max_drawdown_is_a_fraction_witness :
  exists q, _calculate_max_drawdown (series [100; 50; 75]) = Ret q /\ 0 <= q /\ q < 1.
Proof.
  apply (max_drawdown_is_a_fraction (series [100; 50; 75]) [100; 50; 75]).
  - reflexivity.
  - repeat constructor.
Defined.

(** ** Price histories with missing prices, short histories *)

Lemma mapM_price_of_cases (ps : list PriceRecord) :
  if lacks_a_price ps
  then mapM price_of ps = Raise (KeyError "price")
  else exists qs, mapM price_of ps = Ret qs /\ ps = records_of qs.
Proof.
  induction ps as [| [[q |]] t IH].
  - exists []. split; reflexivity.
  - unfold lacks_a_price in *. cbn [existsb mapM price price_of subscript bind orb].
    revert IH. destruct (existsb _ t); intros IH.
    + rewrite IH. reflexivity.
    + destruct IH as (qs & Hqs & Ht). rewrite Hqs. cbn [bind].
      exists (q :: qs). split; [reflexivity |]. simpl. rewrite <- Ht. reflexivity.
  - reflexivity.
Qed.

Lemma calculate_returns_cases (pd : SymbolData) :
  if ((2 <=? List.length (history pd))%nat && lacks_a_price (history pd))%bool
  then _calculate_returns pd = Raise (KeyError "price")
  else exists rs, _calculate_returns pd = Ret rs
                  /\ List.length rs = (List.length (history pd) - 1)%nat.
Proof.
  unfold _calculate_returns. fold (history pd).
  destruct (Nat.ltb_spec (List.length (history pd)) 2) as [Hlt | Hge].
  - destruct (Nat.leb_spec 2 (List.length (history pd))) as [Hle | _]; [lia |].
    simpl. exists []. split; [reflexivity |]. simpl. lia.
  - destruct (Nat.leb_spec 2 (List.length (history pd))) as [_ | Hlt]; [| lia].
    simpl. pose proof (mapM_price_of_cases (history pd)) as Hc.
    destruct (lacks_a_price (history pd)).
    + rewrite Hc. reflexivity.
    + destruct Hc as (qs & Hqs & Hrec). rewrite Hqs. simpl.
      eexists. split; [reflexivity |].
      fold (simple_returns qs). rewrite simple_returns_length.
      rewrite Hrec. unfold records_of. rewrite length_map. reflexivity.
Qed.

(** X13: [_calculate_returns] raises [KeyError('price')] exactly when the
    history has at least two records and one of them, wherever it is, lacks
    [price]; in every other case it returns one return less than there are
    records (none for fewer than two records, whose prices are not read). *)
Theorem calculate_returns_fails_on_a_missing_price :
  forall pd : SymbolData,
    if ((2 <=? List.length (history pd))%nat && lacks_a_price (history pd))%bool
    then _calculate_returns pd = Raise (KeyError "price")
    else exists rs, _calculate_returns pd = Ret rs
                    /\ List.length rs = (List.length (history pd) - 1)%nat.
Proof. exact calculate_returns_cases. Qed.

Lemma calculate_returns_of_records (pd : SymbolData) (ps : list Q) :
  history pd = records_of ps -> _calculate_returns pd = Ret (simple_returns ps).
Proof.
  intros Hh. unfold _calculate_returns. fold (history pd). rewrite Hh.
  unfold records_of at 1. rewrite length_map.
  destruct (Nat.ltb_spec (List.length ps) 2) as [Hlt | Hge].
  - destruct ps as [| p [| p' t]]; [reflexivity | reflexivity | simpl in Hlt; lia].
  - rewrite mapM_price_of_records. reflexivity.
Qed.

Lemma max_drawdown_of_records (pd : SymbolData) (ps : list Q) :
  history pd = records_of ps ->
  Forall (fun p => 0 < p) ps ->
  exists q, _calculate_max_drawdown pd = Ret q /\ 0 <= q /\ q < 1.
Proof.
  intros Hp Hpos.
  unfold _calculate_max_drawdown. fold (history pd). rewrite Hp.
  unfold records_of at 1. rewrite length_map.
  destruct (Nat.ltb_spec (List.length ps) 2) as [Hlt | Hge].
  - exists 0. split; [reflexivity |]. split; lra.
  - rewrite mapM_price_of_records. simpl bind.
    destruct (positive_prices_returns ps Hpos) as (rs & Hrs & Hall & Hrlen).
    fold (simple_returns ps). rewrite Hrs. simpl bind.
    destruct (max_drawdown_of_positive_factors (map (fun r => 1 + r) rs))
      as (ds & m & Hds & Hmin & Hlo & Hhi).
    + destruct rs; [simpl in Hrlen; lia | discriminate].
    + apply Forall_map. eapply Forall_impl; [| exact Hall]. intros r Hr. simpl in *. lra.
    + unfold drawdown_of in Hds. rewrite Hds. simpl bind. rewrite Hmin. simpl bind.
      exists (Qabs m). split; [reflexivity |]. apply Qabs_of_drawdown; assumption.
Qed.

Lemma sharpe_ratio_of_records (np_sqrt : Q -> Q) (pd : SymbolData) (ps : list Q) :
  history pd = records_of ps ->
  Forall (fun p => 0 < p) ps ->
  exists q, _calculate_sharpe_ratio np_sqrt pd = Ret q.
Proof.
  intros Hp Hpos. unfold _calculate_sharpe_ratio.
  rewrite (calculate_returns_of_records pd ps Hp). cbn [bind].
  destruct (positive_prices_returns ps Hpos) as (rs & Hrs & _ & Hlen).
  destruct (Nat.eqb_spec (List.length (simple_returns ps)) 0) as [E | E].
  - eexists. reflexivity.
  - rewrite Hrs. cbn [bind].
    destruct (np_std_defined np_sqrt rs) as (sd & Hsd).
    + rewrite simple_returns_length in E. destruct rs; [simpl in Hlen; lia | discriminate].
    + rewrite Hsd. cbn [bind]. eexists. reflexivity.
Qed.

(** X14: an asset whose history has fewer than 31 records, all with a
    positive price (or no history at all), is reported by
    [_assess_asset_risk] with volatility 0, beta 1 and risk contribution 0,
    whatever its prices did; its maximum drawdown is a fraction. *)
Theorem short_history_asset_looks_riskless :
  forall (np_sqrt : Q -> Q) (asset : Asset) (pd : SymbolData) (ps : list Q),
    history pd = records_of ps ->
    (List.length ps < 31)%nat ->
    Forall (fun p => 0 < p) ps ->
    exists r contribution drawdown,
      _assess_asset_risk np_sqrt asset pd = Ret r
      /\ field_of r "volatility" = Some (PNum 0)
      /\ field_of r "beta" = Some (PNum 1)
      /\ field_of r "risk_contribution" = Some (PNum contribution)
      /\ contribution == 0
      /\ field_of r "max_drawdown" = Some (PNum drawdown)
      /\ 0 <= drawdown /\ drawdown < 1.
Proof.
  intros np_sqrt asset pd ps Hp Hlen Hpos.
  assert (Hvol : _calculate_volatility np_sqrt pd 30 = Ret 0).
  { unfold _calculate_volatility. rewrite (calculate_returns_of_records pd ps Hp).
    cbn [bind]. rewrite simple_returns_length.
    destruct (Nat.ltb_spec (List.length ps - 1) 30) as [_ | Hge]; [reflexivity | lia]. }
  assert (Hbeta : _calculate_beta np_sqrt pd = Ret 1).
  { unfold _calculate_beta. rewrite (calculate_returns_of_records pd ps Hp).
    cbn [bind]. rewrite simple_returns_length.
    destruct (Nat.ltb_spec (List.length ps - 1) 30) as [_ | Hge]; [reflexivity | lia]. }
  destruct (max_drawdown_of_records pd ps Hp Hpos) as (dd & Hdd & Hlo & Hhi).
  destruct (sharpe_ratio_of_records np_sqrt pd ps Hp Hpos) as (sr & Hsr).
  unfold _assess_asset_risk. rewrite Hvol, Hdd, Hbeta, Hsr. cbn [bind].
  eexists. exists (a_weight asset * 0), dd.
  split; [reflexivity |]. split; [reflexivity |]. split; [reflexivity |].
  split; [reflexivity |]. split; [lra |]. split; [reflexivity |]. split; assumption.
Qed.

Lemma short_history_asset_looks_riskless_witness :
  history (series wavering_prices) = records_of wavering_prices
  /\ forall np_sqrt : Q -> Q,
       exists r contribution drawdown,
         _assess_asset_risk np_sqrt btc_asset (series wavering_prices) = Ret r
         /\ field_of r "volatility" = Some (PNum 0)
         /\ field_of r "beta" = Some (PNum 1)
         /\ field_of r "risk_contribution" = Some (PNum contribution)
         /\ contribution == 0
         /\ field_of r "max_drawdown" = Some (PNum drawdown)
         /\ 0 <= drawdown /\ drawdown < 1.
Proof.
  split; [reflexivity |]. intros np_sqrt.
  apply (short_history_asset_looks_riskless np_sqrt btc_asset (series wavering_prices)
           wavering_prices).
  - reflexivity.
  - vm_compute. lia.
  - unfold wavering_prices. apply Forall_map. apply Forall_forall. intros i _.
    destruct (Nat.even i); reflexivity.
Defined.

(** ** The portfolio return series *)

Lemma calculate_returns_priced (price_data : PriceData) (symbol : string) :
  priced price_data symbol ->
  exists rs, _calculate_returns (price_data_get price_data symbol) = Ret rs
             /\ List.length rs = return_count price_data symbol.
Proof.
  intros Hp. pose proof (calculate_returns_cases (price_data_get price_data symbol)) as Hc.
  unfold priced in Hp. rewrite Hp, andb_false_r in Hc. exact Hc.
Qed.

Lemma gather_returns_step (price_data : PriceData)
  (acc : list (string * list npfloat) * option nat) (symbol : string) :
  priced price_data symbol -> gathered_ok acc ->
  exists acc',
    gather_returns price_data acc symbol = Ret acc'
    /\ gathered_ok acc'
    /\ match snd acc' with
       | Some m' =>
           ((0 < return_count price_data symbol)%nat ->
            (m' <= return_count price_data symbol)%nat)
           /\ (forall m, snd acc = Some m -> (m' <= m)%nat)
           /\ (snd acc = Some m'
               \/ ((0 < return_count price_data symbol)%nat
                   /\ m' = return_count price_data symbol))
       | None => snd acc = None /\ return_count price_data symbol = 0%nat
       end.
Proof.
  intros Hp Hok. destruct (calculate_returns_priced price_data symbol Hp) as (rs & Hrs & Hlen).
  unfold gather_returns. rewrite Hrs. cbn [bind]. rewrite Hlen.
  destruct acc as [d m]. unfold gathered_ok in *. cbn [fst snd] in *.
  destruct (Nat.ltb_spec 0 (return_count price_data symbol)) as [Hpos | Hzero].
  - eexists. split; [reflexivity |]. cbn [fst snd].
    destruct m as [m |].
    + destruct Hok as [Hne Hall]. split; [split |].
      * apply dict_set_nonempty.
      * apply dict_set_Forall.
        -- cbn [snd]. lia.
        -- eapply Forall_impl; [| exact Hall]. intros kv Hkv. cbn beta in *. lia.
      * split; [intros _; lia |]. split.
        -- intros m0 H. injection H as <-. lia.
        -- destruct (Nat.min_spec m (return_count price_data symbol)) as [[_ ->] | [_ ->]].
           ++ left. reflexivity.
           ++ right. split; [exact Hpos | reflexivity].
    + split; [split |].
      * apply dict_set_nonempty.
      * apply dict_set_Forall; [cbn [snd]; lia |]. rewrite Hok. constructor.
      * split; [intros _; lia |]. split; [discriminate |].
        right. split; [exact Hpos | reflexivity].
  - exists (d, m). split; [reflexivity |]. split; [exact Hok |]. cbn [snd].
    destruct m as [m |].
    + split; [lia |]. split; [intros m0 H; injection H as <-; lia |].
      left. reflexivity.
    + split; [reflexivity | lia].
Qed.

Lemma gather_returns_fold (price_data : PriceData) (symbols : list string) :
  forall acc,
    Forall (priced price_data) symbols -> gathered_ok acc ->
    exists acc',
      foldM (gather_returns price_data) symbols acc = Ret acc'
      /\ gathered_ok acc'
      /\ match snd acc' with
         | Some m' =>
             (forall s, In s symbols -> (0 < return_count price_data s)%nat ->
                        (m' <= return_count price_data s)%nat)
             /\ (forall m, snd acc = Some m -> (m' <= m)%nat)
             /\ (snd acc = Some m'
                 \/ exists s, In s symbols /\ (0 < return_count price_data s)%nat
                              /\ m' = return_count price_data s)
         | None => snd acc = None
                   /\ forall s, In s symbols -> return_count price_data s = 0%nat
         end.
Proof.
  induction symbols as [| s t IH]; intros acc Hall Hok.
  - exists acc. split; [reflexivity |]. split; [exact Hok |].
    destruct (snd acc) as [m |].
    + split; [intros s []|]. split; [intros m0 H; injection H as <-; lia |].
      left. reflexivity.
    + split; [reflexivity | intros s []].
  - inversion Hall as [| ? ? Hs Ht]; subst.
    destruct (gather_returns_step price_data acc s Hs Hok) as (acc1 & H1 & Hok1 & Hstep).
    destruct (IH acc1 Ht Hok1) as (acc' & H' & Hok' & Hrest).
    exists acc'. split; [cbn [foldM]; rewrite H1; exact H' |]. split; [exact Hok' |].
    destruct (snd acc') as [m' |].
    + destruct Hrest as (Hlow & Hmono & Hatt).
      destruct (snd acc1) as [m1 |].
      * destruct Hstep as (Hlow1 & Hmono1 & Hatt1).
        pose proof (Hmono m1 eq_refl) as Hle.
        split; [| split].
        -- intros s0 [<- | Hin] Hpos; [specialize (Hlow1 Hpos); lia | apply Hlow; assumption].
        -- intros m0 Hm0. specialize (Hmono1 m0 Hm0). lia.
        -- destruct Hatt as [Heq | (s0 & Hin & Hpos & Heq)].
           ++ injection Heq as ->.
              destruct Hatt1 as [Heq1 | [Hpos1 Heq1]].
              ** left. exact Heq1.
              ** right. exists s. split; [left; reflexivity |]. split; assumption.
           ++ right. exists s0. split; [right; exact Hin |]. split; assumption.
      * destruct Hstep as [Hnone Hzero].
        split; [| split].
        -- intros s0 [<- | Hin] Hpos; [lia | apply Hlow; assumption].
        -- intros m0 Hm0. congruence.
        -- destruct Hatt as [Heq | (s0 & Hin & Hpos & Heq)]; [discriminate |].
           right. exists s0. split; [right; exact Hin |]. split; assumption.
    + destruct Hrest as [Hnone1 Hzeros].
      rewrite Hnone1 in Hstep. destruct Hstep as [Hnone Hzero].
      split; [exact Hnone |]. intros s0 [<- | Hin]; [exact Hzero | apply Hzeros; exact Hin].
Qed.

Lemma index_from_end_defined {A : Type} (k : nat) (xs : list A) :
  (1 <= k)%nat -> (k <= List.length xs)%nat -> exists x, index_from_end k xs = Ret x.
Proof.
  intros H1 H2. unfold index_from_end.
  destruct (Nat.leb_spec 1 k) as [_ | Hlt]; [| lia].
  destruct (Nat.leb_spec k (List.length xs)) as [_ | Hlt]; [| lia].
  cbn [andb].
  destruct (nth_error xs (List.length xs - k)) as [x |] eqn:E.
  - exists x. reflexivity.
  - apply nth_error_None in E. lia.
Qed.

Lemma portfolio_return_at_defined (assets : list Asset)
  (asset_returns : list (string * list npfloat)) (m i : nat) :
  Forall (fun kv => (m <= List.length (snd kv))%nat) asset_returns ->
  (i < m)%nat ->
  exists r, portfolio_return_at assets asset_returns m i = Ret r.
Proof.
  intros Hall Hi. unfold portfolio_return_at. generalize (Fin 0).
  induction assets as [| a t IH]; intros acc.
  - exists acc. reflexivity.
  - cbn [foldM]. destruct (dict_get (a_symbol a) asset_returns) as [returns |] eqn:E.
    + apply dict_get_In in E. rewrite Forall_forall in Hall.
      specialize (Hall _ E). cbn [snd] in Hall.
      destruct (index_from_end_defined (m - i) returns) as (x & Hx); [lia | lia |].
      rewrite Hx. cbn [bind]. apply IH.
    + cbn [bind]. apply IH.
Qed.

Lemma mapM_defined {A B : Type} (f : A -> outcome B) (xs : list A) :
  (forall x, In x xs -> exists y, f x = Ret y) ->
  exists ys, mapM f xs = Ret ys /\ List.length ys = List.length xs.
Proof.
  induction xs as [| x t IH]; intros Hall.
  - exists []. split; reflexivity.
  - destruct (Hall x (or_introl eq_refl)) as (y & Hy).
    destruct IH as (ys & Hys & Hlen); [intros z Hz; apply Hall; right; exact Hz |].
    exists (y :: ys). split; [cbn [mapM]; rewrite Hy; cbn [bind]; rewrite Hys; reflexivity |].
    simpl. rewrite Hlen. reflexivity.
Qed.

Lemma portfolio_returns_length (portfolio_data : Portfolio) (price_data : PriceData)
  (assets' : list Asset) :
  assets portfolio_data = Some assets' ->
  Forall (priced price_data) (map a_symbol assets') ->
  exists rs,
    _calculate_portfolio_returns portfolio_data price_data = Ret rs
    /\ (forall s, In s (map a_symbol assets') -> (0 < return_count price_data s)%nat ->
                  (List.length rs <= return_count price_data s)%nat)
    /\ ((0 < List.length rs)%nat ->
        exists s, In s (map a_symbol assets') /\ List.length rs = return_count price_data s)
    /\ ((exists s, In s (map a_symbol assets') /\ (0 < return_count price_data s)%nat) ->
        (0 < List.length rs)%nat).
Proof.
  intros Ha Hp. unfold _calculate_portfolio_returns. rewrite Ha. cbn [subscript bind].
  destruct (gather_returns_fold price_data (map a_symbol assets') ([], None) Hp eq_refl)
    as ([d m] & Hfold & Hok & Hm).
  rewrite Hfold. cbn [bind]. unfold gathered_ok in Hok. cbn [fst snd] in *.
  destruct m as [m |].
  - destruct Hok as [Hne Hall]. destruct Hm as (Hlow & _ & Hatt).
    destruct Hatt as [Hatt | (s & Hin & Hpos & Heq)]; [discriminate |].
    destruct d as [| kv d]; [congruence |].
    destruct m as [| m]; [lia |].
    destruct (mapM_defined (portfolio_return_at assets' (kv :: d) (S m)) (seq 0 (S m)))
      as (rs & Hrs & Hlen).
    { intros i Hi. apply in_seq in Hi.
      apply portfolio_return_at_defined; [exact Hall | lia]. }
    rewrite length_seq in Hlen.
    exists rs. split; [exact Hrs |]. rewrite Hlen. split; [exact Hlow |]. split.
    + intros _. exists s. split; [exact Hin | exact Heq].
    + intros _. lia.
  - destruct Hm as [_ Hzeros]. rewrite Hok.
    exists []. split; [reflexivity |]. split; [intros s _ _; simpl; lia |]. split.
    + simpl. lia.
    + intros (s & Hin & Hpos). rewrite (Hzeros s Hin) in Hpos. lia.
Qed.

(** X15: when no price record lacks its price, [_calculate_portfolio_returns]
    returns a series that is as long as the shortest non-empty return series
    of the assets: it is no longer than the series of any asset that has
    returns, it has the length of one of them, and it is empty only when no
    asset has a return. *)
Theorem portfolio_returns_as_long_as_shortest_history :
  forall (portfolio_data : Portfolio) (price_data : PriceData) (assets' : list Asset),
    assets portfolio_data = Some assets' ->
    Forall (priced price_data) (map a_symbol assets') ->
    exists rs,
      _calculate_portfolio_returns portfolio_data price_data = Ret rs
      /\ (forall s, In s (map a_symbol assets') -> (0 < return_count price_data s)%nat ->
                    (List.length rs <= return_count price_data s)%nat)
      /\ ((0 < List.length rs)%nat ->
          exists s, In s (map a_symbol assets')
                    /\ List.length rs = return_count price_data s)
      /\ ((exists s, In s (map a_symbol assets') /\ (0 < return_count price_data s)%nat) ->
          (0 < List.length rs)%nat).
Proof. exact portfolio_returns_length. Qed.

Lemma portfolio_returns_as_long_as_shortest_history_witness :
  exists rs,
    _calculate_portfolio_returns long_and_short_data long_and_short_prices = Ret rs
    /\ (forall s, In s ["BTC"; "ETH"] ->
                  (0 < return_count long_and_short_prices s)%nat ->
                  (List.length rs <= return_count long_and_short_prices s)%nat)
    /\ ((0 < List.length rs)%nat ->
        exists s, In s ["BTC"; "ETH"]
                  /\ List.length rs = return_count long_and_short_prices s)
    /\ ((exists s, In s ["BTC"; "ETH"]
                   /\ (0 < return_count long_and_short_prices s)%nat) ->
        (0 < List.length rs)%nat).
Proof.
  apply (portfolio_returns_as_long_as_shortest_history long_and_short_data
           long_and_short_prices
           (get_default (assets long_and_short_data) [])).
  - reflexivity.
  - repeat constructor.
Defined.

(** X16: one asset with a short history disables the Value at Risk of the
    whole portfolio: when some asset has between 2 and 30 price records, or
    no asset has 2, [calculate_var] returns the error
    [Insufficient data for VaR calculation], however long the histories of
    the other assets are. *)
Theorem var_needs_thirty_returns_of_every_asset :
  forall (now : string) (np_sqrt norm_ppf : Q -> Q)
         (portfolio : Portfolio) (price_data : PriceData) (assets' : list Asset)
         (confidence_levels : list Q),
    assets portfolio = Some assets' ->
    Forall (priced price_data) (map a_symbol assets') ->
    (forall s, In s (map a_symbol assets') -> return_count price_data s = 0%nat)
    \/ (exists s, In s (map a_symbol assets')
                  /\ (0 < return_count price_data s < 30)%nat) ->
    calculate_var now np_sqrt norm_ppf portfolio price_data confidence_levels
    = Ret (PDict [("error", PStr "Insufficient data for VaR calculation")]).
Proof.
  intros now np_sqrt norm_ppf portfolio price_data assets' levels Ha Hp Hshort.
  destruct (portfolio_returns_length portfolio price_data assets' Ha Hp)
    as (rs & Hrs & Hlow & Hatt & _).
  unfold calculate_var. rewrite Hrs. cbn [bind].
  destruct (Nat.ltb_spec (List.length rs) 30) as [_ | Hge]; [reflexivity |].
  exfalso. destruct Hshort as [Hzeros | (s & Hin & Hpos & Hlt)].
  - destruct Hatt as (s & Hin & Heq); [lia |]. rewrite (Hzeros s Hin) in Heq. lia.
  - specialize (Hlow s Hin Hpos). lia.
Qed.

Lemma var_needs_thirty_returns_of_every_asset_witness :
  (0 < return_count long_and_short_prices "ETH" < 30)%nat
  /\ (30 <= return_count long_and_short_prices "BTC")%nat
  /\ forall (now : string) (np_sqrt norm_ppf : Q -> Q),
       calculate_var now np_sqrt norm_ppf long_and_short_data long_and_short_prices
                     default_confidence_levels
       = Ret (PDict [("error", PStr "Insufficient data for VaR calculation")]).
Proof.
  split; [vm_compute; lia |]. split; [vm_compute; lia |].
  intros now np_sqrt norm_ppf.
  apply (var_needs_thirty_returns_of_every_asset now np_sqrt norm_ppf long_and_short_data
           long_and_short_prices (get_default (assets long_and_short_data) [])).
  - reflexivity.
  - repeat constructor.
  - right. exists "ETH". split; [right; left; reflexivity | vm_compute; lia].
Defined.

(** ** Expected shortfall, confidence levels *)

Lemma Qsum_le_const (v : Q) (xs : list Q) :
  Forall (fun x => x <= v) xs -> Qsum xs <= v * Qlen xs.
Proof.
  induction xs as [| x t IH]; intros Hall.
  - change (Qlen (@nil Q)) with 0. simpl. lra.
  - inversion Hall as [| ? ? Hx Ht]; subst. specialize (IH Ht).
    rewrite Qlen_cons. simpl Qsum. lra.
Qed.

Lemma Qlen_pos {A : Type} (xs : list A) : xs <> [] -> 0 < Qlen xs.
Proof.
  destruct xs as [| x t]; [congruence |]. intros _.
  rewrite Qlen_cons. pose proof (Qlen_nonneg t). lra.
Qed.

Lemma mean_le_const (v : Q) (xs : list Q) :
  xs <> [] -> Forall (fun x => x <= v) xs -> mean_of xs <= v.
Proof.
  intros Hne Hall. unfold mean_of.
  apply Qle_shift_div_r; [apply Qlen_pos; exact Hne |].
  apply Qsum_le_const. exact Hall.
Qed.

Lemma tail_mean_below (v : Q) (xs : list Q) :
  (if (0 <? List.length (filter (fun r => Qle_bool r v) xs))%nat
   then mean_of (filter (fun r => Qle_bool r v) xs) else v) <= v.
Proof.
  destruct (Nat.ltb_spec 0 (List.length (filter (fun r => Qle_bool r v) xs))) as [Hpos | _].
  - apply mean_le_const.
    + intros E. rewrite E in Hpos. simpl in Hpos. lia.
    + apply Forall_forall. intros x Hx. apply filter_In in Hx.
      destruct Hx as [_ Hx]. apply Qle_bool_iff. exact Hx.
  - lra.
Qed.

Lemma historical_level_shortfall (portfolio : Portfolio) (xs : list Q) (levels : list Q) :
  forall acc r,
    foldM (historical_level portfolio xs) levels acc = Ret r ->
    shortfall_below_var acc -> shortfall_below_var r.
Proof.
  induction levels as [| c t IH]; intros acc r H Hacc; simpl in H.
  - injection H as <-. exact Hacc.
  - inv_bind H. apply (IH _ _ H).
    unfold historical_level in Ha. inv_bind Ha. injection Ha as <-.
    intros key x y v es. cbn [fst snd].
    destruct (string_dec key (percent_key c)) as [-> | Hne].
    + rewrite !dict_get_set_same. intros Hx Hy.
      injection Hx as <-. injection Hy as <-. cbn.
      intros Hv Hes. injection Hv as <-. injection Hes as <-.
      apply tail_mean_below.
    + rewrite !dict_get_set_other by exact Hne. apply Hacc.
Qed.

(** X17: in every result of [calculate_var], whatever the confidence
    levels, the expected shortfall reported under a key is at most the
    Value at Risk reported under the same key. *)
Theorem expected_shortfall_at_most_var :
  forall (now : string) (np_sqrt norm_ppf : Q -> Q)
         (portfolio : Portfolio) (price_data : PriceData) (confidence_levels : list Q)
         (result : pyval) (key : string) (v es : Q),
    calculate_var now np_sqrt norm_ppf portfolio price_data confidence_levels = Ret result ->
    var_absolute_at result key = Some (PNum v) ->
    es_absolute_at result key = Some (PNum es) ->
    es <= v.
Proof.
  intros now np_sqrt norm_ppf portfolio price_data levels result key v es H Hv Hes.
  unfold calculate_var in H.
  apply try_except_ret_inv in H. destruct H as [H | (e & _ & H)].
  - inv_bind H. destruct (List.length a <? 30)%nat.
    + injection H as <-. discriminate.
    + inv_bind H. inv_bind H.
      pose proof (historical_level_shortfall _ _ _ _ _ Ha1
                    ltac:(intros ? ? ? ? ? ?; discriminate)) as Hinv.
      repeat inv_bind H. injection H as <-.
      unfold var_absolute_at in Hv. unfold es_absolute_at in Hes.
      cbn [dict_get String.eqb Ascii.eqb Bool.eqb] in Hv, Hes.
      destruct (dict_get key (fst a1)) as [[| | | | | x] |] eqn:Ex; try discriminate.
      destruct (dict_get key (snd a1)) as [[| | | | | y] |] eqn:Ey; try discriminate.
      exact (Hinv key x y v es Ex Ey Hv Hes).
  - injection H as <-. discriminate.
Qed.

Lemma expected_shortfall_at_most_var_witness :
  exists v es,
    var_absolute_at one_asset_var "95%" = Some (PNum v)
    /\ es_absolute_at one_asset_var "95%" = Some (PNum es)
    /\ es <= v.
Proof.
  eexists. eexists. split; [reflexivity |]. split; [reflexivity |].
  apply (expected_shortfall_at_most_var "2024-01-01T00:00:00" (fun q => q) (fun q => q)
           one_asset_data one_asset_prices default_confidence_levels one_asset_var "95%");
    reflexivity.
Defined.

Lemma np_percentile_out_of_range (xs : list Q) (q : Q) :
  q < 0 \/ 100 < q ->
  np_percentile xs q = Raise (ValueError "Percentiles must be in the range [0, 100]").
Proof.
  intros Hq. unfold np_percentile.
  destruct (Qle_bool 0 q) eqn:E0; [| reflexivity].
  destruct (Qle_bool q 100) eqn:E1; [| reflexivity].
  apply Qle_bool_iff in E0, E1. lra.
Qed.

Lemma historical_level_out_of_range (portfolio : Portfolio) (xs : list Q)
  (levels : list Q) :
  xs <> [] -> Exists out_of_range levels ->
  forall acc,
    foldM (historical_level portfolio xs) levels acc
    = Raise (ValueError "Percentiles must be in the range [0, 100]").
Proof.
  intros Hne Hex. induction Hex as [c t Hc | c t Hex IH]; intros acc; cbn [foldM].
  - unfold historical_level. rewrite np_percentile_out_of_range; [reflexivity |].
    destruct Hc as [Hc | Hc]; [right | left]; lra.
  - unfold historical_level at 1.
    destruct (Qlt_le_dec ((1 - c) * 100) 0) as [Hlo | Hlo].
    { rewrite np_percentile_out_of_range; [reflexivity | left; exact Hlo]. }
    destruct (Qlt_le_dec 100 ((1 - c) * 100)) as [Hhi | Hhi].
    { rewrite np_percentile_out_of_range; [reflexivity | right; exact Hhi]. }
    destruct (np_percentile_defined xs ((1 - c) * 100) Hne (conj Hlo Hhi)) as (p & Hp).
    rewrite Hp. cbn [bind]. apply IH.
Qed.

(** X18: one confidence level below 0 or above 1 loses the whole Value at
    Risk analysis: with at least 30 finite portfolio returns, [calculate_var]
    returns the error of [np.percentile] alone, without the estimates of the
    levels that are probabilities. *)
Theorem var_rejects_all_levels_for_one_out_of_range :
  forall (now : string) (np_sqrt norm_ppf : Q -> Q)
         (portfolio : Portfolio) (price_data : PriceData)
         (rs : list npfloat) (xs : list Q) (confidence_levels : list Q),
    _calculate_portfolio_returns portfolio price_data = Ret rs ->
    all_finite rs = Ret xs ->
    (30 <= List.length rs)%nat ->
    Exists out_of_range confidence_levels ->
    calculate_var now np_sqrt norm_ppf portfolio price_data confidence_levels
    = Ret (PDict [("error",
                   PExc (ValueError "Percentiles must be in the range [0, 100]"))]).
Proof.
  intros now np_sqrt norm_ppf portfolio price_data rs xs levels Hrs Hxs Hlen Hex.
  pose proof (all_finite_length rs xs Hxs) as Hxlen.
  assert (Hne : xs <> []) by (intros ->; simpl in Hxlen; lia).
  unfold calculate_var. rewrite Hrs. cbn [bind].
  destruct (Nat.ltb_spec (List.length rs) 30) as [Hlt | _]; [lia |].
  rewrite Hxs. cbn [bind].
  rewrite (historical_level_out_of_range portfolio xs levels Hne Hex). reflexivity.
Qed.

Lemma var_rejects_all_levels_for_one_out_of_range_witness :
  _calculate_portfolio_returns one_asset_data one_asset_prices = Ret one_asset_returns
  /\ all_finite one_asset_returns = Ret one_asset_finite_returns
  /\ forall (now : string) (np_sqrt norm_ppf : Q -> Q),
       calculate_var now np_sqrt norm_ppf one_asset_data one_asset_prices
                     [95 # 100; 95 # 1]
       = Ret (PDict [("error",
                      PExc (ValueError "Percentiles must be in the range [0, 100]"))]).
Proof.
  split; [reflexivity |]. split; [reflexivity |].
  intros now np_sqrt norm_ppf.
  apply (var_rejects_all_levels_for_one_out_of_range now np_sqrt norm_ppf one_asset_data
           one_asset_prices one_asset_returns one_asset_finite_returns).
  - reflexivity.
  - reflexivity.
  - vm_compute. lia.
  - right. left. right. reflexivity.
Defined.

Lemma portfolio_max_drawdown_nonneg (returns : list Q) (m : Q) :
  _calculate_portfolio_max_drawdown returns = Ret m -> 0 <= m.
Proof.
  unfold _calculate_portfolio_max_drawdown.
  destruct (List.length returns =? 0)%nat; intros H.
  - injection H as <-. lra.
  - repeat inv_bind H. injection H as <-. apply Qabs_nonneg.
Qed.

(** X19: in every result of [_calculate_portfolio_risk_metrics], [var_99]
    is at most [var_95], and [max_drawdown] is not negative. *)
Theorem risk_metrics_var_order :
  forall (np_sqrt : Q -> Q) (stats_skew stats_kurtosis : list Q -> Q)
         (portfolio_data : Portfolio) (price_data : PriceData) (rm : pyval)
         (v95 v99 drawdown : Q),
    _calculate_portfolio_risk_metrics np_sqrt stats_skew stats_kurtosis
      portfolio_data price_data = Ret rm ->
    field_of rm "var_95" = Some (PNum v95) ->
    field_of rm "var_99" = Some (PNum v99) ->
    field_of rm "max_drawdown" = Some (PNum drawdown) ->
    v99 <= v95 /\ 0 <= drawdown.
Proof.
  intros np_sqrt stats_skew stats_kurtosis portfolio_data price_data rm v95 v99 dd
    H H95 H99 Hdd.
  unfold _calculate_portfolio_risk_metrics in H.
  apply try_except_ret_inv in H. destruct H as [H | (e & _ & H)].
  - inv_bind H. destruct (List.length a =? 0)%nat.
    + injection H as <-. discriminate.
    + repeat inv_bind H. injection H as <-.
      cbn in H95, H99, Hdd.
      injection H95 as <-. injection H99 as <-. injection Hdd as <-.
      split.
      * match goal with
        | H1 : np_percentile ?xs 1 = Ret _, H5 : np_percentile ?xs 5 = Ret _ |- _ =>
            apply (np_percentile_monotone xs 1 5); [lra | lra | lra | exact H1 | exact H5]
        end.
      * match goal with
        | Hm : _calculate_portfolio_max_drawdown _ = Ret _ |- _ =>
            exact (portfolio_max_drawdown_nonneg _ _ Hm)
        end.
  - injection H as <-. discriminate.
Qed.

Lemma risk_metrics_var_order_witness :
  exists v95 v99 drawdown,
    field_of four_price_metrics "var_95" = Some (PNum v95)
    /\ field_of four_price_metrics "var_99" = Some (PNum v99)
    /\ field_of four_price_metrics "max_drawdown" = Some (PNum drawdown)
    /\ v99 <= v95 /\ 0 <= drawdown.
Proof.
  eexists. eexists. eexists.
  split; [reflexivity |]. split; [reflexivity |]. split; [reflexivity |].
  apply (risk_metrics_var_order (fun q => q) (fun _ => 0) (fun _ => 0)
           one_asset_data four_prices four_price_metrics); reflexivity.
Defined.

(** ** Highly correlated pairs, diversification levels *)

Lemma insert_by_abs_In (x y : string * string * Q) (l : list (string * string * Q)) :
  In y (insert_by_abs x l) <-> y = x \/ In y l.
Proof.
  induction l as [| z t IH]; simpl.
  - intuition congruence.
  - destruct (Qlt_le_dec (Qabs (snd x)) (Qabs (snd z))); simpl.
    + rewrite IH. intuition congruence.
    + intuition congruence.
Qed.

Lemma sort_by_abs_In (y : string * string * Q) (l : list (string * string * Q)) :
  In y (fold_right insert_by_abs [] l) <-> In y l.
Proof.
  induction l as [| x t IH]; simpl; [tauto |].
  rewrite insert_by_abs_In, IH. intuition congruence.
Qed.

Lemma insert_by_abs_Forall (P : string * string * Q -> Prop) (x : string * string * Q)
  (l : list (string * string * Q)) :
  P x -> Forall P l -> Forall P (insert_by_abs x l).
Proof.
  intros Hx Hl. induction Hl as [| y t Hy Ht IH]; simpl.
  - constructor; [exact Hx | constructor].
  - destruct (Qlt_le_dec (Qabs (snd x)) (Qabs (snd y))); repeat constructor; assumption.
Qed.

Lemma insert_by_abs_sorted (x : string * string * Q) (l : list (string * string * Q)) :
  StronglySorted by_abs_descending l ->
  StronglySorted by_abs_descending (insert_by_abs x l).
Proof.
  induction 1 as [| y t Hs IH Hall]; simpl.
  - constructor; constructor.
  - destruct (Qlt_le_dec (Qabs (snd x)) (Qabs (snd y))) as [Hlt | Hle].
    + constructor; [exact IH |].
      apply insert_by_abs_Forall; [unfold by_abs_descending; lra | exact Hall].
    + constructor.
      * constructor; assumption.
      * constructor; [exact Hle |].
        eapply Forall_impl; [| exact Hall]. unfold by_abs_descending. intros z Hz. lra.
Qed.

Lemma sort_by_abs_sorted (l : list (string * string * Q)) :
  StronglySorted by_abs_descending (fold_right insert_by_abs [] l).
Proof.
  induction l as [| x t IH]; simpl; [constructor |].
  apply insert_by_abs_sorted. exact IH.
Qed.

Lemma pairs_of_pair_dicts (l : list (string * string * Q)) :
  pairs_of (PList (map (fun p => PDict [ ("asset1", PStr (fst (fst p)));
                                         ("asset2", PStr (snd (fst p)));
                                         ("correlation", PNum (snd p)) ]) l))
  = l.
Proof.
  unfold pairs_of. induction l as [| [[a b] c] t IH]; [reflexivity |].
  cbn [map flat_map]. rewrite IH. reflexivity.
Qed.

(** X20: [_find_highly_correlated_pairs] reports exactly the pairs of
    columns above the diagonal of the matrix whose absolute correlation
    reaches the threshold, each with its two column names, and lists them by
    decreasing absolute correlation. *)
Theorem highly_correlated_pairs_sound_complete_sorted :
  forall (columns : list string) (m : list (list Q)) (threshold : Q),
    (forall a b c,
        In (a, b, c) (pairs_of (_find_highly_correlated_pairs columns m threshold))
        <-> exists i j,
              (i < j)%nat /\ (j < List.length columns)%nat
              /\ a = nth i columns "" /\ b = nth j columns ""
              /\ c = matrix_at m i j /\ threshold <= Qabs c)
    /\ StronglySorted by_abs_descending
         (pairs_of (_find_highly_correlated_pairs columns m threshold)).
Proof.
  intros columns m threshold. unfold _find_highly_correlated_pairs.
  rewrite pairs_of_pair_dicts. split; [| apply sort_by_abs_sorted].
  intros a b c. rewrite sort_by_abs_In, in_flat_map. split.
  - intros (i & Hi & Hin). apply in_seq in Hi.
    apply in_flat_map in Hin. destruct Hin as (j & Hj & Hin). apply in_seq in Hj.
    destruct (Qle_bool threshold (Qabs (matrix_at m i j))) eqn:E; [| contradiction].
    destruct Hin as [Heq | []]. injection Heq as <- <- <-.
    apply Qle_bool_iff in E.
    exists i, j. repeat split; try reflexivity; try lia. exact E.
  - intros (i & j & Hij & Hj & -> & -> & -> & Hth).
    exists i. split; [apply in_seq; lia |].
    apply in_flat_map. exists j. split; [apply in_seq; lia |].
    apply Qle_bool_iff in Hth. rewrite Hth. left. reflexivity.
Qed.

(** X21: a higher average correlation never gets a better diversification
    level. *)
Theorem categorize_diversification_monotone :
  forall c1 c2 : Q,
    c1 <= c2 ->
    (diversification_rank (_categorize_diversification c1)
     <= diversification_rank (_categorize_diversification c2))%nat.
Proof.
  intros c1 c2 Hle. unfold _categorize_diversification.
  repeat match goal with
         | |- context [Qlt_le_dec ?a ?b] => destruct (Qlt_le_dec a b)
         end; try lra; vm_compute; lia.
Qed.

Lemma categorize_diversification_monotone_witness :
  (diversification_rank (_categorize_diversification (-(1 # 2)))
   <= diversification_rank (_categorize_diversification (7 # 10)))%nat.
Proof.
  apply categorize_diversification_monotone. lra.
Defined.

(** ** Correlation analysis with an asset that has no history *)

Lemma dict_set_length_le {V : Type} (k : string) (v : V) (d : list (string * V)) :
  (List.length (dict_set k v d) <= S (List.length d))%nat.
Proof.
  induction d as [| [k' v'] t IH]; simpl; [lia |].
  destruct (String.eqb k k'); simpl; lia.
Qed.

Lemma gather_returns_length (price_data : PriceData)
  (acc acc' : list (string * list npfloat) * option nat) (s : string) :
  gather_returns price_data acc s = Ret acc' ->
  (List.length (fst acc') <= S (List.length (fst acc)))%nat
  /\ ((List.length (history (price_data_get price_data s)) < 2)%nat ->
      List.length (fst acc') = List.length (fst acc)).
Proof.
  unfold gather_returns, _calculate_returns. fold (history (price_data_get price_data s)).
  destruct (Nat.ltb_spec (List.length (history (price_data_get price_data s))) 2)
    as [Hlt | Hge].
  - cbn. intros H. injection H as <-. split; [lia | reflexivity].
  - intros H. inv_bind H. split; [| lia].
    destruct (0 <? List.length a)%nat; injection H as <-; cbn [fst].
    + apply dict_set_length_le.
    + lia.
Qed.

Lemma gather_fold_length (price_data : PriceData) (symbols : list string) :
  forall acc acc',
    foldM (gather_returns price_data) symbols acc = Ret acc' ->
    (List.length (fst acc') <= List.length (fst acc) + List.length symbols)%nat
    /\ ((exists s, In s symbols
                   /\ (List.length (history (price_data_get price_data s)) < 2)%nat) ->
        (List.length (fst acc') < List.length (fst acc) + List.length symbols)%nat).
Proof.
  induction symbols as [| s t IH]; intros acc acc' H; cbn [foldM] in H.
  - injection H as <-. split; [simpl; lia | intros (s & [] & _)].
  - inv_bind H. destruct (gather_returns_length _ _ _ _ Ha) as [Hle Hsame].
    destruct (IH _ _ H) as [Hle' Hlt']. split; [simpl; lia |].
    intros (s0 & [<- | Hin] & Hshort).
    + specialize (Hsame Hshort). simpl. lia.
    + assert (Hex : exists s1, In s1 t
                /\ (List.length (history (price_data_get price_data s1)) < 2)%nat)
        by (exists s0; split; assumption).
      specialize (Hlt' Hex). simpl. lia.
Qed.

Lemma mapM_ret_length {A B : Type} (f : A -> outcome B) (xs : list A) :
  forall ys, mapM f xs = Ret ys -> List.length ys = List.length xs.
Proof.
  induction xs as [| x t IH]; intros ys H; cbn [mapM] in H.
  - injection H as <-. reflexivity.
  - inv_bind H. inv_bind H. injection H as <-. simpl. rewrite (IH _ Ha0). reflexivity.
Qed.

Lemma mapM_raises {A B : Type} (f : A -> outcome B) (e : exn) (xs : list A) :
  (forall x, In x xs -> (exists y, f x = Ret y) \/ f x = Raise e) ->
  (exists x, In x xs /\ f x = Raise e) ->
  mapM f xs = Raise e.
Proof.
  induction xs as [| x t IH]; intros Hall (x0 & Hin & Hx0); [contradiction |].
  cbn [mapM]. destruct (Hall x (or_introl eq_refl)) as [(y & Hy) | Hy].
  - rewrite Hy. cbn [bind]. rewrite IH; [reflexivity | |].
    + intros z Hz. apply Hall. right. exact Hz.
    + destruct Hin as [<- | Hin]; [congruence |]. exists x0. split; assumption.
  - rewrite Hy. reflexivity.
Qed.

Lemma weighted_terms_out_of_bounds (np_sqrt : Q -> Q) (returns_df : list (list Q))
  (weights : list Q) :
  (List.length returns_df < List.length weights)%nat ->
  mapM (fun iw : nat * Q =>
          match nth_error returns_df (fst iw) with
          | Some column => Ret (snd iw * series_std np_sqrt column)
          | None => Raise IndexError
          end)
       (combine (seq 0 (List.length weights)) weights)
  = Raise IndexError.
Proof.
  intros Hlt. apply mapM_raises.
  - intros iw _. destruct (nth_error returns_df (fst iw)); [left; eexists; reflexivity |].
    right. reflexivity.
  - exists (List.length returns_df, nth (List.length returns_df) weights 0). split.
    + assert (E : nth (List.length returns_df)
                      (combine (seq 0 (List.length weights)) weights) (0%nat, 0)
                  = (List.length returns_df, nth (List.length returns_df) weights 0)).
      { rewrite combine_nth by (rewrite length_seq; reflexivity).
        rewrite seq_nth by exact Hlt. reflexivity. }
      rewrite <- E. apply nth_In.
      rewrite length_combine, length_seq. lia.
    + cbn [fst].
      destruct (nth_error returns_df (List.length returns_df)) eqn:E; [| reflexivity].
      assert (Hn : nth_error returns_df (List.length returns_df) <> None) by congruence.
      apply nth_error_Some in Hn. lia.
Qed.

Lemma correlations_with_short_history (np_sqrt : Q -> Q)
  (df_corr : list (list Q) -> list (list Q))
  (portfolio_data : Portfolio) (price_data : PriceData)
  (assets' : list Asset) (s : string) (v : pyval) :
  assets portfolio_data = Some assets' ->
  In s (map a_symbol assets') ->
  (List.length (history (price_data_get price_data s)) < 2)%nat ->
  _analyze_portfolio_correlations np_sqrt df_corr portfolio_data price_data = Ret v ->
  v = one_asset_message \/ exists e, v = PDict [("error", e)].
Proof.
  intros Ha Hin Hshort H. unfold _analyze_portfolio_correlations in H.
  rewrite Ha in H. cbn [subscript bind] in H.
  apply try_except_ret_inv in H. destruct H as [H | (e & _ & H)].
  - destruct (List.length (map a_symbol assets') <? 2)%nat.
    + injection H as <-. left. reflexivity.
    + inv_bind H.
      destruct (gather_fold_length _ _ _ _ Ha0) as [_ Hlt].
      specialize (Hlt (ex_intro _ s (conj Hin Hshort))). cbn [fst List.length] in Hlt.
      rewrite length_map in Hlt.
      destruct (snd a) as [min_length |].
      * destruct ((List.length (fst a) <? 2) || (min_length <? 10))%nat.
        -- injection H as <-. right. eexists. reflexivity.
        -- inv_bind H. inv_bind H. inv_bind H. inv_bind H. inv_bind H.
           apply mapM_ret_length in Ha1.
           rewrite weighted_terms_out_of_bounds in H; [discriminate |].
           rewrite length_map. lia.
      * injection H as <-. right. eexists. reflexivity.
  - injection H as <-. right. eexists. reflexivity.
Qed.

(** X22: an asset without a usable history (fewer than two price records)
    disables the correlation analysis of the whole portfolio: its weight is
    kept while it has no column in the frame of returns, so whenever
    [_analyze_portfolio_correlations] returns, the result is the message for
    a single asset or an error, never a correlation matrix. *)
Theorem correlation_analysis_needs_every_history :
  forall (np_sqrt : Q -> Q) (df_corr : list (list Q) -> list (list Q))
         (portfolio_data : Portfolio) (price_data : PriceData)
         (assets' : list Asset) (s : string) (v : pyval),
    assets portfolio_data = Some assets' ->
    In s (map a_symbol assets') ->
    (List.length (history (price_data_get price_data s)) < 2)%nat ->
    _analyze_portfolio_correlations np_sqrt df_corr portfolio_data price_data = Ret v ->
    (v = one_asset_message \/ exists e, v = PDict [("error", e)])
    /\ field_of v "correlation_matrix" = None
    /\ field_of v "diversification_ratio" = None.
Proof.
  intros np_sqrt df_corr portfolio_data price_data assets' s v Ha Hin Hshort H.
  pose proof (correlations_with_short_history _ _ _ _ _ _ _ Ha Hin Hshort H) as Hv.
  split; [exact Hv |].
  destruct Hv as [-> | (e & ->)]; split; reflexivity.
Qed.

Lemma correlation_analysis_needs_every_history_witness :
  (10 <= return_count three_asset_prices "BTC")%nat
  /\ (10 <= return_count three_asset_prices "ETH")%nat
  /\ _analyze_portfolio_correlations (fun q => q) (fun m => m)
       three_asset_data three_asset_prices
     = Ret (error_result IndexError)
  /\ (error_result IndexError = one_asset_message
      \/ exists e, error_result IndexError = PDict [("error", e)])
  /\ field_of (error_result IndexError) "correlation_matrix" = None
  /\ field_of (error_result IndexError) "diversification_ratio" = None.
Proof.
  split; [vm_compute; lia |]. split; [vm_compute; lia |].
  split; [vm_compute; reflexivity |].
  apply (correlation_analysis_needs_every_history (fun q => q) (fun m => m)
           three_asset_data three_asset_prices
           (get_default (assets three_asset_data) []) "NEW" (error_result IndexError)).
  - reflexivity.
  - right. right. left. reflexivity.
  - vm_compute. lia.
  - vm_compute. reflexivity.
Defined.

(** ** A floor of the risk score *)









(** ** Sharpe and Sortino ratios, the window of the volatility *)

Lemma variance_of_one (r : Q) :
  mean_of (map (fun x => (x - mean_of [r]) * (x - mean_of [r])) [r]) == 0.
Proof.
  unfold mean_of, Qlen. simpl. field.
Qed.

(** X24: when exactly one return is negative, the Sortino ratio is 0,
    whatever the mean return: the standard deviation of the single loss is
    0, and the guard of the division returns 0.  The square root of 0 is
    assumed to be 0. *)
Theorem sortino_ratio_of_a_single_loss :
  forall (np_sqrt : Q -> Q) (returns : list Q) (r : Q),
    (forall q, q == 0 -> np_sqrt q == 0) ->
    losses returns = [r] ->
    _calculate_sortino_ratio np_sqrt returns = Ret 0.
Proof.
  intros np_sqrt returns r Hsqrt Hloss. unfold _calculate_sortino_ratio.
  destruct returns as [| x t]; [reflexivity |].
  cbn [List.length Nat.eqb]. fold (losses (x :: t)). rewrite Hloss.
  cbn [List.length Nat.ltb Nat.leb np_std bind].
  pose proof (Hsqrt _ (variance_of_one r)) as Hzero.
  destruct (Qlt_le_dec 0 _) as [Hpos | _]; [| reflexivity].
  rewrite Hzero in Hpos. lra.
Qed.

Lemma sortino_ratio_of_a_single_loss_witness :
  losses [1 # 10; -(1 # 20); 2 # 10] = [-(1 # 20)]
  /\ _calculate_sortino_ratio (fun q => q) [1 # 10; -(1 # 20); 2 # 10] = Ret 0.
Proof.
  split; [reflexivity |].
  apply (sortino_ratio_of_a_single_loss (fun q => q) [1 # 10; -(1 # 20); 2 # 10]
           (-(1 # 20))).
  - intros q Hq. exact Hq.
  - reflexivity.
Defined.

Lemma guarded_ratios_agree (x sd dsd : Q) :
  0 <= (if Qlt_le_dec 0 sd then x / sd else 0)
       * (if Qlt_le_dec 0 dsd then x / dsd else 0).
Proof.
  destruct (Qlt_le_dec 0 sd) as [Hsd | _]; [| lra].
  destruct (Qlt_le_dec 0 dsd) as [Hdsd | _]; [| lra].
  assert (E : x / sd * (x / dsd) == (x * x) * (/ sd * / dsd)) by (field; lra).
  rewrite E. apply Qmult_le_0_compat.
  - nra.
  - apply Qlt_le_weak. apply Qmult_lt_0_compat; apply Qinv_lt_0_compat; assumption.
Qed.

(** X25: the Sharpe and the Sortino ratio that
    [_calculate_portfolio_risk_metrics] reports never have opposite signs:
    both divide the same excess return by a positive deviation, or are 0. *)
Theorem sharpe_and_sortino_agree_in_sign :
  forall (np_sqrt : Q -> Q) (stats_skew stats_kurtosis : list Q -> Q)
         (portfolio_data : Portfolio) (price_data : PriceData) (rm : pyval)
         (sharpe sortino : Q),
    _calculate_portfolio_risk_metrics np_sqrt stats_skew stats_kurtosis
      portfolio_data price_data = Ret rm ->
    field_of rm "sharpe_ratio" = Some (PNum sharpe) ->
    field_of rm "sortino_ratio" = Some (PNum sortino) ->
    0 <= sharpe * sortino.
Proof.
  intros np_sqrt stats_skew stats_kurtosis portfolio_data price_data rm sharpe sortino
    H Hsharpe Hsortino.
  unfold _calculate_portfolio_risk_metrics in H.
  apply try_except_ret_inv in H. destruct H as [H | (e & _ & H)].
  - inv_bind H. destruct (List.length a =? 0)%nat.
    + injection H as <-. discriminate.
    + inv_bind H. inv_bind H. inv_bind H.
      unfold _calculate_sortino_ratio in Ha2.
      destruct (List.length a0 =? 0)%nat.
      * injection Ha2 as <-. repeat inv_bind H. injection H as <-.
        cbn in Hsharpe, Hsortino. injection Hsharpe as <-. injection Hsortino as <-.
        lra.
      * inv_bind Ha2. injection Ha2 as <-. repeat inv_bind H. injection H as <-.
        cbn in Hsharpe, Hsortino. injection Hsharpe as <-. injection Hsortino as <-.
        apply guarded_ratios_agree.
  - injection H as <-. discriminate.
Qed.

Lemma sharpe_and_sortino_agree_in_sign_witness :
  exists sharpe sortino,
    field_of four_price_metrics "sharpe_ratio" = Some (PNum sharpe)
    /\ field_of four_price_metrics "sortino_ratio" = Some (PNum sortino)
    /\ 0 <= sharpe * sortino.
Proof.
  eexists. eexists. split; [reflexivity |]. split; [reflexivity |].
  apply (sharpe_and_sortino_agree_in_sign (fun q => q) (fun _ => 0) (fun _ => 0)
           one_asset_data four_prices four_price_metrics); reflexivity.
Defined.

Lemma last_n_cons {A : Type} (n : nat) (x : A) (l : list A) :
  (n <= List.length l)%nat -> last_n n (x :: l) = last_n n l.
Proof.
  intros Hle. unfold last_n. cbn [List.length].
  replace (S (List.length l) - n)%nat with (S (List.length l - n)) by lia.
  reflexivity.
Qed.

Lemma recent_returns (n : nat) (old recent : list Q) :
  List.length recent = S n ->
  last_n n (simple_returns (old ++ recent)) = simple_returns recent.
Proof.
  intros Hlen. induction old as [| p old' IH].
  - cbn [app]. unfold last_n. rewrite simple_returns_length, Hlen.
    replace (S n - 1 - n)%nat with 0%nat by lia. reflexivity.
  - cbn [app]. destruct (old' ++ recent)%list as [| p' t] eqn:E.
    + apply (f_equal (@List.length Q)) in E. rewrite length_app in E. simpl in E. lia.
    + rewrite simple_returns_cons2. rewrite last_n_cons; [exact IH |].
      rewrite simple_returns_length. rewrite <- E, length_app. lia.
Qed.

(** X26: the volatility of an asset looks at the last 31 prices only: a
    history that ends with the same 31 prices has the same volatility,
    whatever came before (beta and the Sharpe ratio use the whole
    history). *)
Theorem volatility_uses_the_last_window :
  forall (np_sqrt : Q -> Q) (pd : SymbolData) (old recent : list Q),
    prices pd = Some (records_of (old ++ recent)) ->
    List.length recent = 31%nat ->
    _calculate_volatility np_sqrt pd 30
    = _calculate_volatility np_sqrt (series recent) 30.
Proof.
  intros np_sqrt pd old recent Hp Hlen.
  unfold _calculate_volatility.
  rewrite (calculate_returns_records pd (old ++ recent) Hp)
    by (rewrite length_app; lia).
  rewrite (calculate_returns_records (series recent) recent eq_refl) by lia.
  cbn [bind]. rewrite !simple_returns_length, length_app, Hlen.
  destruct (Nat.ltb_spec (List.length old + 31 - 1) 30) as [Hlt | _]; [lia |].
  cbn [Nat.sub Nat.ltb Nat.leb].
  rewrite (recent_returns 30 old recent Hlen).
  pose proof (recent_returns 30 [] recent Hlen) as E. cbn [app] in E.
  rewrite E. reflexivity.
Qed.

Lemma volatility_uses_the_last_window_witness :
  List.length month_of_prices = 31%nat
  /\ forall np_sqrt : Q -> Q,
       _calculate_volatility np_sqrt (series (older_prices ++ month_of_prices)) 30
       = _calculate_volatility np_sqrt (series month_of_prices) 30.
Proof.
  split; [reflexivity |]. intros np_sqrt.
  apply (volatility_uses_the_last_window np_sqrt (series (older_prices ++ month_of_prices))
           older_prices month_of_prices); reflexivity.
Defined.

(** ** Recommendations of an assessment *)

Lemma filter_no_flag (ar : dict) :
  filter snd (map (fun sr : string * pyval => (fst sr, false)) ar) = [].
Proof.
  induction ar as [| kv t IH]; [reflexivity | exact IH].
Qed.

Lemma recommendations_without_levels (ra : dict) (ar : dict) (recs : list string) :
  dict_get "asset_risks" ra = Some (PDict ar) ->
  Forall asset_risk_shape ar ->
  _generate_risk_recommendations (PDict ra) = Ret recs ->
  Forall (fun r => In r general_recommendations) recs /\ (List.length recs <= 6)%nat.
Proof.
  intros Har Hshape H. unfold _generate_risk_recommendations in H.
  unfold get_in in H. cbn [py_get] in H. rewrite Har in H.
  cbn [get_default bind items] in H.
  repeat match type of H with
         | bind (Ret _) _ = _ => cbn [bind] in H
         | bind (mapM _ _) _ = _ =>
             rewrite (no_high_risk_assets ar Hshape) in H; cbn [bind] in H
         | bind ?c _ = _ => destruct c; cbn [bind] in H; try discriminate
         end.
  rewrite filter_no_flag in H. cbn [map] in H. injection H as <-.
  destruct (is_high _);
  repeat match goal with
         | |- context [Qlt_le_dec ?x ?y] => destruct (Qlt_le_dec x y)
         end;
    cbn [app List.length]; (split; [| lia]);
    repeat (apply Forall_cons; [simpl; tauto |]); apply Forall_nil.
Qed.

(** X27: the recommendations of a completed assessment are general ones
    only: at most six of the seven fixed messages.  The assets' results hold
    no [risk_level], so the message that lists the high-risk assets is never
    among them. *)
Theorem assessment_recommendations_name_no_asset :
  forall (now : string) (np_sqrt : Q -> Q) (stats_skew stats_kurtosis : list Q -> Q)
         (norm_ppf : Q -> Q) (df_corr : list (list Q) -> list (list Q))
         (portfolio : Portfolio) (price_data : PriceData) (d : dict),
    assess_portfolio_risk now np_sqrt stats_skew stats_kurtosis norm_ppf df_corr
      portfolio price_data = Ret (PDict d) ->
    dict_get "error" d = None ->
    exists recs,
      dict_get "recommendations" d = Some (PList (map PStr recs))
      /\ Forall (fun r => In r general_recommendations) recs
      /\ (List.length recs <= 6)%nat.
Proof.
  intros now np_sqrt stats_skew stats_kurtosis norm_ppf df_corr portfolio price_data d
    H Herr.
  unfold assess_portfolio_risk in H. apply try_except_ret_inv in H.
  destruct H as [H | (e & _ & H)]; [| injection H as <-; discriminate].
  inv_bind H. inv_bind H. inv_bind H. inv_bind H.
  pose proof (asset_risks_shape _ _ _ _ _ Ha2 (Forall_nil _)) as Hshape.
  repeat inv_bind H. injection H as <-.
  match goal with
  | Hr : _generate_risk_recommendations (PDict ?ra) = Ret ?r |- _ =>
      exists r; split; [reflexivity |];
      apply (recommendations_without_levels ra a2 r); [reflexivity | exact Hshape | exact Hr]
  end.
Qed.

Lemma assessment_recommendations_name_no_asset_witness :
  dict_get "error" (btc_assessment "2024-01-01T00:00:00") = None
  /\ exists recs,
       dict_get "recommendations" (btc_assessment "2024-01-01T00:00:00")
       = Some (PList (map PStr recs))
       /\ Forall (fun r => In r general_recommendations) recs
       /\ (List.length recs <= 6)%nat.
Proof.
  split; [reflexivity |].
  apply (assessment_recommendations_name_no_asset "2024-01-01T00:00:00" (fun q => Qabs q)
           (fun _ => 0) (fun _ => 0) (fun q => q) (fun m => m) btc_holder btc_prices);
    reflexivity.
Defined.
